(** * preprocess.py: the churn dataset preparation script

    A shallow embedding of the script that the notebook
    [SageMaker_Customer_Churn_XGB_end2end.ipynb] writes to [preprocess.py]:
    it downloads a CSV object, drops columns, one-hot encodes the textual
    columns, moves the churn label to the front, shuffles the rows with a
    fixed seed, cuts them at [int(0.7 * n)] and [int(0.9 * n)] and writes
    the three blocks as header-free CSV files.

    The script is a sequence of pandas and numpy calls.  Each call is
    embedded as a function on an explicit [DataFrame] value; exceptions are
    values of [result]; the file system and the object store are threaded
    through a state-and-exception monad.  Three library behaviours are left
    as section variables: the text of a float ([repr]), the CSV parser
    ([pd.read_csv]) and the seeded permutation of
    [numpy.random.RandomState]. *)

From Stdlib Require Import ZArith List String Ascii Bool Lia SpecFloat.
From stdpp Require Import base option list strings pretty gmap sorting.

Local Open Scope string_scope.
Local Open Scope Z_scope.
Local Open Scope list_scope.

(** ** Python exceptions and results *)

Inductive exception :=
  | IndexError
  | KeyError (missing : list string)
  | ValueError
  | OverflowError
  | FileNotFoundError
  | ClientError
  | ParamValidationError
  | EmptyDataError
  | ParserError.

Inductive result (A : Type) :=
  | Ok (a : A)
  | Raise (e : exception).
Arguments Ok {A} a.
Arguments Raise {A} e.

#[export] Instance result_ret : MRet result := fun A a => Ok a.
#[export] Instance result_bind : MBind result := fun A B f r =>
  match r with
  | Ok a => f a
  | Raise e => Raise e
  end.

Definition is_ok {A} (r : result A) : bool :=
  match r with Ok _ => true | Raise _ => false end.

(** ** Python built-ins used by the script *)

(** [s.split(sep)] for a one-character separator: every occurrence cuts,
    so the result has one more piece than there are separators. *)
Fixpoint py_split (sep : ascii) (s : string) : list string :=
  match s with
  | EmptyString => [EmptyString]
  | String c s' =>
      if Ascii.eqb c sep then EmptyString :: py_split sep s'
      else match py_split sep s' with
           | [] => [String c EmptyString]
           | w :: ws => String c w :: ws
           end
  end.

(** [sep.join(parts)] *)
Definition py_join (sep : string) (parts : list string) : string :=
  String.concat sep parts.

(** [l[i]] for a non-negative literal index. *)
Definition py_getitem {A} (l : list A) (i : nat) : result A :=
  match l !! i with
  | Some x => Ok x
  | None => Raise IndexError
  end.

(** [l[start:stop]]: negative bounds count from the end and both bounds
    are clamped to the length. *)
Definition slice_bound (n i : Z) : Z :=
  Z.max 0 (Z.min n (if i <? 0 then i + n else i)).

Definition py_slice {A} (start stop : Z) (l : list A) : list A :=
  let n := Z.of_nat (length l) in
  let lo := slice_bound n start in
  let hi := slice_bound n stop in
  take (Z.to_nat (hi - lo)) (drop (Z.to_nat lo) l).

(** *** Floats

    A Python float is an IEEE 754 binary64 number; [spec_float] with
    [prec = 53] and [emax = 1024] is the standard library's specification
    of that format, rounding to nearest, ties to even. *)
Definition prec : Z := 53.
Definition emax : Z := 1024.

(** The literals [0.7] and [0.9]: the doubles [0x1.6666666666666p-1] and
    [0x1.ccccccccccccdp-1]. *)
Definition float_0_7 : spec_float := S754_finite false 6305039478318694 (-53).
Definition float_0_9 : spec_float := S754_finite false 8106479329266893 (-53).

(** The conversion of an [int] operand of a float operation. *)
Definition py_float (n : Z) : result spec_float :=
  match binary_normalize prec emax n 0 false with
  | S754_infinity _ => Raise OverflowError
  | f => Ok f
  end.

(** [x * n] for a float [x] and an int [n]. *)
Definition float_mul_int (x : spec_float) (n : Z) : result spec_float :=
  y ← py_float n; Ok (SFmul prec emax x y).

(** [int(f)]: truncation towards zero. *)
Definition py_int (f : spec_float) : result Z :=
  match f with
  | S754_zero _ => Ok 0
  | S754_finite s m e => Ok (cond_Zopp s (Z.shiftl (Zpos m) e))
  | S754_infinity _ => Raise OverflowError
  | S754_nan => Raise ValueError
  end.

(** [int(x * n)], the expression that computes both cut points. *)
Definition int_frac (x : spec_float) (n : Z) : result Z :=
  float_mul_int x n ≫= py_int.

(** The state of the rounding shifter after [k] one-bit shifts of the
    mantissa [M]: the kept bits are the quotient, and a set round or sticky
    bit records that the shifted-out bits were not all zero. *)
Definition shr_inv (M k : Z) (mrs : shr_record) : Prop :=
  shr_m mrs = M / 2 ^ k /\ (shr_r mrs || shr_s mrs = true -> M mod 2 ^ k <> 0).

(** ** Values held by a frame *)

(** The element types that occur: what the parser infers ([int64],
    [float64], [bool], [object]) and the type of an indicator column. *)
Inductive dtype := int64 | float64 | bool_ | object_ | uint8.

#[export] Instance dtype_eq_dec : EqDecision dtype.
Proof. solve_decision. Defined.

(** One cell.  A missing value is the float [nan], in every column type
    that can hold one. *)
Inductive scalar :=
  | Int (z : Z)
  | Float (f : spec_float)
  | Bool (b : bool)
  | Str (s : string).

#[export] Instance spec_float_eq_dec : EqDecision spec_float.
Proof. solve_decision. Defined.

#[export] Instance scalar_eq_dec : EqDecision scalar.
Proof. solve_decision. Defined.

Definition nan : scalar := Float S754_nan.

(** [pd.isna] on one cell. *)
Definition isna (v : scalar) : bool :=
  match v with
  | Float S754_nan => true
  | _ => false
  end.

(** The exact value of a numeric cell, [m * 2 ^ e] when finite; Python
    compares an int with a float by value, without rounding the int. *)
Inductive number := NegInf | Finite (m e : Z) | PosInf | NotANumber.

Definition number_of (v : scalar) : option number :=
  match v with
  | Int z => Some (Finite z 0)
  | Bool b => Some (Finite (Z.b2z b) 0)
  | Float (S754_zero _) => Some (Finite 0 0)
  | Float (S754_finite s m e) => Some (Finite (cond_Zopp s (Zpos m)) e)
  | Float (S754_infinity s) => Some (if s then NegInf else PosInf)
  | Float S754_nan => Some NotANumber
  | Str _ => None
  end.

Definition number_compare (a b : number) : option comparison :=
  match a, b with
  | NotANumber, _ | _, NotANumber => None
  | NegInf, NegInf | PosInf, PosInf => Some Eq
  | NegInf, _ | _, PosInf => Some Lt
  | _, NegInf | PosInf, _ => Some Gt
  | Finite m1 e1, Finite m2 e2 =>
      let e := Z.min e1 e2 in
      Some (m1 * 2 ^ (e1 - e) ?= m2 * 2 ^ (e2 - e))
  end.

(** [a == b] *)
Definition py_eqb (a b : scalar) : bool :=
  match a, b with
  | Str s, Str t => String.eqb s t
  | Str _, _ | _, Str _ => false
  | _, _ =>
      match number_of a, number_of b with
      | Some x, Some y =>
          match number_compare x y with Some Eq => true | _ => false end
      | _, _ => false
      end
  end.

(** The order in which pandas sorts the distinct values of an object
    column: numbers by value, then strings by code point. *)
Definition sort_leb (a b : scalar) : bool :=
  match a, b with
  | Str s, Str t => String.leb s t
  | Str _, _ => false
  | _, Str _ => true
  | _, _ =>
      match number_of a, number_of b with
      | Some x, Some y =>
          match number_compare x y with Some Gt => false | _ => true end
      | _, _ => true
      end
  end.

Definition sort_le (a b : scalar) : Prop := sort_leb a b = true.

#[export] Instance sort_le_dec : RelDecision sort_le.
Proof. intros a b. unfold sort_le. apply _. Defined.

(** ** Series and frames *)

Record Series := mkSeries { s_dtype : dtype; s_values : list scalar }.

#[export] Instance Series_eq_dec : EqDecision Series.
Proof. solve_decision. Defined.

(** A frame: the row labels and the labelled columns, in order.  In a frame
    built by pandas every column has as many values as there are labels. *)
Record DataFrame := mkFrame {
  index : list Z;
  columns : list (string * Series)
}.

Definition len (df : DataFrame) : nat := length (index df).

Definition labels (df : DataFrame) : list string := (columns df).*1.

(** Labels with element types: what a consumer of header-free rows relies on. *)
Definition schema (df : DataFrame) : list (string * dtype) :=
  (fun c => (c.1, s_dtype c.2)) <$> columns df.

Definition wf (df : DataFrame) : Prop :=
  Forall (fun c => length (s_values c.2) = len df) (columns df).

(** Row [i], with its label. *)
Definition row (df : DataFrame) (i : nat) : Z * list scalar :=
  (nth i (index df) 0, (fun c => nth i (s_values c.2) nan) <$> columns df).

Definition rows (df : DataFrame) : list (Z * list scalar) :=
  row df <$> seq 0 (len df).

(** ** The pandas and numpy calls of the script *)

Section Pandas.

(** [repr] of a float: the shortest decimal text that reads back as the
    same double.  Only its being a function matters here. *)
Variable repr_float : spec_float -> string.

(** [str(v)] *)
Definition py_str (v : scalar) : string :=
  match v with
  | Int z => pretty z
  | Float f => repr_float f
  | Bool b => if b then "True" else "False"
  | Str s => s
  end.

(** [df.drop(names, axis=1)]: every column with one of the labels goes;
    a label that no column has raises [KeyError] listing the absent ones. *)
Definition DataFrame_drop (names : list string) (df : DataFrame) : result DataFrame :=
  match filter (fun l => l ∉ labels df) names with
  | [] => Ok (mkFrame (index df) (filter (fun c => c.1 ∉ names) (columns df)))
  | missing => Raise (KeyError missing)
  end.

(** [df[key]]: the columns labelled [key] (a single one when labels are
    distinct), [KeyError] when there is none. *)
Definition DataFrame_getitem (key : string) (df : DataFrame) : result DataFrame :=
  match filter (fun c => c.1 = key) (columns df) with
  | [] => Raise (KeyError [key])
  | cs => Ok (mkFrame (index df) cs)
  end.

(** [x.astype(t)] to [object]: the values are boxed unchanged. *)
Definition astype (t : dtype) (x : DataFrame) : DataFrame :=
  mkFrame (index x) ((fun c => (c.1, mkSeries t (s_values c.2))) <$> columns x).

(** [df[key] = value]: the columns labelled [key] are replaced in place,
    in order; a new label is appended. *)
Fixpoint setitem_columns (key : string) (new : list Series)
    (cols : list (string * Series)) : list (string * Series) :=
  match cols with
  | [] => []
  | c :: rest =>
      if decide (c.1 = key) then
        match new with
        | s :: new' => (key, s) :: setitem_columns key new' rest
        | [] => c :: setitem_columns key [] rest
        end
      else c :: setitem_columns key new rest
  end.

Definition DataFrame_setitem (key : string) (value df : DataFrame) : DataFrame :=
  if decide (key ∈ labels df) then
    mkFrame (index df) (setitem_columns key (columns value).*2 (columns df))
  else mkFrame (index df) (columns df ++ ((fun c => (key, c.2)) <$> columns value))%list.

(** [pd.concat(objs, axis=1)] for frames that share their row labels. *)
Definition concat (objs : list DataFrame) : result DataFrame :=
  match objs with
  | [] => Raise ValueError
  | o :: _ => Ok (mkFrame (index o) (objs ≫= columns))
  end.

(** The distinct values of a column in order of first occurrence. *)
Fixpoint uniques (vs : list scalar) : list scalar :=
  match vs with
  | [] => []
  | v :: vs' => v :: filter (fun w => py_eqb v w = false) (uniques vs')
  end.

(** The categories of an object column: distinct non-missing values, sorted. *)
Definition levels (vs : list scalar) : list scalar :=
  merge_sort sort_le (uniques (filter (fun v => isna v = false) vs)).

Definition is_object (c : string * Series) : Prop := s_dtype c.2 = object_.

(** The indicator columns of one object column, one per category, named
    [prefix_category]; a missing value has [0] in all of them. *)
Definition get_dummies_1d (prefix : string) (s : Series) : list (string * Series) :=
  (fun l => (prefix +:+ "_" +:+ py_str l,
             mkSeries uint8 ((fun v => Int (Z.b2z (py_eqb v l))) <$> s_values s)))
    <$> levels (s_values s).

(** [pd.get_dummies(df)]: the columns that are not of object type come
    first, unchanged, unless every column is encoded; the indicator
    columns of each object column follow, in column order. *)
Definition get_dummies (df : DataFrame) : result DataFrame :=
  let data_to_encode := filter is_object (columns df) in
  let with_dummies :=
    if decide (length data_to_encode = length (columns df)) then []
    else [mkFrame (index df) (filter (fun c => ¬ is_object c) (columns df))] in
  concat (with_dummies ++
          ((fun c => mkFrame (index df) (get_dummies_1d c.1 c.2)) <$> data_to_encode))%list.

(** [df.take(locs)]: the rows at the given positions, in the given order. *)
Definition take_rows (locs : list nat) (df : DataFrame) : DataFrame :=
  mkFrame ((fun i => nth i (index df) 0) <$> locs)
          ((fun c => (c.1, mkSeries (s_dtype c.2)
                             ((fun i => nth i (s_values c.2) nan) <$> locs)))
             <$> columns df).

(** [df[start:stop]]: a positional slice of the rows. *)
Definition slice_rows (start stop : Z) (df : DataFrame) : DataFrame :=
  mkFrame (py_slice start stop (index df))
          ((fun c => (c.1, mkSeries (s_dtype c.2) (py_slice start stop (s_values c.2))))
             <$> columns df).

(** [np.split(ary, indices)]: the pieces between consecutive cut points
    [0, indices..., len(ary)]. *)
Definition np_split (ary : DataFrame) (indices : list Z) : list DataFrame :=
  let div_points := (0 :: indices ++ [Z.of_nat (len ary)])%list in
  zip_with (fun st en => slice_rows st en ary) div_points (drop 1 div_points).

(** *** Writing: [df.to_csv(path, header=False, index=False)] *)

Definition quotechar : ascii := "034"%char.
Definition newline : ascii := "010"%char.

Definition needs_quotes (s : string) : bool :=
  existsb (fun c => Ascii.eqb c ","%char || Ascii.eqb c quotechar || Ascii.eqb c newline)
          (list_ascii_of_string s).

Fixpoint double_quotes (s : string) : string :=
  match s with
  | EmptyString => EmptyString
  | String c s' =>
      if Ascii.eqb c quotechar then String c (String c (double_quotes s'))
      else String c (double_quotes s')
  end.

Definition quoted (s : string) : string :=
  String quotechar (double_quotes s +:+ String quotechar EmptyString).

(** A missing value is written as the empty text. *)
Definition csv_field (v : scalar) : string :=
  let s := if isna v then "" else py_str v in
  if needs_quotes s then quoted s else s.

Definition csv_line (fields : list string) : string :=
  (match fields with
   | [EmptyString] => quoted ""
   | _ => py_join "," fields
   end) +:+ String newline EmptyString.

(** The fields of row [i], in column order. *)
Definition csv_fields (df : DataFrame) (i : nat) : list string :=
  (fun c => csv_field (nth i (s_values c.2) nan)) <$> columns df.

Definition csv_text (df : DataFrame) : string :=
  String.concat "" ((fun i => csv_line (csv_fields df i)) <$> seq 0 (len df)).

End Pandas.

(** ** The environment of a run *)

(** What the script reads and writes: the objects of the store it
    downloads from, and the files and directories of the container. *)
Record world := mkWorld {
  s3 : gmap (string * string) string;
  files : gmap string string;
  dirs : gset string
}.

(** A statement of the script: it may raise, and it may change the world. *)
Definition M (A : Type) : Type := world -> result A * world.

#[export] Instance M_ret : MRet M := fun A a w => (Ok a, w).
#[export] Instance M_bind : MBind M := fun A B f m w =>
  match m w with
  | (Ok a, w') => f a w'
  | (Raise e, w') => (Raise e, w')
  end.

(** A pure computation used as a statement. *)
Definition lift {A} (r : result A) : M A := fun w => (r, w).

Definition write_file (path text : string) (w : world) : world :=
  mkWorld (s3 w) (<[path := text]> (files w)) (dirs w).

(** The directory part of a path. *)
Definition dirname (path : string) : string :=
  let parts := py_split "/" path in
  py_join "/" (take (length parts - 1) parts).

(** A path and the directories above it. *)
Definition parents (path : string) : list string :=
  let parts := py_split "/" path in
  filter (fun p => p ≠ "") ((fun i => py_join "/" (take i parts)) <$> seq 1 (length parts)).

(** [pathlib.Path(path).mkdir(parents=True, exist_ok=True)] *)
Definition mkdir_parents (path : string) : M unit := fun w =>
  (Ok (), mkWorld (s3 w) (files w) (dirs w ∪ list_to_set (parents path))).

(** [s3.Bucket(bucket).download_file(key, fn)].  The client checks the
    parameters before it sends a request: an empty key is refused with
    [ParamValidationError], whatever the store holds.  A key that names
    no object is answered with [ClientError].  The store is asked about
    every bucket name: the client's check of the characters of the name
    is not part of the model. *)
Definition download_file (bucket key fn : string) : M unit := fun w =>
  if decide (key = "") then (Raise ParamValidationError, w)
  else
    match s3 w !! (bucket, key) with
    | None => (Raise ClientError, w)
    | Some body =>
        if decide (dirname fn ∈ dirs w) then (Ok (), write_file fn body w)
        else (Raise FileNotFoundError, w)
    end.

Section Script.

Variable repr_float : spec_float -> string.

(** What [pd.read_csv] makes of the text of a file. *)
Variable parse_csv : string -> result DataFrame.

(** [numpy.random.RandomState(seed).permutation(n)] *)
Variable permutation : Z -> nat -> list nat.

(** [pd.read_csv(fn)] *)
Definition read_csv (fn : string) : M DataFrame := fun w =>
  match files w !! fn with
  | None => (Raise FileNotFoundError, w)
  | Some text => (parse_csv text, w)
  end.

(** [df.to_csv(path, header=False, index=False)] *)
Definition to_csv (df : DataFrame) (path : string) : M unit := fun w =>
  if decide (dirname path ∈ dirs w) then (Ok (), write_file path (csv_text repr_float df) w)
  else (Raise FileNotFoundError, w).

(** [df.sample(frac=1, random_state=seed)]: all the rows, in the order of
    the first [n] entries of a permutation drawn from a generator
    seeded afresh. *)
Definition sample (random_state : Z) (df : DataFrame) : DataFrame :=
  let n := len df in
  take_rows (take n (permutation random_state n)) df.

(** *** The stages of the script *)

Definition discard_columns : list string :=
  ["Phone"; "Day Charge"; "Eve Charge"; "Night Charge"; "Intl Charge"].

(** Drop the phone number, make the area code categorical, drop the
    charges. *)
Definition clean (df : DataFrame) : result DataFrame :=
  df ← DataFrame_drop ["Phone"] df;
  area_code ← DataFrame_getitem "Area Code" df;
  let df := DataFrame_setitem "Area Code" (astype object_ area_code) df in
  DataFrame_drop ["Day Charge"; "Eve Charge"; "Night Charge"; "Intl Charge"] df.

(** One-hot encode, then put the churn indicator first and drop both
    churn indicator columns from the rest. *)
Definition encode (df : DataFrame) : result DataFrame :=
  model_data ← get_dummies repr_float df;
  target ← DataFrame_getitem "Churn?_True." model_data;
  features ← DataFrame_drop ["Churn?_False."; "Churn?_True."] model_data;
  concat [target; features].

(** Shuffle and cut at [int(0.7 * n)] and [int(0.9 * n)]. *)
Definition split (random_state : Z) (model_data : DataFrame)
    : result (DataFrame * DataFrame * DataFrame) :=
  let shuffled := sample random_state model_data in
  a ← int_frac float_0_7 (Z.of_nat (len model_data));
  b ← int_frac float_0_9 (Z.of_nat (len model_data));
  match np_split shuffled [a; b] with
  | [train_data; validation_data; test_data] =>
      Ok (train_data, validation_data, test_data)
  | _ => Raise ValueError
  end.

(** The three stages on a parsed frame. *)
Definition transform (random_state : Z) (df : DataFrame)
    : result (DataFrame * DataFrame * DataFrame) :=
  df ← clean df;
  model_data ← encode df;
  split random_state model_data.

Definition base_dir : string := "/opt/ml/processing".
Definition raw_path : string := "/opt/ml/processing/data/raw-data.csv".
Definition train_path : string := "/opt/ml/processing/train/train.csv".
Definition validation_path : string := "/opt/ml/processing/validation/validation.csv".
Definition test_path : string := "/opt/ml/processing/test/test.csv".

Definition output_paths : list string := [train_path; validation_path; test_path].

(** The body of the script, for the value of [--input-data]. *)
Definition preprocess (random_state : Z) (input_data : string) : M unit :=
  mkdir_parents (base_dir +:+ "/data");;
  bucket ← lift (py_getitem (py_split "/" input_data) 2);
  let key := py_join "/" (drop 3 (py_split "/" input_data)) in
  download_file bucket key raw_path;;
  df ← read_csv raw_path;
  '(train_data, validation_data, test_data) ← lift (transform random_state df);
  to_csv train_data train_path;;
  to_csv validation_data validation_path;;
  to_csv test_data test_path.

(** The script as written: the seed is the constant [1729]. *)
Definition main (input_data : string) : M unit := preprocess 1729 input_data.

End Script.

(** ** Views of a run, for stating its properties *)

(** The text that the script downloads: the body of the object that
    [--input-data] names, or the exception of the lookup. *)
Definition downloaded (input_data : string) (w : world) : result string :=
  bucket ← py_getitem (py_split "/" input_data) 2;
  if decide (py_join "/" (drop 3 (py_split "/" input_data)) = "")
  then Raise ParamValidationError
  else
    match s3 w !! (bucket, py_join "/" (drop 3 (py_split "/" input_data))) with
    | Some body => Ok body
    | None => Raise ClientError
    end.

(** Everything that the script computes before it writes: the three
    splits, or the first exception raised on the way. *)
Definition outcome (repr_float : spec_float -> string)
    (parse_csv : string -> result DataFrame) (permutation : Z -> nat -> list nat)
    (random_state : Z) (input_data : string) (w : world)
    : result (DataFrame * DataFrame * DataFrame) :=
  text ← downloaded input_data w;
  df ← parse_csv text;
  transform repr_float permutation random_state df.

(** The three writes, in the order of the script. *)
Definition write_splits (repr_float : spec_float -> string)
    (splits : DataFrame * DataFrame * DataFrame) : M unit :=
  to_csv repr_float splits.1.1 train_path;;
  to_csv repr_float splits.1.2 validation_path;;
  to_csv repr_float splits.2 test_path.

(** The world once the data directory exists. *)
Definition with_data_dir (w : world) : world :=
  mkWorld (s3 w) (files w) (dirs w ∪ list_to_set (parents "/opt/ml/processing/data")).

(** The three directories that the job mounts for the outputs exist. *)
Definition mounted (w : world) : Prop :=
  Forall (fun p => dirname p ∈ dirs w) output_paths.

(** The labels of the two indicator columns of the churn column. *)
Definition churn_labels : list string := ["Churn?_False."; "Churn?_True."].

(** The two values of the churn column. *)
Definition two_valued (v : scalar) : Prop := v = Str "True." \/ v = Str "False.".

(** An input of the expected shape: a well-formed frame with distinct
    labels that has the area code and the columns to discard, has no column
    that already carries the label of the target, and has a textual churn
    column whose values are [True.] and [False.], both present. *)
Definition valid_input (df : DataFrame) : Prop :=
  wf df /\
  NoDup (labels df) /\
  Forall (fun l => l ∈ labels df) ("Area Code" :: discard_columns) /\
  ("Churn?_True." ∉ labels df) /\
  (exists churn,
     ("Churn?", churn) ∈ columns df /\ s_dtype churn = object_ /\
     Forall two_valued (s_values churn) /\
     Str "True." ∈ s_values churn /\ Str "False." ∈ s_values churn).

(** The target of row [i]: [1] when the customer churned. *)
Definition churn_indicator (churn : Series) (i : nat) : scalar :=
  Int (Z.b2z (py_eqb (nth i (s_values churn) nan) (Str "True."))).

(** A split made of the rows at [locs] has the target as its first column
    and no churn column among the others. *)
Definition label_first (churn : Series) (locs : list nat) (split : DataFrame) : Prop :=
  len split = length locs /\
  exists features,
    columns split
      = ("Churn?_True.", mkSeries uint8 (churn_indicator churn <$> locs)) :: features /\
    Forall (fun c => c.1 ∉ churn_labels) features.

(** The columns that one-hot encoding leaves alone, and the indicator
    columns that it makes of the others. *)
Definition numeric_columns (df : DataFrame) : list (string * Series) :=
  filter (fun c => ¬ is_object c) (columns df).

Definition indicator_columns (repr_float : spec_float -> string) (df : DataFrame)
    : list (string * Series) :=
  filter is_object (columns df) ≫= (fun c => get_dummies_1d repr_float c.1 c.2).

(** ** Instances of the library behaviours, for running the script *)

(** A [repr] that is Python's on nan, the infinities, zero and the integral
    doubles below [10 ^ 16]; any other double is written exactly, as
    [m*2**e]. *)
Definition repr_exact (f : spec_float) : string :=
  match f with
  | S754_nan => "nan"
  | S754_infinity s => if s then "-inf" else "inf"
  | S754_zero s => if s then "-0.0" else "0.0"
  | S754_finite s m e =>
      let sign := if s then "-" else "" in
      if (0 <=? e) && (Zpos m * 2 ^ e <? 10 ^ 16) then
        sign +:+ pretty (Zpos m * 2 ^ e) +:+ ".0"
      else if (e <? 0) && (Zpos m mod 2 ^ (- e) =? 0) && (Zpos m / 2 ^ (- e) <? 10 ^ 16) then
        sign +:+ pretty (Zpos m / 2 ^ (- e)) +:+ ".0"
      else sign +:+ pretty (Zpos m) +:+ "*2**" +:+ pretty e
  end.

(** A generator whose permutation of [0 .. n-1] is the rotation by the seed. *)
Definition rotation (seed : Z) (n : nat) : list nat :=
  rotate (Z.to_nat seed) (seq 0 n).

(** A reader for comma-separated text whose fields are integers, [True] or
    [False], text, or one of the markers of a missing value, and whose
    rows are no longer than the header.  On such text it follows
    [pd.read_csv]: the first line names the columns, an empty name
    becoming [Unnamed: i] and a repeated name getting a numbered suffix;
    blank lines are skipped; a short row is padded with missing values;
    the element type of a column is inferred from all of its fields, and
    a column without any field holds objects.  This reader is the
    instance on which the theorems are run on sample inputs.  It is not
    a model of [pd.read_csv] on other text: a floating-point literal and
    a row longer than the header, both of which [pd.read_csv] reads, make
    it raise [ParserError]. *)
Module Reader.

Definition digit_of (c : ascii) : option Z :=
  let n := Z.of_N (N_of_ascii c) in
  if (48 <=? n) && (n <=? 57) then Some (n - 48) else None.

Fixpoint digits_value (acc : Z) (s : string) : option Z :=
  match s with
  | EmptyString => Some acc
  | String c s' => d ← digit_of c; digits_value (10 * acc + d) s'
  end.

Definition unsigned (s : string) : option Z :=
  match s with
  | EmptyString => None
  | _ => digits_value 0 s
  end.

Definition parse_int (s : string) : option Z :=
  match s with
  | String "-" s' => Z.opp <$> unsigned s'
  | String "+" s' => unsigned s'
  | _ => unsigned s
  end.

Definition all_digits (s : string) : bool :=
  forallb (fun c => bool_decide (is_Some (digit_of c))) (list_ascii_of_string s).

Definition unsign (s : string) : string :=
  match s with
  | String "-" s' | String "+" s' => s'
  | _ => s
  end.

Definition is_exponent (s : string) : bool :=
  let d := unsign s in all_digits d && negb (String.eqb d "").

Definition is_mantissa (s : string) : bool :=
  match py_split "." (unsign s) with
  | [a] => all_digits a && negb (String.eqb a "")
  | [a; b] => all_digits a && all_digits b && negb (String.eqb (a +:+ b) "")
  | _ => false
  end.

Definition is_float_literal (s : string) : bool :=
  match py_split "e" (string_of_list_ascii
                        ((fun c => if Ascii.eqb c "E" then "e"%char else c)
                           <$> list_ascii_of_string s)) with
  | [m] => is_mantissa m || bool_decide (unsign s ∈ ["inf"; "Infinity"])
  | [m; x] => is_mantissa m && is_exponent x
  | _ => false
  end.

Definition na_values : list string :=
  [""; "#N/A"; "#N/A N/A"; "#NA"; "-1.#IND"; "-1.#QNAN"; "-NaN"; "-nan"; "1.#IND";
   "1.#QNAN"; "<NA>"; "N/A"; "NA"; "NULL"; "NaN"; "n/a"; "nan"; "null"].

Inductive field :=
  | Missing
  | IntField (z : Z)
  | FloatField
  | BoolField (b : bool)
  | TextField.

Definition classify (s : string) : field :=
  if bool_decide (s ∈ na_values) then Missing
  else match parse_int s with
       | Some z => IntField z
       | None =>
           if is_float_literal s then FloatField
           else if String.eqb s "True" then BoolField true
           else if String.eqb s "False" then BoolField false
           else TextField
       end.

Definition is_int (f : field) : bool :=
  match f with
  | IntField z => (- 2 ^ 63 <=? z) && (z <? 2 ^ 63)
  | _ => false
  end.
Definition is_missing (f : field) : bool := match f with Missing => true | _ => false end.
Definition is_bool (f : field) : bool := match f with BoolField _ => true | _ => false end.
Definition is_float (f : field) : bool :=
  match f with
  | FloatField => true
  | IntField z => negb ((- 2 ^ 63 <=? z) && (z <? 2 ^ 63))
  | _ => false
  end.

Definition float_cell (f : field) : scalar :=
  match f with
  | IntField z => match py_float z with Ok x => Float x | Raise _ => nan end
  | _ => nan
  end.

Definition object_cell (s : string) : scalar :=
  match classify s with
  | Missing => nan
  | _ => Str s
  end.

(** The column made of the fields of one position of every row. *)
Definition infer (cells : list string) : result Series :=
  let fs := classify <$> cells in
  if bool_decide (cells = []) then Ok (mkSeries object_ [])
  else if existsb is_float fs && forallb (fun f => is_int f || is_float f || is_missing f) fs
  then Raise ParserError
  else if forallb is_int fs then
    Ok (mkSeries int64 ((fun f => match f with IntField z => Int z | _ => nan end) <$> fs))
  else if forallb (fun f => is_int f || is_missing f) fs then
    Ok (mkSeries float64 (float_cell <$> fs))
  else if forallb is_bool fs then
    Ok (mkSeries bool_ ((fun f => match f with BoolField b => Bool b | _ => nan end) <$> fs))
  else if forallb (fun f => is_bool f || is_missing f) fs then
    Ok (mkSeries object_ ((fun f => match f with BoolField b => Bool b | _ => nan end) <$> fs))
  else Ok (mkSeries object_ (object_cell <$> cells)).

Definition strip_cr (s : string) : string :=
  let cs := list_ascii_of_string s in
  match last cs with
  | Some "013"%char => string_of_list_ascii (take (length cs - 1) cs)
  | _ => s
  end.

Fixpoint infer_columns (names : list string) (k : nat) (records : list (list string))
    : result (list (string * Series)) :=
  match names with
  | [] => Ok []
  | name :: names' =>
      s ← infer ((fun r => nth k r "") <$> records);
      rest ← infer_columns names' (S k) records;
      Ok ((name, s) :: rest)
  end.

(** The name of a column of the header: a name seen before gets the
    number of its earlier occurrences as a suffix, again and again until
    the name is a new one. *)
Fixpoint mangle (fuel : nat) (counts : gmap string nat) (name : string)
    : string * gmap string nat :=
  match counts !! name, fuel with
  | Some count, S fuel' =>
      mangle fuel' (<[name := S count]> counts) (name +:+ "." +:+ pretty count)
  | Some count, O => (name, <[name := S count]> counts)
  | None, _ => (name, <[name := 1%nat]> counts)
  end.

Fixpoint header_names (i : nat) (counts : gmap string nat) (fields : list string)
    : list string :=
  match fields with
  | [] => []
  | field :: fields' =>
      let name := if decide (field = "") then "Unnamed: " +:+ pretty i else field in
      let '(name, counts) := mangle (size counts) counts name in
      name :: header_names (S i) counts fields'
  end.

Definition parse_csv (text : string) : result DataFrame :=
  let lines := filter (fun l => l ≠ "") (strip_cr <$> py_split "010" text) in
  match lines with
  | [] => Raise EmptyDataError
  | header :: body =>
      let names := header_names 0 ∅ (py_split "," header) in
      let records := py_split "," <$> body in
      if forallb (fun r => (length r <=? length names)%nat) records then
        cols ← infer_columns names 0 records;
        Ok (mkFrame (Z.of_nat <$> seq 0 (length records)) cols)
      else Raise ParserError
  end.

End Reader.

(** *** Sample inputs *)

Module Sample.

Definition lines (ls : list string) : string :=
  String.concat "" ((fun l => l +:+ String "010" EmptyString) <$> ls).

Definition header : string :=
  "State,Account Length,Area Code,Phone,Int'l Plan,VMail Plan,VMail Message,Day Mins,Day Calls,Day Charge,Eve Mins,Eve Calls,Eve Charge,Night Mins,Night Calls,Night Charge,Intl Mins,Intl Calls,Intl Charge,CustServ Calls,Churn?".

(** Ten customers. *)
Definition ten_rows : string := lines [
  header;
  "PA,163,806,403-2562,no,yes,300,8,3,7,3,4,6,4,250,4,5,5,4,3,True.";
  "SC,15,836,158-8416,yes,no,0,10,4,6,9,3,4,7,300,6,3,5,2,8,False.";
  "MO,131,777,896-6253,no,yes,300,4,3,4,9,3,5,4,350,6,7,3,3,4,False.";
  "WY,75,878,817-5729,yes,yes,700,1,1,1,2,2,6,5,200,7,8,4,6,5,False.";
  "WY,146,878,450-4942,yes,no,0,3,5,4,4,5,5,6,300,6,7,6,1,5,True.";
  "VA,83,866,454-9110,no,no,0,7,3,3,4,7,2,4,300,8,7,4,7,5,False.";
  "IN,140,737,331-5751,yes,no,0,1,6,4,7,2,6,5,250,3,6,5,5,6,False.";
  "LA,54,766,871-3612,no,no,0,8,4,11,5,4,8,2,300,3,4,5,4,8,True.";
  "MO,195,777,249-5723,yes,no,0,5,2,2,5,1,7,7,300,6,5,3,4,5,True.";
  "AL,104,657,767-7682,yes,no,0,1,6,5,3,5,5,3,350,7,4,3,6,5,False."
].

(** Two customers, one of each class. *)
Definition two_rows : string := lines [
  header;
  "PA,163,806,403-2562,no,yes,300,8,3,7,3,4,6,4,250,4,5,5,4,3,True.";
  "SC,15,836,158-8416,yes,no,0,10,4,6,9,3,4,7,300,6,3,5,2,8,False."
].

(** The same two customers in a file without the [Phone] column. *)
Definition no_phone : string := lines [
  "State,Account Length,Area Code,Int'l Plan,VMail Plan,VMail Message,Day Mins,Day Calls,Day Charge,Eve Mins,Eve Calls,Eve Charge,Night Mins,Night Calls,Night Charge,Intl Mins,Intl Calls,Intl Charge,CustServ Calls,Churn?";
  "PA,163,806,no,yes,300,8,3,7,3,4,6,4,250,4,5,5,4,3,True.";
  "SC,15,836,yes,no,0,10,4,6,9,3,4,7,300,6,3,5,2,8,False."
].

Definition input_data : string := "s3://bucket/sagemaker/DEMO-xgboost-churn/data/RawData.csv".

(** A container as the processing job starts it: the three output
    directories are mounted, the object is in the store. *)
Definition job (text : string) : world :=
  mkWorld {[ ("bucket", "sagemaker/DEMO-xgboost-churn/data/RawData.csv") := text ]}
          ∅
          (list_to_set ["/opt/ml/processing/train"; "/opt/ml/processing/validation";
                        "/opt/ml/processing/test"]).

Definition run (text : string) : result unit * world :=
  main repr_exact Reader.parse_csv rotation input_data (job text).

Definition empty_frame : DataFrame := mkFrame [] [].

(** The frame read from a text, and its encoding. *)
Definition parsed (text : string) : DataFrame :=
  match Reader.parse_csv text with
  | Ok df => df
  | Raise _ => empty_frame
  end.

Definition cleaned (text : string) : DataFrame :=
  match clean (parsed text) with
  | Ok df => df
  | Raise _ => empty_frame
  end.

Definition encoded (text : string) : DataFrame :=
  match encode repr_exact (cleaned text) with
  | Ok df => df
  | Raise _ => empty_frame
  end.

(** The three splits of a text, with the seed of the script. *)
Definition splits (text : string) : DataFrame * DataFrame * DataFrame :=
  match transform repr_exact rotation 1729 (parsed text) with
  | Ok s => s
  | Raise _ => (empty_frame, empty_frame, empty_frame)
  end.

(** The churn column of the ten customers. *)
Definition churn : Series :=
  mkSeries object_
    (Str <$> ["True."; "False."; "False."; "False."; "True.";
              "False."; "False."; "True."; "True."; "False."]).

(** A second container for the same job: other objects in the store,
    files left by an earlier run, more directories. *)
Definition used_job (text : string) : world :=
  mkWorld (<[ ("bucket", "other.csv") := "a,b" ]> (s3 (job text)))
          {[ train_path := "stale"; "/tmp/notes" := "x" ]}
          (dirs (job text) ∪ {[ "/tmp" ]}).

End Sample.
(** ** The notebook around the script *)

(** The key under which the notebook stores the raw dataset (cell 8:
    [aws s3 cp ... s3://{bucket}/sagemaker/DEMO-xgboost-churn/data/RawData.csv]). *)
Definition raw_data_key : string := "sagemaker/DEMO-xgboost-churn/data/RawData.csv".

(** The copy of cell 8, as the object that it leaves in the store. *)
Definition upload_raw_data (bucket text : string) (w : world) : world :=
  mkWorld (<[(bucket, raw_data_key) := text]> (s3 w)) (files w) (dirs w).

(** The value of [--input-data] that the notebook passes to the job, for
    the default bucket of the session (cell 18). *)
Definition input_data_url (default_bucket : string) : string :=
  "s3://" +:+ default_bucket +:+ "/sagemaker/DEMO-xgboost-churn/data/RawData.csv".

(** The number of separators in a text. *)
Definition count_char (c : ascii) (s : string) : nat :=
  length (filter (fun x => x = c) (list_ascii_of_string s)).
(** What cleaning makes of one column that it keeps: the area code is
    boxed as [object], any other column is left as it is. *)
Definition cleaned_column (c : string * Series) : string * Series :=
  if decide (c.1 = "Area Code") then (c.1, mkSeries object_ (s_values c.2)) else c.
(** ** The notebook's [predict] (cell 40)

    [predict(data, rows=500)] cuts the rows of [data] into batches with
    [np.array_split], sends each batch to the endpoint, joins the answers
    with commas and parses the joined text. *)

(** An exception of the notebook: a built-in one that the script can
    raise too, a division by zero, or an exception of the endpoint call. *)
Inductive notebook_exception :=
  | ZeroDivisionError
  | Builtin (e : exception)
  | EndpointError (message : string).

Inductive attempt (A : Type) :=
  | Returns (a : A)
  | Raises (e : notebook_exception).
Arguments Returns {A} a.
Arguments Raises {A} e.

#[export] Instance attempt_ret : MRet attempt := fun A a => Returns a.
#[export] Instance attempt_bind : MBind attempt := fun A B f r =>
  match r with
  | Returns a => f a
  | Raises e => Raises e
  end.

Definition of_result {A} (r : result A) : attempt A :=
  match r with
  | Ok a => Returns a
  | Raise e => Raises (Builtin e)
  end.

(** [n / y] for an int [n] and a float [y]: the int is converted first,
    then a zero divisor is refused. *)
Definition int_div_float (n : Z) (y : spec_float) : attempt spec_float :=
  x ← of_result (py_float n);
  match y with
  | S754_zero _ => Raises ZeroDivisionError
  | _ => Returns (SFdiv prec emax x y)
  end.

(** [x + n] for a float [x] and an int [n]. *)
Definition float_add_int (x : spec_float) (n : Z) : attempt spec_float :=
  y ← of_result (py_float n); Returns (SFadd prec emax x y).

(** [int(n / float(rows) + 1)], the number of batches for [n] rows. *)
Definition section_count (n rows : Z) : attempt Z :=
  y ← of_result (py_float rows);
  q ← int_div_float n y;
  s ← float_add_int q 1;
  of_result (py_int s).

(** [numpy.cumsum] *)
Fixpoint cumsum_from (acc : Z) (l : list Z) : list Z :=
  match l with
  | [] => []
  | x :: l' => (acc + x) :: cumsum_from (acc + x) l'
  end.

Definition cumsum (l : list Z) : list Z := cumsum_from 0 l.

(** [np.array_split(ary, Nsections)] along the first axis: the first
    [len(ary) % Nsections] pieces have one row more than the others. *)
Definition array_split {A} (ary : list A) (Nsections : Z) : attempt (list (list A)) :=
  if Nsections <=? 0 then Raises (Builtin ValueError)
  else
    let Ntotal := Z.of_nat (length ary) in
    let Neach_section := Ntotal / Nsections in
    let extras := Ntotal mod Nsections in
    let section_sizes :=
      0 :: repeat (Neach_section + 1) (Z.to_nat extras)
        ++ repeat Neach_section (Z.to_nat (Nsections - extras)) in
    let div_points := cumsum section_sizes in
    Returns (zip_with (fun st en => py_slice st en ary) div_points (drop 1 div_points)).

(** [s[1:]] *)
Definition py_str_tail (s : string) : string :=
  match s with
  | EmptyString => EmptyString
  | String _ s' => s'
  end.

Section Predict.

(** One row of the array that is sent. *)
Context {row : Type}.

(** What the endpoint answers to a batch, decoded:
    [xgb_predictor.predict(array).decode('utf-8')]. *)
Variable respond : list row -> attempt string.

(** [np.fromstring(text, sep=',')] *)
Variable np_fromstring : string -> attempt (list spec_float).

(** A statement of [predict]: it may raise, and it adds to the requests
    that the endpoint has received. *)
Definition Calls (A : Type) : Type := list (list row) -> attempt A * list (list row).

#[export] Instance Calls_ret : MRet Calls := fun A a sent => (Returns a, sent).
#[export] Instance Calls_bind : MBind Calls := fun A B f m sent =>
  match m sent with
  | (Returns a, sent') => f a sent'
  | (Raises e, sent') => (Raises e, sent')
  end.

Definition lift_attempt {A} (r : attempt A) : Calls A := fun sent => (r, sent).

Definition xgb_predictor_predict (array : list row) : Calls string := fun sent =>
  (respond array, sent ++ [array]).

(** The loop over the batches. *)
Fixpoint predict_loop (split_array : list (list row)) (predictions : string)
    : Calls string :=
  match split_array with
  | [] => mret predictions
  | array :: rest =>
      answer ← xgb_predictor_predict array;
      predict_loop rest (py_join "," [predictions; answer])
  end.

Definition predict (data : list row) (rows : Z) : Calls (list spec_float) :=
  sections ← lift_attempt (section_count (Z.of_nat (length data)) rows);
  split_array ← lift_attempt (array_split data sections);
  predictions ← predict_loop split_array "";
  lift_attempt (np_fromstring (py_str_tail predictions)).

End Predict.

(** Consecutive pieces of the given sizes. *)
Fixpoint chunks {A} (sizes : list nat) (l : list A) : list (list A) :=
  match sizes with
  | [] => []
  | s :: sizes' => take s l :: chunks sizes' (drop s l)
  end.

(** *** Further sample inputs *)

Module Fixture.

(** An endpoint that answers a batch with one score per row and refuses
    an empty payload. *)
Definition respond (batch : list (list Z)) : attempt string :=
  match batch with
  | [] => Raises (EndpointError "empty payload")
  | _ => Returns (py_join "," ((fun _ => "0") <$> batch))
  end.

(** The values of the leading fields that are integers: reading stops
    at the first field that is not one, so the empty text has no value. *)
Fixpoint leading_values (fields : list string) : list spec_float :=
  match fields with
  | [] => []
  | field :: fields' =>
      match Reader.parse_int field with
      | Some z =>
          match py_float z with
          | Ok f => f
          | Raise _ => S754_infinity (z <? 0)
          end :: leading_values fields'
      | None => []
      end
  end.

(** A parser for comma-separated integers. *)
Definition np_fromstring (text : string) : attempt (list spec_float) :=
  Returns (leading_values (py_split "," text)).

(** Seven rows of two features. *)
Definition seven : list (list Z) := (fun i => [i; 2 * i]) <$> [1; 2; 3; 4; 5; 6; 7].

(** A container in which only the train directory is mounted. *)
Definition train_only (text : string) : world :=
  mkWorld (s3 (Sample.job text)) ∅ {[ "/opt/ml/processing/train" ]}.

(** A cleaned frame in which no customer churned. *)
Definition no_churn : DataFrame :=
  mkFrame [0; 1]
    [("Day Mins", mkSeries int64 [Int 8; Int 10]);
     ("Churn?", mkSeries object_ [Str "False."; Str "False."])].

(** A column of plans with a missing value. *)
Definition plans : Series :=
  mkSeries object_ [Str "no"; Str "yes"; nan; Str "no"].

End Fixture.

(** * Proofs *)

(** ** Binary64 rounding *)

Lemma digits2_pos_bounds (p : positive) :
  2 ^ (Zpos (digits2_pos p) - 1) <= Zpos p < 2 ^ Zpos (digits2_pos p).
Proof.
  induction p as [p IH | p IH |]; cbn [digits2_pos].
  - rewrite Pos2Z.inj_succ.
    replace (Z.succ (Zpos (digits2_pos p)) - 1) with (Z.succ (Zpos (digits2_pos p) - 1)) by lia.
    rewrite !Z.pow_succ_r by lia. lia.
  - rewrite Pos2Z.inj_succ.
    replace (Z.succ (Zpos (digits2_pos p)) - 1) with (Z.succ (Zpos (digits2_pos p) - 1)) by lia.
    rewrite !Z.pow_succ_r by lia. lia.
  - cbn. lia.
Qed.

Lemma digits2_pos_unique (p : positive) (d : Z) :
  2 ^ (d - 1) <= Zpos p < 2 ^ d -> Zpos (digits2_pos p) = d.
Proof.
  intros [Hlo Hhi]. pose proof (digits2_pos_bounds p) as [Hlo' Hhi'].
  set (d' := Zpos (digits2_pos p)) in *.
  assert (0 < d) as Hd.
  { destruct (Z_lt_le_dec 0 d) as [|Hn]; [done|].
    rewrite Z.pow_neg_r in Hlo by lia.
    destruct (Z.eq_dec d 0) as [->|]; [cbn in Hhi; lia|].
    rewrite Z.pow_neg_r in Hhi by lia. lia. }
  destruct (Z.lt_trichotomy d' d) as [Hlt | [Heq | Hgt]]; [|done|].
  - assert (2 ^ d' <= 2 ^ (d - 1)) by (apply Z.pow_le_mono_r; lia). lia.
  - assert (2 ^ d <= 2 ^ (d' - 1)) by (apply Z.pow_le_mono_r; lia). lia.
Qed.

Lemma shr_1_m (mrs : shr_record) : 0 <= shr_m mrs -> shr_m (shr_1 mrs) = shr_m mrs / 2.
Proof.
  destruct mrs as [m r s]; cbn [shr_m]. intros Hm.
  rewrite <- Z.div2_div.
  destruct m as [|[p|p|]|p]; try reflexivity; lia.
Qed.

Lemma shr_1_rs (mrs : shr_record) :
  0 <= shr_m mrs ->
  shr_r (shr_1 mrs) = Z.odd (shr_m mrs) /\ shr_s (shr_1 mrs) = shr_r mrs || shr_s mrs.
Proof.
  destruct mrs as [m r s]; cbn [shr_m shr_r shr_s]. intros Hm.
  destruct m as [|[p|p|]|p]; try (split; reflexivity); lia.
Qed.

Lemma shr_inv_step (M k : Z) (mrs : shr_record) :
  0 <= M -> 0 <= k -> shr_inv M k mrs -> shr_inv M (k + 1) (shr_1 mrs).
Proof.
  intros HM Hk [Hm Hrs].
  assert (0 < 2 ^ k) as Hpow by (apply Z.pow_pos_nonneg; lia).
  assert (0 <= shr_m mrs) as Hm0 by (rewrite Hm; apply Z.div_pos; lia).
  destruct (shr_1_rs mrs Hm0) as [Hr Hs].
  split.
  - rewrite shr_1_m, Hm by done.
    rewrite Z.pow_add_r, Z.pow_1_r by lia.
    rewrite Z.div_div by lia. reflexivity.
  - rewrite Hr, Hs, Hm. intros Hbits.
    rewrite Z.pow_add_r, Z.pow_1_r by lia.
    rewrite Z.rem_mul_r by lia.
    pose proof (Z.mod_pos_bound M (2 ^ k) Hpow) as Hlow.
    pose proof (Z.mod_pos_bound (M / 2 ^ k) 2 ltac:(lia)) as Hbit.
    apply orb_true_iff in Hbits as [Hodd | Hold].
    + rewrite Zmod_odd, Hodd in Hbit. rewrite Zmod_odd, Hodd. nia.
    + specialize (Hrs Hold). nia.
Qed.

Lemma shr_inv_iter (M : Z) (p : positive) :
  0 <= M -> forall k mrs, 0 <= k -> shr_inv M k mrs ->
  shr_inv M (k + Zpos p) (SpecFloat.iter_pos shr_1 p mrs).
Proof.
  intros HM. induction p as [p IH | p IH |]; intros k mrs Hk Hinv; cbn [SpecFloat.iter_pos].
  - replace (k + Zpos p~1) with (k + 1 + Zpos p + Zpos p) by lia.
    apply IH; [lia|]. apply IH; [lia|]. by apply shr_inv_step.
  - replace (k + Zpos p~0) with (k + Zpos p + Zpos p) by lia.
    apply IH; [lia|]. by apply IH.
  - by apply shr_inv_step.
Qed.

Lemma shr_inv_init (M : Z) : shr_inv M 0 (shr_record_of_loc M loc_Exact).
Proof. split; cbn; [by rewrite Z.div_1_r | done]. Qed.

(** Shifting an exact mantissa right by [k] places and rounding to nearest
    even moves the value by less than one unit of the last kept place. *)
Lemma shr_round_bounds (M : Z) (e k : Z) :
  0 < M -> 0 <= k ->
  let mrs := fst (shr (shr_record_of_loc M loc_Exact) e k) in
  let R := round_nearest_even (shr_m mrs) (loc_of_shr_record mrs) in
  snd (shr (shr_record_of_loc M loc_Exact) e k) = e + k /\
  M / 2 ^ k <= R /\ M - 2 ^ k < R * 2 ^ k < M + 2 ^ k.
Proof.
  intros HM Hk mrs R.
  assert (0 < 2 ^ k) as Hpow by (apply Z.pow_pos_nonneg; lia).
  assert (shr_inv M k mrs) as [Hm Hrs].
  { subst mrs. destruct k as [|p|p]; [| |lia]; cbn [shr fst].
    - apply shr_inv_init.
    - apply (shr_inv_iter M p ltac:(lia) 0); [lia | apply shr_inv_init]. }
  split; [destruct k; cbn [shr snd]; lia|].
  pose proof (Z.mod_pos_bound M (2 ^ k) Hpow) as Hlow.
  pose proof (Z.div_mod M (2 ^ k) ltac:(lia)) as Hdm.
  assert (R = shr_m mrs \/ (R = shr_m mrs + 1 /\ shr_r mrs || shr_s mrs = true)) as HR.
  { subst R. destruct mrs as [m r s]; cbn [shr_m shr_r shr_s loc_of_shr_record].
    destruct r, s; cbn [round_nearest_even orb]; try (left; reflexivity);
      try (right; split; reflexivity).
    destruct (Z.even m); [left | right]; done. }
  destruct HR as [-> | [-> Hbits]]; rewrite Hm.
  - nia.
  - specialize (Hrs Hbits). nia.
Qed.

Lemma fexp_normal (d : Z) :
  -1074 <= d - 53 -> fexp prec emax d = d - 53.
Proof. unfold fexp. change (emin prec emax) with (-1074). unfold prec. lia. Qed.

Lemma shr_fexp_normal (m : positive) (e d : Z) :
  Zpos (digits2_pos m) = 53 + d -> 0 <= d -> -1074 <= e + d ->
  shr_fexp prec emax (Zpos m) e loc_Exact = shr (shr_record_of_loc (Zpos m) loc_Exact) e d.
Proof.
  intros Hd Hd0 He. unfold shr_fexp. cbn [Zdigits2].
  rewrite Hd, fexp_normal by lia. f_equal. lia.
Qed.

Lemma shr_fexp_carry (e : Z) :
  -1074 <= e ->
  shr_fexp prec emax (2 ^ 53) e loc_Exact =
  (Build_shr_record (Zpos 4503599627370496) false false, e + 1).
Proof.
  intros He. unfold shr_fexp. change (Zdigits2 (2 ^ 53)) with 54.
  rewrite fexp_normal by lia. replace (54 + e - 53 - e) with 1 by lia.
  reflexivity.
Qed.

(** Rounding an exact positive mantissa [M] of at least [prec] digits at
    exponent [E]: away from underflow and overflow the result is a normal
    number within one unit in the last place of [M * 2 ^ E]. *)
Lemma binary_round_aux_normal (M : positive) (E k : Z) :
  Zpos (digits2_pos M) = 53 + k -> 0 <= k ->
  -1074 <= E + k -> E + k + 1 <= 971 ->
  exists m e,
    binary_round_aux prec emax false (Zpos M) E loc_Exact = S754_finite false m e /\
    2 ^ 52 <= Zpos m < 2 ^ 53 /\ E + k <= e <= E + k + 1 /\
    Zpos M - 2 ^ k < Zpos m * 2 ^ (e - E) < Zpos M + 2 ^ k.
Proof.
  intros Hd Hk Hlo Hhi.
  assert (0 < 2 ^ k) as Hpow by (apply Z.pow_pos_nonneg; lia).
  pose proof (digits2_pos_bounds M) as [HMlo HMhi]. rewrite Hd in HMlo, HMhi.
  replace (53 + k - 1) with (52 + k) in HMlo by lia.
  rewrite Z.pow_add_r in HMlo, HMhi by lia.
  unfold binary_round_aux. rewrite (shr_fexp_normal M E k) by done.
  pose proof (shr_round_bounds (Zpos M) E k ltac:(lia) Hk) as Hr. cbv zeta in Hr.
  destruct (shr (shr_record_of_loc (Zpos M) loc_Exact) E k) as [mrs' e'].
  cbn [fst snd] in Hr. destruct Hr as (-> & Hdiv & HR).
  set (R := round_nearest_even (shr_m mrs') (loc_of_shr_record mrs')) in *.
  assert (2 ^ 52 <= Zpos M / 2 ^ k) as Hq by (apply Z.div_le_lower_bound; lia).
  assert (2 ^ 52 <= R <= 2 ^ 53) as HRb by nia.
  change (emax - prec) with 971.
  destruct (Z.eq_dec R (2 ^ 53)) as [Hcarry | Hnocarry].
  - exists 4503599627370496%positive, (E + k + 1).
    split; [|split; [|split]]; [|lia|lia|].
    + rewrite Hcarry, shr_fexp_carry by lia. cbn [shr_m].
      replace (E + k + 1 <=? 971) with true by (symmetry; apply Z.leb_le; lia).
      reflexivity.
    + replace (E + k + 1 - E) with (k + 1) by lia.
      rewrite Z.pow_add_r by lia. lia.
  - destruct R as [|pr|pr] eqn:ER; [lia| |lia].
    exists pr, (E + k).
    split; [|split; [|split]]; [|lia|lia|].
    + rewrite (shr_fexp_normal pr (E + k) 0); [|apply digits2_pos_unique; cbn; lia|lia|lia].
      cbn [shr shr_record_of_loc shr_m].
      replace (E + k <=? 971) with true by (symmetry; apply Z.leb_le; lia).
      reflexivity.
    + replace (E + k - E) with k by lia. lia.
Qed.

Lemma iter_xO_pow (p q : positive) : Zpos (Pos.iter xO p q) = Zpos p * 2 ^ Zpos q.
Proof.
  induction q as [|q IH] using Pos.peano_ind.
  - cbn. lia.
  - rewrite Pos.iter_succ, Pos2Z.inj_succ, Z.pow_succ_r by lia.
    rewrite Pos2Z.inj_xO, IH. lia.
Qed.

Lemma pow2_lt_inv (a b : Z) : 0 <= b -> 2 ^ a < 2 ^ b -> a < b.
Proof.
  intros Hb Hlt. destruct (Z_lt_le_dec a b) as [|Hge]; [done|].
  assert (2 ^ b <= 2 ^ a) by (apply Z.pow_le_mono_r; lia). lia.
Qed.

(** The double nearest to a positive integer below [2 ^ 1022]: a normal
    number [mn * 2 ^ en], equal to [n] when [n] has at most 53 bits and
    within [2 ^ en] of it otherwise. *)
Lemma py_float_pos (n : positive) :
  Zpos n < 2 ^ 1022 ->
  exists mn en,
    py_float (Zpos n) = Ok (S754_finite false mn en) /\
    2 ^ 52 <= Zpos mn < 2 ^ 53 /\ -52 <= en <= 970 /\
    ((en <= 0 /\ Zpos mn = Zpos n * 2 ^ (- en)) \/
     (0 <= en /\ Zpos n - 2 ^ en < Zpos mn * 2 ^ en < Zpos n + 2 ^ en /\
      2 ^ 51 * 2 ^ en <= Zpos n)).
Proof.
  intros Hn. pose proof (digits2_pos_bounds n) as [Hlo Hhi].
  set (d := Zpos (digits2_pos n)) in *.
  assert (0 < d) as Hd0 by (subst d; lia).
  assert (d <= 1022) as Hd.
  { assert (d - 1 < 1022); [|lia]. apply pow2_lt_inv; lia. }
  unfold py_float, binary_normalize, binary_round. fold d.
  rewrite Z.add_0_r, fexp_normal by lia.
  unfold shl_align. destruct (d - 53 - 0) as [|q|q] eqn:Hq.
  - (* exactly 53 bits *)
    destruct (binary_round_aux_normal n 0 0) as (m & e & -> & Hm & He & Hv); [lia..|].
    exists m, e. split; [done|]. split; [done|].
    rewrite Z.sub_0_r in Hv. change (2 ^ 0) with 1 in Hv.
    assert (e = 0) as ->.
    { destruct (Z.eq_dec e 0) as [|Hne]; [done|]. assert (e = 1) as -> by lia.
      replace d with 53 in * by lia. change (2 ^ (53 - 1)) with (2 ^ 52) in Hlo. lia. }
    split; [lia|]. left. split; [lia|]. change (2 ^ (- 0)) with 1. lia.
  - (* more than 53 bits: the low bits are rounded away *)
    destruct (binary_round_aux_normal n 0 (Zpos q)) as (m & e & -> & Hm & He & Hv); [lia..|].
    exists m, e. split; [done|]. split; [done|]. split; [lia|]. right.
    rewrite Z.sub_0_r in Hv.
    assert (0 < 2 ^ Zpos q) by (apply Z.pow_pos_nonneg; lia).
    assert (2 ^ Zpos q <= 2 ^ e) by (apply Z.pow_le_mono_r; lia).
    split; [lia|]. split; [lia|].
    rewrite <- Z.pow_add_r by lia.
    etrans; [|exact Hlo]. apply Z.pow_le_mono_r; lia.
  - (* fewer than 53 bits: the mantissa is shifted left, exactly *)
    pose proof (iter_xO_pow n q) as Hsh.
    assert (Zpos q = 53 - d) as Hqd by lia.
    assert (0 < 2 ^ Zpos q) by (apply Z.pow_pos_nonneg; lia).
    assert (2 ^ 52 <= Zpos (Pos.iter xO n q) < 2 ^ 53) as Hrange.
    { rewrite Hsh.
      assert (2 ^ 52 = 2 ^ (d - 1) * 2 ^ Zpos q) as ->
        by (rewrite <- Z.pow_add_r by lia; f_equal; lia).
      assert (2 ^ 53 = 2 ^ d * 2 ^ Zpos q) as ->
        by (rewrite <- Z.pow_add_r by lia; f_equal; lia).
      split; [apply Z.mul_le_mono_nonneg_r | apply Z.mul_lt_mono_pos_r]; lia. }
    destruct (binary_round_aux_normal (Pos.iter xO n q) (d - 53) 0)
      as (m & e & -> & Hm & He & Hv);
      [apply digits2_pos_unique; cbn; lia | lia..|].
    exists m, e. split; [done|]. split; [done|].
    change (2 ^ 0) with 1 in Hv.
    assert (e = d - 53) as ->.
    { destruct (Z.eq_dec e (d - 53)) as [|Hne]; [done|].
      assert (e - (d - 53) = 1) as Hone by lia. rewrite Hone in Hv.
      change (2 ^ 1) with 2 in Hv. lia. }
    split; [lia|]. left. split; [lia|].
    rewrite Z.sub_diag in Hv. change (2 ^ 0) with 1 in Hv.
    replace (- (d - 53)) with (Zpos q) by lia. lia.
Qed.

Lemma shiftl_le_mono (x y e : Z) : x <= y -> Z.shiftl x e <= Z.shiftl y e.
Proof.
  intros Hxy. destruct (Z_le_gt_dec 0 e) as [He | He].
  - rewrite !Z.shiftl_mul_pow2 by done.
    apply Z.mul_le_mono_nonneg_r; [apply Z.pow_nonneg; lia | done].
  - rewrite !Z.shiftl_div_pow2 by lia.
    apply Z.div_le_mono; [apply Z.pow_pos_nonneg; lia | done].
Qed.

(** [int(c * n)] for a double [c] in [[0.5, 1)] with mantissa [mc] and a
    positive [n]: the integer part of a value [V * 2 ^ (en - 53)] where
    [V] is within [2 ^ 53] of the exact product of the mantissas. *)
Lemma int_frac_pos (mc n : positive) :
  2 ^ 52 <= Zpos mc < 2 ^ 53 -> Zpos n < 2 ^ 1022 ->
  forall mn en, py_float (Zpos n) = Ok (S754_finite false mn en) ->
  2 ^ 52 <= Zpos mn < 2 ^ 53 -> -52 <= en <= 970 ->
  exists V,
    int_frac (S754_finite false mc (-53)) (Zpos n) = Ok (Z.shiftl V (-53 + en)) /\
    Zpos mc * Zpos mn - 2 ^ 53 < V < Zpos mc * Zpos mn + 2 ^ 53.
Proof.
  intros Hc Hn mn en Hfl Hmn Hen.
  unfold int_frac, float_mul_int. rewrite Hfl.
  cbn [mbind result_bind SFmul xorb].
  pose proof (digits2_pos_bounds (mc * mn)) as [Hlo Hhi].
  set (d := Zpos (digits2_pos (mc * mn))) in *.
  rewrite Pos2Z.inj_mul in Hlo, Hhi.
  assert (2 ^ 104 <= Zpos mc * Zpos mn < 2 ^ 106) as Hprod.
  { change (2 ^ 104) with (2 ^ 52 * 2 ^ 52). change (2 ^ 106) with (2 ^ 53 * 2 ^ 53). nia. }
  assert (104 < d) as Hd1 by (apply pow2_lt_inv; [subst d|]; lia).
  assert (d - 1 < 106) as Hd2 by (apply pow2_lt_inv; lia).
  destruct (binary_round_aux_normal (mc * mn) (-53 + en) (d - 53))
    as (m & e & -> & Hm & He & Hv); [subst d; lia | lia..|].
  exists (Zpos m * 2 ^ (e - (-53 + en))). split.
  - cbn [py_int cond_Zopp]. f_equal.
    rewrite <- Z.shiftl_mul_pow2 by lia.
    rewrite Z.shiftl_shiftl by lia. f_equal. lia.
  - rewrite Pos2Z.inj_mul in Hv.
    assert (0 < 2 ^ (d - 53) <= 2 ^ 53).
    { split; [apply Z.pow_pos_nonneg; lia | apply Z.pow_le_mono_r; lia]. }
    lia.
Qed.

(** Both cut points exist for every length below [2 ^ 1022], and they are
    ordered: [0 <= int(0.7 * n) <= int(0.9 * n) <= n]. *)
Lemma cut_points_ordered (n : Z) :
  0 <= n < 2 ^ 1022 ->
  exists a b,
    int_frac float_0_7 n = Ok a /\ int_frac float_0_9 n = Ok b /\
    0 <= a /\ a <= b /\ b <= n.
Proof.
  intros [Hn0 Hn]. destruct n as [|n|n]; [|clear Hn0|lia].
  { exists 0, 0. repeat split; done. }
  destruct (py_float_pos n Hn) as (mn & en & Hfl & Hmn & Hen & Hval).
  destruct (int_frac_pos 6305039478318694 n ltac:(lia) Hn mn en Hfl Hmn Hen)
    as (Va & Ha & HVa).
  destruct (int_frac_pos 8106479329266893 n ltac:(lia) Hn mn en Hfl Hmn Hen)
    as (Vb & Hb & HVb).
  exists (Z.shiftl Va (-53 + en)), (Z.shiftl Vb (-53 + en)).
  split; [exact Ha|]. split; [exact Hb|].
  split; [apply Z.shiftl_nonneg; lia|].
  split; [apply shiftl_le_mono; lia|].
  destruct Hval as [[Hneg Hexact] | (Hpos & Hnear & Hbig)].
  - rewrite Z.shiftl_div_pow2 by lia.
    assert (0 < 2 ^ (- en)) by (apply Z.pow_pos_nonneg; lia).
    apply Z.div_le_upper_bound; [apply Z.pow_pos_nonneg; lia|].
    replace (- (-53 + en)) with (53 + - en) by lia.
    rewrite Z.pow_add_r by lia. nia.
  - replace (-53 + en) with (en + -53) by lia.
    rewrite <- Z.shiftl_shiftl by done.
    rewrite (Z.shiftl_mul_pow2 Vb en) by done.
    rewrite Z.shiftl_div_pow2 by lia. change (2 ^ (- -53)) with (2 ^ 53).
    set (X := 2 ^ en) in *.
    assert (0 < X) by (apply Z.pow_pos_nonneg; lia).
    apply Z.div_le_upper_bound; [lia|].
    assert (Vb * X <= (8106479329266893 * Zpos mn + 2 ^ 53) * X) as Hmul
      by (apply Z.mul_le_mono_nonneg_r; lia).
    replace ((8106479329266893 * Zpos mn + 2 ^ 53) * X)
      with (8106479329266893 * (Zpos mn * X) + 2 ^ 53 * X) in Hmul by ring.
    lia.
Qed.

Example int_frac_10 : int_frac float_0_7 10 = Ok 7 /\ int_frac float_0_9 10 = Ok 9.
Proof. split; reflexivity. Qed.

(** The product is rounded before it is truncated: [0.7 * 90] is the double
    just below [63]. *)
Example int_frac_90 : int_frac float_0_7 90 = Ok 62.
Proof. reflexivity. Qed.

(** [int(c * n)] for a double [c = mc / 2 ^ 53] in [[0.5, 1)] and
    [0 < n < 2 ^ 48]: the integer part of a value within [2 ^ 53] units,
    at the scale of the mantissa of [n], of the exact product. *)
Lemma int_frac_small (mc n : positive) :
  2 ^ 52 <= Zpos mc < 2 ^ 53 -> Zpos n < 2 ^ 48 ->
  exists a P V,
    int_frac (S754_finite false mc (-53)) (Zpos n) = Ok a /\
    17 <= P /\ 2 ^ 52 <= Zpos n * P < 2 ^ 53 /\
    Zpos mc * (Zpos n * P) - 2 ^ 53 < V < Zpos mc * (Zpos n * P) + 2 ^ 53 /\
    2 ^ 53 * (a * P) <= V < 2 ^ 53 * (a * P) + 2 ^ 53 * P.
Proof.
  intros Hc Hn.
  destruct (py_float_pos n) as (mn & en & Hfl & Hmn & Hen & Hval); [lia|].
  destruct (int_frac_pos mc n Hc ltac:(lia) mn en Hfl Hmn Hen) as (V & Hint & HV).
  destruct Hval as [[Hneg Hexact] | (Hpos & _ & Hbig)].
  2:{ assert (1 <= 2 ^ en) by (apply (Z.pow_le_mono_r 2 0 en); lia). lia. }
  set (P := 2 ^ (- en)) in *.
  assert (0 < P) as HP0 by (apply Z.pow_pos_nonneg; lia).
  assert (17 <= P) as HP by nia.
  exists (Z.shiftl V (-53 + en)), P, V. split; [exact Hint|].
  rewrite <- Hexact. split; [done|]. split; [done|]. split; [done|].
  rewrite Z.shiftl_div_pow2 by lia.
  replace (- (-53 + en)) with (53 + - en) by lia.
  rewrite Z.pow_add_r by lia. fold P.
  pose proof (Z.mul_div_le V (2 ^ 53 * P) ltac:(lia)) as Hlo.
  pose proof (Z.mul_succ_div_gt V (2 ^ 53 * P) ltac:(lia)) as Hhi.
  set (a := V / (2 ^ 53 * P)) in *. lia.
Qed.

(** The cut points are seven and nine tenths of the length, rounded
    down, or one less. *)
Lemma cut_points_tenths (n : Z) :
  0 <= n < 2 ^ 48 ->
  exists a b,
    int_frac float_0_7 n = Ok a /\ int_frac float_0_9 n = Ok b /\
    7 * n - 10 <= 10 * a <= 7 * n /\ 9 * n - 10 <= 10 * b <= 9 * n.
Proof.
  intros [Hn0 Hn]. destruct n as [|n|n]; [|clear Hn0|lia].
  { exists 0, 0. repeat split; done. }
  destruct (int_frac_small 6305039478318694 n ltac:(lia) Hn)
    as (a & P & Va & Ha & HP & HN & HVa & Hdiva).
  destruct (int_frac_small 8106479329266893 n ltac:(lia) Hn)
    as (b & P' & Vb & Hb & HP' & HN' & HVb & Hdivb).
  exists a, b. split; [exact Ha|]. split; [exact Hb|].
  set (N := Zpos n * P) in *. set (N' := Zpos n * P') in *.
  split; split.
  - destruct (Z_le_gt_dec (7 * Zpos n - 10) (10 * a)) as [|Hgt]; [done|exfalso].
    assert (10 * (a * P) + 11 * P <= 7 * N) by (subst N; nia). lia.
  - destruct (Z_le_gt_dec (10 * a) (7 * Zpos n)) as [|Hgt]; [done|exfalso].
    assert (7 * N + P <= 10 * (a * P)) by (subst N; nia). lia.
  - destruct (Z_le_gt_dec (9 * Zpos n - 10) (10 * b)) as [|Hgt]; [done|exfalso].
    assert (10 * (b * P') + 11 * P' <= 9 * N') by (subst N'; nia). lia.
  - destruct (Z_le_gt_dec (10 * b) (9 * Zpos n)) as [|Hgt]; [done|exfalso].
    assert (9 * N' + P' <= 10 * (b * P')) by (subst N'; nia). lia.
Qed.

(** ** Slices and row selections *)

Lemma py_slice_take_drop {A} (a b : nat) (l : list A) :
  (a <= b <= length l)%nat ->
  py_slice (Z.of_nat a) (Z.of_nat b) l = take (b - a) (drop a l).
Proof.
  intros H. unfold py_slice, slice_bound.
  replace (Z.of_nat a <? 0) with false by (symmetry; apply Z.ltb_ge; lia).
  replace (Z.of_nat b <? 0) with false by (symmetry; apply Z.ltb_ge; lia).
  f_equal; [|f_equal]; lia.
Qed.

Lemma py_slice_fmap {A B} (f : A -> B) (st en : Z) (l : list A) :
  py_slice st en (f <$> l) = f <$> py_slice st en l.
Proof. unfold py_slice. by rewrite length_fmap, fmap_take, fmap_drop. Qed.

Lemma slice_take_rows (st en : Z) (locs : list nat) (df : DataFrame) :
  slice_rows st en (take_rows locs df) = take_rows (py_slice st en locs) df.
Proof.
  unfold slice_rows, take_rows. cbn [index columns]. f_equal.
  - apply py_slice_fmap.
  - rewrite <- list_fmap_compose. apply list_fmap_ext. intros i [c s] _.
    cbn. by rewrite py_slice_fmap.
Qed.

Lemma len_take_rows (locs : list nat) (df : DataFrame) :
  len (take_rows locs df) = length locs.
Proof. unfold len, take_rows. cbn. apply length_fmap. Qed.

Lemma schema_take_rows (locs : list nat) (df : DataFrame) :
  schema (take_rows locs df) = schema df.
Proof.
  unfold schema, take_rows. cbn [columns].
  rewrite <- list_fmap_compose. by apply list_fmap_ext.
Qed.

Lemma schema_slice_rows (st en : Z) (df : DataFrame) :
  schema (slice_rows st en df) = schema df.
Proof.
  unfold schema, slice_rows. cbn [columns].
  rewrite <- list_fmap_compose. by apply list_fmap_ext.
Qed.

Lemma fmap_nth_seq {A} (l : list A) (d : A) :
  (fun i => nth i l d) <$> seq 0 (length l) = l.
Proof.
  induction l as [|x l IH]; [done|].
  cbn [length seq fmap list_fmap]. rewrite <- fmap_S_seq, <- list_fmap_compose.
  cbn. f_equal. exact IH.
Qed.

Lemma nth_fmap_lt {A B} (f : A -> B) (l : list A) (i : nat) (d : B) (d' : A) :
  (i < length l)%nat -> nth i (f <$> l) d = f (nth i l d').
Proof.
  intros Hi. rewrite (nth_indep _ d (f d')) by (by rewrite length_fmap).
  apply map_nth.
Qed.

(** The rows of a selection are the selected rows, in the order of the
    selection. *)
Lemma rows_take_rows (locs : list nat) (df : DataFrame) :
  rows (take_rows locs df) = row df <$> locs.
Proof.
  unfold rows. rewrite len_take_rows.
  trans (row df <$> ((fun i => nth i locs 0%nat) <$> seq 0 (length locs)));
    [|by rewrite fmap_nth_seq].
  rewrite <- list_fmap_compose. apply list_fmap_ext. intros k i Hk.
  apply lookup_seq in Hk as [-> Hi]. cbn [Nat.add].
  unfold row, take_rows. cbn [index columns compose]. f_equal.
  - by rewrite (nth_fmap_lt _ locs k 0 0%nat).
  - rewrite <- list_fmap_compose. apply list_fmap_ext. intros j c _.
    cbn. by rewrite (nth_fmap_lt _ locs k nan 0%nat).
Qed.

Lemma rows_index (df : DataFrame) : (rows df).*1 = index df.
Proof.
  unfold rows. rewrite <- list_fmap_compose. apply fmap_nth_seq.
Qed.

Lemma three_blocks {A} (a b : nat) (l : list A) :
  (a <= b)%nat -> take a l ++ take (b - a) (drop a l) ++ drop b l = l.
Proof.
  intros Hab. rewrite <- (take_drop a l) at 4. f_equal.
  rewrite <- (take_drop (b - a) (drop a l)) at 2. f_equal.
  rewrite drop_drop. f_equal. lia.
Qed.

Lemma rotation_perm (seed : Z) (n : nat) : rotation seed n ≡ₚ seq 0 n.
Proof.
  unfold rotation, rotate. rewrite Permutation_app_comm. by rewrite take_drop.
Qed.

(** ** The split *)

Section Split.

Variable permutation : Z -> nat -> list nat.

(** What numpy promises of [RandomState(seed).permutation(n)]: the
    numbers below [n], each once, in an order fixed by the seed. *)
Hypothesis permutation_perm : forall seed n, permutation seed n ≡ₚ seq 0 n.

Lemma permutation_length (seed : Z) (n : nat) : length (permutation seed n) = n.
Proof. by rewrite (Permutation_length (permutation_perm seed n)), length_seq. Qed.

Lemma sample_all (seed : Z) (df : DataFrame) :
  sample permutation seed df = take_rows (permutation seed (len df)) df.
Proof.
  unfold sample. cbv zeta. f_equal. apply take_ge. by rewrite permutation_length.
Qed.

(** The three pieces for cut points [a <= b <= n]. *)
Lemma split_at (seed : Z) (df : DataFrame) (a b : nat) :
  int_frac float_0_7 (Z.of_nat (len df)) = Ok (Z.of_nat a) ->
  int_frac float_0_9 (Z.of_nat (len df)) = Ok (Z.of_nat b) ->
  (a <= b <= len df)%nat ->
  split permutation seed df =
    Ok (take_rows (take a (permutation seed (len df))) df,
        take_rows (take (b - a) (drop a (permutation seed (len df)))) df,
        take_rows (drop b (permutation seed (len df))) df).
Proof.
  intros Ha Hb Hab. unfold split. cbv zeta. rewrite Ha, Hb.
  cbn [mbind result_bind]. rewrite sample_all.
  set (shuffled := permutation seed (len df)).
  assert (length shuffled = len df) as Hlen by apply permutation_length.
  unfold np_split. cbv zeta. cbn [drop zip_with app].
  rewrite !slice_take_rows, len_take_rows. do 3 f_equal.
  - rewrite (py_slice_take_drop 0 a) by lia. by rewrite drop_0, Nat.sub_0_r.
  - rewrite py_slice_take_drop by lia. done.
  - rewrite py_slice_take_drop by lia. rewrite take_ge; [done|].
    rewrite length_drop. lia.
Qed.

Lemma cut_points_nat (n : nat) :
  Z.of_nat n < 2 ^ 63 ->
  exists a b : nat,
    int_frac float_0_7 (Z.of_nat n) = Ok (Z.of_nat a) /\
    int_frac float_0_9 (Z.of_nat n) = Ok (Z.of_nat b) /\
    (a <= b <= n)%nat.
Proof.
  intros Hn.
  destruct (cut_points_ordered (Z.of_nat n)) as (a & b & Ha & Hb & H0 & Hab & Hbn).
  { split; [lia|]. etrans; [exact Hn|]. done. }
  exists (Z.to_nat a), (Z.to_nat b). rewrite !Z2Nat.id by lia.
  split; [done|]. split; [done|]. lia.
Qed.

(** C1.  The split shuffles all rows by the seeded permutation and cuts
    the shuffled sequence at [int(0.7 * n)] and [int(0.9 * n)].  The cut
    points are truncated, never rounded up: for fewer than [2 ^ 48] rows
    the first is seven tenths of the length rounded down, or one less,
    and the second nine tenths rounded down, or one less.  The shuffled
    frame holds the rows of the frame at the positions of the
    permutation, in that order; train, validation and test hold the rows
    at the three consecutive blocks of the permutation, in that order,
    each in shuffled order: the label and the value of every column of
    every row are given position by position. *)
Theorem split_shuffles_then_cuts (seed : Z) (df : DataFrame) :
  Z.of_nat (len df) < 2 ^ 63 ->
  let shuffled := permutation seed (len df) in
  exists (a b : nat) (train validation test : DataFrame),
    split permutation seed df = Ok (train, validation, test) /\
    int_frac float_0_7 (Z.of_nat (len df)) = Ok (Z.of_nat a) /\
    int_frac float_0_9 (Z.of_nat (len df)) = Ok (Z.of_nat b) /\
    (a <= b <= len df)%nat /\
    (Z.of_nat (len df) < 2 ^ 48 ->
     7 * Z.of_nat (len df) - 10 <= 10 * Z.of_nat a <= 7 * Z.of_nat (len df) /\
     9 * Z.of_nat (len df) - 10 <= 10 * Z.of_nat b <= 9 * Z.of_nat (len df)) /\
    take a shuffled ++ take (b - a) (drop a shuffled) ++ drop b shuffled = shuffled /\
    forall (part : DataFrame) (locs : list nat),
      (part, locs) ∈ [(sample permutation seed df, shuffled);
                      (train, take a shuffled);
                      (validation, take (b - a) (drop a shuffled));
                      (test, drop b shuffled)] ->
      index part = (fun i => nth i (index df) 0) <$> locs /\
      columns part
      = (fun c => (c.1, mkSeries (s_dtype c.2)
                          ((fun i => nth i (s_values c.2) nan) <$> locs)))
          <$> columns df.
Proof.
  intros Hn shuffled.
  destruct (cut_points_nat (len df) Hn) as (a & b & Ha & Hb & Hab).
  exists a, b, (take_rows (take a shuffled) df),
    (take_rows (take (b - a) (drop a shuffled)) df), (take_rows (drop b shuffled) df).
  split; [by apply split_at|]. split; [done|]. split; [done|]. split; [lia|].
  split; [|split; [apply three_blocks; lia|]].
  - intros Hsmall.
    destruct (cut_points_tenths (Z.of_nat (len df)) ltac:(lia))
      as (a' & b' & Ha' & Hb' & Hta & Htb).
    rewrite Ha in Ha'. rewrite Hb in Hb'. injection Ha' as <-. injection Hb' as <-.
    done.
  - intros part locs Hin. rewrite sample_all in Hin. fold shuffled in Hin.
    repeat (apply elem_of_cons in Hin as [[= -> ->]|Hin]; [done|]).
    by apply elem_of_nil in Hin.
Qed.

(** C2.  The three splits partition the frame: every row position is in
    exactly one split, once; the lengths add up; the rows of the splits
    are the rows of the frame; and with distinct row labels no row is in
    two splits. *)
Theorem split_partitions (seed : Z) (df : DataFrame) :
  Z.of_nat (len df) < 2 ^ 63 ->
  exists train validation test la lb lc,
    split permutation seed df = Ok (train, validation, test) /\
    train = take_rows la df /\ validation = take_rows lb df /\
    test = take_rows lc df /\
    la ++ lb ++ lc ≡ₚ seq 0 (len df) /\
    (la ## lb /\ la ## lc /\ lb ## lc) /\
    (len train + len validation + len test = len df)%nat /\
    rows train ++ rows validation ++ rows test ≡ₚ rows df /\
    (forall r, r ∈ rows df <->
               r ∈ rows train \/ r ∈ rows validation \/ r ∈ rows test) /\
    (NoDup (index df) ->
     rows train ## rows validation /\ rows train ## rows test /\
     rows validation ## rows test).
Proof.
  intros Hn. destruct (cut_points_nat (len df) Hn) as (a & b & Ha & Hb & Hab).
  set (shuffled := permutation seed (len df)).
  pose proof (three_blocks a b shuffled ltac:(lia)) as Hblocks.
  set (la := take a shuffled) in *.
  set (lb := take (b - a) (drop a shuffled)) in *.
  set (lc := drop b shuffled) in *.
  assert (la ++ lb ++ lc ≡ₚ seq 0 (len df)) as Hperm
    by (rewrite Hblocks; apply permutation_perm).
  assert (NoDup (la ++ lb ++ lc)) as Hnodup by (rewrite Hperm; apply NoDup_seq).
  assert (rows (take_rows la df) ++ rows (take_rows lb df) ++ rows (take_rows lc df)
          ≡ₚ rows df) as Hrows.
  { rewrite !rows_take_rows, <- !fmap_app. unfold rows. by rewrite Hperm. }
  exists (take_rows la df), (take_rows lb df), (take_rows lc df), la, lb, lc.
  split_and!; try done.
  - by apply split_at.
  - apply NoDup_app in Hnodup as (_ & Hdisj & _).
    intros x Hx Hy. apply (Hdisj x Hx). apply elem_of_app. by left.
  - apply NoDup_app in Hnodup as (_ & Hdisj & _).
    intros x Hx Hy. apply (Hdisj x Hx). apply elem_of_app. by right.
  - apply NoDup_app in Hnodup as (_ & _ & Hnodup).
    apply NoDup_app in Hnodup as (_ & Hdisj & _).
    intros x Hx Hy. by apply (Hdisj x Hx).
  - rewrite !len_take_rows. pose proof (Permutation_length Hperm) as Hlen.
    rewrite !length_app, length_seq in Hlen. lia.
  - intros r. rewrite <- Hrows, !elem_of_app. done.
  - intros Hidx.
    assert (NoDup (rows df)) as Hnd
      by (apply (NoDup_fmap_1 fst); by rewrite rows_index).
    rewrite <- Hrows in Hnd.
    pose proof Hnd as (_ & Hd1 & Hnd')%NoDup_app.
    apply NoDup_app in Hnd' as (_ & Hd2 & _).
    split_and!; intros r Hr Hr'.
    + apply (Hd1 r Hr). apply elem_of_app. by left.
    + apply (Hd1 r Hr). apply elem_of_app. by right.
    + by apply (Hd2 r Hr).
Qed.

(** C5.  Ten rows are cut at [int(0.7 * 10) = 7] and [int(0.9 * 10) = 9]:
    seven rows for train, two for validation and one for test, whatever
    the seed. *)
Theorem split_of_ten (seed : Z) (df : DataFrame) :
  len df = 10%nat ->
  int_frac float_0_7 10 = Ok 7 /\ int_frac float_0_9 10 = Ok 9 /\
  exists train validation test,
    split permutation seed df = Ok (train, validation, test) /\
    train = take_rows (take 7 (permutation seed 10)) df /\
    validation = take_rows (take 2 (drop 7 (permutation seed 10))) df /\
    test = take_rows (drop 9 (permutation seed 10)) df /\
    len train = 7%nat /\ len validation = 2%nat /\ len test = 1%nat.
Proof.
  intros Hlen. split; [done|]. split; [done|].
  pose proof (split_at seed df 7 9) as Hsplit. rewrite Hlen in Hsplit.
  specialize (Hsplit eq_refl eq_refl ltac:(lia)).
  pose proof (permutation_length seed 10) as Hp.
  eexists _, _, _. split; [exact Hsplit|]. split_and!; try done.
  - rewrite len_take_rows, length_take. lia.
  - rewrite len_take_rows, length_take, length_drop. lia.
  - rewrite len_take_rows, length_drop. lia.
Qed.

End Split.

(** The splits have the columns of the frame that is split. *)
Lemma split_schema permutation (seed : Z) (df train validation test : DataFrame) :
  split permutation seed df = Ok (train, validation, test) ->
  schema train = schema df /\ schema validation = schema df /\ schema test = schema df.
Proof.
  unfold split. cbv zeta.
  destruct (int_frac float_0_7 _) as [a|]; [|done].
  destruct (int_frac float_0_9 _) as [b|]; [|done].
  cbn [mbind result_bind]. unfold np_split. cbv zeta. cbn [drop zip_with app].
  intros [= <- <- <-]. rewrite !schema_slice_rows. unfold sample.
  by rewrite schema_take_rows.
Qed.

(** ** The run: what is read and what is written *)

Lemma data_dir_exists (w : world) : dirname raw_path ∈ dirs (with_data_dir w).
Proof.
  unfold with_data_dir. cbn [dirs]. apply elem_of_union. right.
  apply elem_of_list_to_set. vm_compute. do 3 right. left.
Qed.

Lemma output_paths_fresh (text : string) (w : world) (p : string) :
  p ∈ output_paths ->
  files (write_file raw_path text (with_data_dir w)) !! p = files w !! p.
Proof.
  intros Hp. unfold write_file, with_data_dir. cbn [files].
  apply lookup_insert_ne. intros <-.
  repeat (apply elem_of_cons in Hp as [Hp | Hp]; [discriminate Hp|]).
  by apply elem_of_nil in Hp.
Qed.

Section Run.

Variable repr_float : spec_float -> string.
Variable parse_csv : string -> result DataFrame.
Variable permutation : Z -> nat -> list nat.

(** A run creates the data directory, downloads the object, computes the
    splits, and only then writes. *)
Lemma preprocess_unfold (seed : Z) (input_data : string) (w : world) :
  preprocess repr_float parse_csv permutation seed input_data w =
  match downloaded input_data w with
  | Raise e => (Raise e, with_data_dir w)
  | Ok text =>
      match outcome repr_float parse_csv permutation seed input_data w with
      | Raise e => (Raise e, write_file raw_path text (with_data_dir w))
      | Ok splits => write_splits repr_float splits (write_file raw_path text (with_data_dir w))
      end
  end.
Proof.
  unfold outcome, preprocess, downloaded.
  unfold mbind at 1. unfold M_bind at 1. unfold mkdir_parents at 1.
  change (base_dir +:+ "/data") with "/opt/ml/processing/data".
  fold (with_data_dir w).
  unfold mbind at 1. unfold M_bind at 1. unfold lift at 1.
  destruct (py_getitem (py_split "/" input_data) 2) as [bucket|e]; [|done].
  cbn [mbind result_bind].
  unfold mbind at 1. unfold M_bind at 1. unfold download_file at 1.
  destruct (decide (_ = "")); [done|].
  change (s3 (with_data_dir w)) with (s3 w).
  destruct (s3 w !! _) as [text|]; [|done].
  rewrite decide_True by apply data_dir_exists.
  unfold mbind at 1. unfold M_bind at 1. unfold read_csv at 1.
  replace (files (write_file raw_path text (with_data_dir w)) !! raw_path)
    with (Some text) by (symmetry; apply lookup_insert_eq).
  cbn [mbind result_bind].
  destruct (parse_csv text) as [df|e]; [|done].
  cbn [mbind result_bind].
  unfold mbind at 1. unfold M_bind at 1. unfold lift at 1.
  by destruct (transform repr_float permutation seed df) as [[[tr va] te]|e].
Qed.

Lemma mounted_after_download (text : string) (w : world) :
  mounted w -> mounted (write_file raw_path text (with_data_dir w)).
Proof.
  unfold mounted. intros Hm. eapply Forall_impl; [exact Hm|]. intros p Hp.
  cbn [write_file with_data_dir dirs]. apply elem_of_union. by left.
Qed.

(** With the output directories in place the three writes succeed. *)
Lemma write_splits_mounted (train validation test : DataFrame) (w : world) :
  mounted w ->
  write_splits repr_float (train, validation, test) w =
  (Ok (), write_file test_path (csv_text repr_float test)
            (write_file validation_path (csv_text repr_float validation)
               (write_file train_path (csv_text repr_float train) w))).
Proof.
  intros Hm. unfold mounted, output_paths in Hm.
  rewrite !Forall_cons in Hm. destruct Hm as (Htrain & Hvalidation & Htest & _).
  unfold write_splits. cbn [fst snd].
  unfold mbind, M_bind, to_csv. cbn [write_file dirs].
  by rewrite !decide_True.
Qed.

(** An exception raised before the writes ends the run there: nothing
    but the downloaded copy of the input has been stored. *)
Lemma upstream_error_aborts (seed : Z) (input_data : string) (w : world) (e : exception) :
  outcome repr_float parse_csv permutation seed input_data w = Raise e ->
  (preprocess repr_float parse_csv permutation seed input_data w).1 = Raise e /\
  forall p, p ∈ output_paths ->
    files (preprocess repr_float parse_csv permutation seed input_data w).2 !! p
    = files w !! p.
Proof.
  intros Hout. rewrite preprocess_unfold.
  destruct (downloaded input_data w) as [text|e'] eqn:Hdl.
  - rewrite Hout. cbn [fst snd]. split; [done|]. apply output_paths_fresh.
  - unfold outcome in Hout. rewrite Hdl in Hout. injection Hout as ->.
    split; [done|]. done.
Qed.

(** C7, as the script has it.  When a stage before the writes raises,
    the run ends with that exception and none of the three files is
    written; when the splits are computed, and the output directories
    that the job mounts are in place, the run succeeds and each of the
    three files holds the text of its split.  The script does not undo a
    write: where an output directory is missing, the files written
    before the failing write stay. *)
Theorem writes_all_or_none (seed : Z) (input_data : string) (w : world) :
  match outcome repr_float parse_csv permutation seed input_data w with
  | Raise e =>
      (preprocess repr_float parse_csv permutation seed input_data w).1 = Raise e /\
      forall p, p ∈ output_paths ->
        files (preprocess repr_float parse_csv permutation seed input_data w).2 !! p
        = files w !! p
  | Ok (train, validation, test) =>
      mounted w ->
      (preprocess repr_float parse_csv permutation seed input_data w).1 = Ok () /\
      files (preprocess repr_float parse_csv permutation seed input_data w).2
        !! train_path = Some (csv_text repr_float train) /\
      files (preprocess repr_float parse_csv permutation seed input_data w).2
        !! validation_path = Some (csv_text repr_float validation) /\
      files (preprocess repr_float parse_csv permutation seed input_data w).2
        !! test_path = Some (csv_text repr_float test)
  end.
Proof.
  destruct (outcome repr_float parse_csv permutation seed input_data w)
    as [[[train validation] test]|e] eqn:Hout.
  - intros Hm. rewrite preprocess_unfold, Hout.
    destruct (downloaded input_data w) as [text|e] eqn:Hdl;
      [|unfold outcome in Hout; by rewrite Hdl in Hout].
    rewrite write_splits_mounted by by apply mounted_after_download.
    cbn [fst snd write_file files]. split; [done|]. split_and!.
    + rewrite lookup_insert_ne by done. rewrite lookup_insert_ne by done.
      apply lookup_insert_eq.
    + rewrite lookup_insert_ne by done. apply lookup_insert_eq.
    + apply lookup_insert_eq.
  - by apply upstream_error_aborts.
Qed.

End Run.

(** ** Cleaning *)

Lemma drop_missing_label (names : list string) (df : DataFrame) (c : string) :
  c ∈ names -> c ∉ labels df ->
  exists missing, DataFrame_drop names df = Raise (KeyError missing).
Proof.
  intros Hc Hmiss. unfold DataFrame_drop.
  destruct (filter _ names) as [|m ms] eqn:Hf; [|by eexists].
  assert (c ∈ filter (fun l => l ∉ labels df) names) as Hin
    by (by apply list_elem_of_filter).
  rewrite Hf in Hin. by apply elem_of_nil in Hin.
Qed.

Lemma drop_labels_subseteq (names : list string) (df df' : DataFrame) :
  DataFrame_drop names df = Ok df' -> labels df' ⊆ labels df.
Proof.
  unfold DataFrame_drop. destruct (filter _ names); [|done]. intros [= <-].
  unfold labels. cbn [columns]. intros l (c & -> & Hc)%list_elem_of_fmap.
  apply list_elem_of_filter in Hc as [_ Hc]. by apply list_elem_of_fmap_2.
Qed.

Lemma setitem_columns_labels (key : string) (new : list Series)
    (cols : list (string * Series)) :
  (setitem_columns key new cols).*1 = cols.*1.
Proof.
  revert new. induction cols as [|c cols IH]; intros new; [done|].
  cbn [setitem_columns]. destruct (decide (c.1 = key)) as [Hk|Hk].
  - destruct new as [|s new]; cbn [fmap list_fmap fst]; rewrite IH; by rewrite ?Hk.
  - cbn [fmap list_fmap]. by rewrite IH.
Qed.

Lemma setitem_labels (key : string) (value df : DataFrame) :
  key ∈ labels df -> labels (DataFrame_setitem key value df) = labels df.
Proof.
  intros Hk. unfold DataFrame_setitem. rewrite decide_True by done.
  unfold labels. cbn [columns]. apply setitem_columns_labels.
Qed.

Lemma getitem_label (key : string) (df x : DataFrame) :
  DataFrame_getitem key df = Ok x -> key ∈ labels df.
Proof.
  unfold DataFrame_getitem.
  destruct (filter _ (columns df)) as [|c cs] eqn:Hf; [done|]. intros _.
  assert (c ∈ filter (fun c => c.1 = key) (columns df)) as Hc
    by (rewrite Hf; apply list_elem_of_here).
  apply list_elem_of_filter in Hc as [<- Hc]. by apply list_elem_of_fmap_2.
Qed.

(** A frame without one of the columns to discard is not cleaned: one of
    the look-ups raises [KeyError]. *)
Lemma clean_missing_column (df : DataFrame) (c : string) :
  c ∈ discard_columns -> c ∉ labels df ->
  exists missing, clean df = Raise (KeyError missing).
Proof.
  intros Hc Hmiss. unfold clean.
  destruct (DataFrame_drop ["Phone"] df) as [df1|e] eqn:Hdrop1.
  - cbn [mbind result_bind].
    assert (c ≠ "Phone") as Hne.
    { intros ->. destruct (drop_missing_label ["Phone"] df "Phone") as [m Hm];
        [apply list_elem_of_here | done | congruence]. }
    destruct (DataFrame_getitem "Area Code" df1) as [area|e] eqn:Hget.
    + cbn [mbind result_bind]. apply (drop_missing_label _ _ c).
      * unfold discard_columns in Hc. apply elem_of_cons in Hc as [->|Hc]; done.
      * rewrite setitem_labels by (by eapply getitem_label).
        intros Hin. apply Hmiss. by eapply drop_labels_subseteq.
    + cbn [mbind result_bind]. unfold DataFrame_getitem in Hget.
      destruct (filter _ (columns df1)); [|done]. injection Hget as <-. by eexists.
  - cbn [mbind result_bind]. unfold DataFrame_drop in Hdrop1.
    destruct (filter _ ["Phone"]); [done|]. injection Hdrop1 as <-. by eexists.
Qed.

Section Errors.

Variable repr_float : spec_float -> string.
Variable parse_csv : string -> result DataFrame.
Variable permutation : Z -> nat -> list nat.

(** C6.  When the parsed dataset lacks [Phone], or another column that
    is discarded, cleaning raises [KeyError], the exception for a column
    that is not there, and the run ends with it before any output file
    is written. *)
Theorem missing_discard_column_aborts (seed : Z) (input_data text : string)
    (w : world) (df : DataFrame) (c : string) :
  downloaded input_data w = Ok text ->
  parse_csv text = Ok df ->
  c ∈ discard_columns -> c ∉ labels df ->
  exists missing,
    clean df = Raise (KeyError missing) /\
    (preprocess repr_float parse_csv permutation seed input_data w).1
      = Raise (KeyError missing) /\
    forall p, p ∈ output_paths ->
      files (preprocess repr_float parse_csv permutation seed input_data w).2 !! p
      = files w !! p.
Proof.
  intros Hdl Hparse Hc Hmiss.
  destruct (clean_missing_column df c Hc Hmiss) as [missing Hclean].
  exists missing. split; [done|].
  apply upstream_error_aborts. unfold outcome, transform.
  rewrite Hdl. cbn [mbind result_bind]. rewrite Hparse. cbn [mbind result_bind].
  by rewrite Hclean.
Qed.

(** The split itself never fails for lack of rows. *)
Lemma split_succeeds (seed : Z) (df : DataFrame) :
  Z.of_nat (len df) < 2 ^ 63 -> is_ok (split permutation seed df) = true.
Proof.
  intros Hn. destruct (cut_points_nat (len df) Hn) as (a & b & Ha & Hb & _).
  unfold split. cbv zeta. by rewrite Ha, Hb.
Qed.

(** C8, as the script has it.  An input of no bytes, on which the parser
    raises [EmptyDataError], ends the run with that exception before any
    output is written.  There is no check of the row count: the split
    succeeds on every frame, however few rows it has. *)
Theorem empty_input_aborts (seed : Z) (input_data : string) (w : world) :
  parse_csv "" = Raise EmptyDataError ->
  downloaded input_data w = Ok "" ->
  ((preprocess repr_float parse_csv permutation seed input_data w).1
     = Raise EmptyDataError /\
   forall p, p ∈ output_paths ->
     files (preprocess repr_float parse_csv permutation seed input_data w).2 !! p
     = files w !! p) /\
  forall df, Z.of_nat (len df) < 2 ^ 63 -> is_ok (split permutation seed df) = true.
Proof.
  intros Hempty Hdl. split; [|intros df; apply split_succeeds].
  apply upstream_error_aborts. unfold outcome.
  rewrite Hdl. cbn [mbind result_bind]. by rewrite Hempty.
Qed.

(** The three splits have the columns of the encoded frame: the same
    labels and element types in the same order. *)
Lemma transform_schema (seed : Z) (df train validation test : DataFrame) :
  transform repr_float permutation seed df = Ok (train, validation, test) ->
  exists cleaned model_data,
    clean df = Ok cleaned /\ encode repr_float cleaned = Ok model_data /\
    split permutation seed model_data = Ok (train, validation, test) /\
    schema train = schema model_data /\ schema validation = schema model_data /\
    schema test = schema model_data.
Proof.
  unfold transform. destruct (clean df) as [cleaned|] eqn:Hclean; [|done].
  cbn [mbind result_bind].
  destruct (encode repr_float cleaned) as [model_data|] eqn:Hencode; [|done].
  cbn [mbind result_bind]. intros Hsplit.
  exists cleaned, model_data. split; [done|]. split; [done|]. split; [done|].
  by apply split_schema in Hsplit.
Qed.

End Errors.

(** ** Determinism *)

Section Determinism.

Variable repr_float : spec_float -> string.
Variable parse_csv : string -> result DataFrame.
Variable permutation : Z -> nat -> list nat.

Lemma outcome_of_download (seed : Z) (input_data : string) (w1 w2 : world) :
  downloaded input_data w1 = downloaded input_data w2 ->
  outcome repr_float parse_csv permutation seed input_data w1
  = outcome repr_float parse_csv permutation seed input_data w2.
Proof. unfold outcome. by intros ->. Qed.

(** The writes depend on the world only through the existence of the
    three output directories; a write that is reached stores the text
    of its split. *)
Lemma write_splits_cases (splits : DataFrame * DataFrame * DataFrame) (w : world) :
  (mounted w /\
   write_splits repr_float splits w =
     (Ok (), write_file test_path (csv_text repr_float splits.2)
               (write_file validation_path (csv_text repr_float splits.1.2)
                  (write_file train_path (csv_text repr_float splits.1.1) w)))) \/
  (¬ mounted w /\ (write_splits repr_float splits w).1 = Raise FileNotFoundError).
Proof.
  destruct splits as [[train validation] test]. cbn [fst snd].
  unfold mounted, output_paths. rewrite !Forall_cons.
  unfold write_splits, mbind, M_bind, to_csv. cbn [fst snd].
  destruct (decide (dirname train_path ∈ dirs w));
    [cbn [write_file dirs] | right; split; [tauto|reflexivity]].
  destruct (decide (dirname validation_path ∈ dirs w));
    [cbn [write_file dirs] | right; split; [tauto|reflexivity]].
  destruct (decide (dirname test_path ∈ dirs w));
    [cbn [write_file dirs] | right; split; [tauto|reflexivity]].
  left. split; [|done]. by split_and!.
Qed.

(** C3.  A run is a function of the bytes it downloads and of the seed:
    two runs that download the same bytes, in worlds that may differ in
    every file and in every other object but agree on which output
    directories exist, end in the same way, and when they succeed the
    train, validation and test files hold the same text. *)
Theorem runs_agree (seed : Z) (input_data : string) (w1 w2 : world) :
  downloaded input_data w1 = downloaded input_data w2 ->
  (forall p, p ∈ output_paths -> dirname p ∈ dirs w1 <-> dirname p ∈ dirs w2) ->
  (preprocess repr_float parse_csv permutation seed input_data w1).1
  = (preprocess repr_float parse_csv permutation seed input_data w2).1 /\
  ((preprocess repr_float parse_csv permutation seed input_data w1).1 = Ok () ->
   forall p, p ∈ output_paths ->
     files (preprocess repr_float parse_csv permutation seed input_data w1).2 !! p
     = files (preprocess repr_float parse_csv permutation seed input_data w2).2 !! p).
Proof.
  intros Hdl Hdirs. rewrite !preprocess_unfold.
  rewrite (outcome_of_download seed input_data w1 w2 Hdl), <- Hdl.
  destruct (downloaded input_data w1) as [text|e]; [|done].
  destruct (outcome repr_float parse_csv permutation seed input_data w2)
    as [splits|e]; [|done].
  set (v1 := write_file raw_path text (with_data_dir w1)).
  set (v2 := write_file raw_path text (with_data_dir w2)).
  assert (mounted v1 <-> mounted v2) as Hm.
  { unfold mounted. rewrite !Forall_forall. apply forall_proper. intros p.
    apply forall_proper. intros Hp. subst v1 v2.
    cbn [write_file with_data_dir dirs]. rewrite !elem_of_union.
    by rewrite (Hdirs p Hp). }
  destruct (write_splits_cases splits v1) as [[H1 E1] | [H1 E1]];
    destruct (write_splits_cases splits v2) as [[H2 E2] | [H2 E2]];
    try tauto.
  - rewrite E1, E2. cbn [fst snd]. split; [done|]. intros _ p Hp.
    cbn [write_file files].
    repeat (apply elem_of_cons in Hp as [-> | Hp]);
      [| |  | by apply elem_of_nil in Hp].
    + do 2 (rewrite lookup_insert_ne by done). rewrite lookup_insert_eq.
      do 2 (rewrite lookup_insert_ne by done). by rewrite lookup_insert_eq.
    + rewrite lookup_insert_ne by done. rewrite lookup_insert_eq.
      rewrite lookup_insert_ne by done. by rewrite lookup_insert_eq.
    + by rewrite !lookup_insert_eq.
  - rewrite E1, E2. split; [done|]. intros [=].
Qed.

End Determinism.

(** ** Encoding *)

Lemma filter_complement_nil {A} (P : A -> Prop) `{forall x, Decision (P x)} (l : list A) :
  length (filter P l) = length l -> filter (fun x => ¬ P x) l = [].
Proof.
  induction l as [|x l IH]; [done|]. rewrite !filter_cons.
  destruct (decide (P x)) as [HP|HP].
  - rewrite decide_False by tauto. cbn [length]. intros Hlen. apply IH. lia.
  - pose proof (length_filter P l). cbn [length]. lia.
Qed.

Lemma list_bind_nil {A B} (f : A -> list B) : [] ≫= f = [].
Proof. done. Qed.

Section Encoding.

Variable repr_float : spec_float -> string.

(** One-hot encoding keeps the row labels, keeps the columns that are
    not of object type as they are and in their order, and appends the
    indicator columns. *)
Lemma get_dummies_columns (df md : DataFrame) :
  get_dummies repr_float df = Ok md ->
  md = mkFrame (index df) (numeric_columns df ++ indicator_columns repr_float df).
Proof.
  unfold get_dummies, numeric_columns, indicator_columns. cbv zeta.
  set (enc := filter is_object (columns df)).
  set (with_dummies := if decide (length enc = length (columns df)) then [] else _).
  set (frame := fun c : string * Series =>
                  mkFrame (index df) (get_dummies_1d repr_float c.1 c.2)).
  assert ((with_dummies ++ (frame <$> enc)) ≫= columns
          = filter (fun c => ¬ is_object c) (columns df) ++
            enc ≫= (fun c => get_dummies_1d repr_float c.1 c.2)) as Hcols.
  { rewrite bind_app, list_fmap_bind. f_equal. subst with_dummies.
    destruct (decide (length enc = length (columns df))) as [Hall|Hsome].
    - by rewrite (filter_complement_nil _ _ Hall).
    - by rewrite bind_cons, list_bind_nil, app_nil_r. }
  assert (Forall (fun o => index o = index df) (with_dummies ++ (frame <$> enc)))
    as Hidx.
  { apply Forall_app. split.
    - subst with_dummies. destruct (decide _); by repeat constructor.
    - by apply Forall_fmap, Forall_true. }
  destruct (with_dummies ++ (frame <$> enc)) as [|o objs]; [done|].
  unfold concat. intros [= <-].
  apply Forall_cons in Hidx as [Hidx _]. rewrite Hidx. f_equal. exact Hcols.
Qed.

Lemma getitem_columns (key : string) (df x : DataFrame) :
  DataFrame_getitem key df = Ok x ->
  x = mkFrame (index df) (filter (fun c => c.1 = key) (columns df)).
Proof.
  unfold DataFrame_getitem. destruct (filter _ (columns df)); [done|]. congruence.
Qed.

Lemma drop_columns (names : list string) (df x : DataFrame) :
  DataFrame_drop names df = Ok x ->
  x = mkFrame (index df) (filter (fun c => c.1 ∉ names) (columns df)).
Proof. unfold DataFrame_drop. destruct (filter _ names); [|done]. congruence. Qed.

(** The encoded frame: the columns labelled [Churn?_True.] first, then
    every other column of the one-hot encoding except those with a churn
    label. *)
Lemma encode_columns (df model_data : DataFrame) :
  encode repr_float df = Ok model_data ->
  model_data =
    mkFrame (index df)
      (filter (fun c => c.1 = "Churn?_True.")
              (numeric_columns df ++ indicator_columns repr_float df) ++
       filter (fun c => c.1 ∉ churn_labels)
              (numeric_columns df ++ indicator_columns repr_float df)).
Proof.
  unfold encode.
  destruct (get_dummies repr_float df) as [md|] eqn:Hmd; [|done].
  apply get_dummies_columns in Hmd as ->. cbn [mbind result_bind].
  destruct (DataFrame_getitem _ _) as [target|] eqn:Htarget; [|done].
  apply getitem_columns in Htarget as ->. cbn [mbind result_bind].
  destruct (DataFrame_drop _ _) as [features|] eqn:Hfeatures; [|done].
  apply drop_columns in Hfeatures as ->. cbn [mbind result_bind].
  unfold concat. intros [= <-]. cbn [index columns mbind list_bind].
  by rewrite app_nil_r.
Qed.

Lemma indicator_column_shape (df : DataFrame) (c : string * Series) :
  c ∈ indicator_columns repr_float df ->
  exists c0 l,
    c0 ∈ columns df /\ is_object c0 /\ l ∈ levels (s_values c0.2) /\
    c = (c0.1 +:+ "_" +:+ py_str repr_float l,
         mkSeries uint8 ((fun v => Int (Z.b2z (py_eqb v l))) <$> s_values c0.2)).
Proof.
  unfold indicator_columns. intros (c0 & Hc & Hc0)%list_elem_of_bind.
  apply list_elem_of_filter in Hc0 as [Hobj Hc0].
  unfold get_dummies_1d in Hc. apply list_elem_of_fmap in Hc as (l & -> & Hl).
  by exists c0, l.
Qed.

Lemma setitem_columns_other (key : string) (new : list Series)
    (cols : list (string * Series)) (c : string * Series) :
  c ∈ cols -> c.1 ≠ key -> c ∈ setitem_columns key new cols.
Proof.
  intros Hc Hkey. revert new.
  induction cols as [|c' cols IH]; intros new; [by apply elem_of_nil in Hc|].
  cbn [setitem_columns]. apply elem_of_cons in Hc as [<- | Hc].
  - rewrite decide_False by done. apply list_elem_of_here.
  - destruct (decide (c'.1 = key)); [destruct new|];
      apply list_elem_of_further; by apply IH.
Qed.

(** Cleaning keeps every column that is neither discarded nor the area
    code, as it is. *)
Lemma clean_keeps_columns (df cleaned : DataFrame) (c : string * Series) :
  clean df = Ok cleaned ->
  c ∈ columns df -> c.1 ∉ discard_columns -> c.1 ≠ "Area Code" ->
  c ∈ columns cleaned.
Proof.
  unfold clean. intros Hclean Hc Hkeep Harea.
  destruct (DataFrame_drop ["Phone"] df) as [df1|] eqn:H1; [|done].
  apply drop_columns in H1 as ->. cbn [mbind result_bind] in Hclean.
  destruct (DataFrame_getitem "Area Code" _) as [area|] eqn:H2; [|done].
  cbn [mbind result_bind] in Hclean. pose proof (getitem_label _ _ _ H2) as Hin.
  apply drop_columns in Hclean as ->. cbn [columns].
  unfold discard_columns in Hkeep.
  apply list_elem_of_filter. split.
  { intros Hd. apply Hkeep. by apply list_elem_of_further. }
  unfold DataFrame_setitem. rewrite decide_True by done. cbn [columns].
  apply setitem_columns_other; [|done].
  apply list_elem_of_filter. split; [|done].
  intros Hd. apply Hkeep. apply list_elem_of_singleton in Hd as ->.
  apply list_elem_of_here.
Qed.

(** C10.  Encoding changes no value of a column that is not of object
    type.  The encoded frame has the row labels of the cleaned frame;
    each of its columns is either a column of the cleaned frame that is
    not of object type, with its label, type and values, or an indicator
    column made of an object column; the kept columns are in their
    original order; and every column that is not of object type is kept
    unless it carries a churn label.  The same holds from the parsed
    frame on, for the columns that are neither discarded nor the area
    code. *)
Theorem encode_keeps_numeric_columns (df cleaned model_data : DataFrame) :
  clean df = Ok cleaned ->
  encode repr_float cleaned = Ok model_data ->
  index model_data = index cleaned /\
  columns model_data
    = filter (fun c => c.1 = "Churn?_True.")
             (numeric_columns cleaned ++ indicator_columns repr_float cleaned) ++
      filter (fun c => c.1 ∉ churn_labels)
             (numeric_columns cleaned ++ indicator_columns repr_float cleaned) /\
  (forall c, c ∈ columns model_data ->
     (c ∈ columns cleaned /\ s_dtype c.2 ≠ object_) \/
     (c ∈ indicator_columns repr_float cleaned /\ s_dtype c.2 = uint8)) /\
  (forall c, c ∈ columns cleaned -> s_dtype c.2 ≠ object_ -> c.1 ∉ churn_labels ->
     c ∈ columns model_data) /\
  (forall c, c ∈ columns df -> s_dtype c.2 ≠ object_ ->
     c.1 ∉ discard_columns -> c.1 ≠ "Area Code" -> c.1 ∉ churn_labels ->
     c ∈ columns model_data).
Proof.
  intros Hclean ->%encode_columns. cbn [index columns].
  assert (forall c, c ∈ indicator_columns repr_float cleaned -> s_dtype c.2 = uint8)
    as Huint8.
  { by intros c (c0 & l & _ & _ & _ & ->)%indicator_column_shape. }
  assert (forall c, c ∈ columns cleaned -> s_dtype c.2 ≠ object_ ->
            c.1 ∉ churn_labels ->
            c ∈ filter (fun c => c.1 = "Churn?_True.")
                  (numeric_columns cleaned ++ indicator_columns repr_float cleaned) ++
                filter (fun c => c.1 ∉ churn_labels)
                  (numeric_columns cleaned ++ indicator_columns repr_float cleaned))
    as Hkept.
  { intros c Hc Hobj Hlabel. apply elem_of_app. right.
    apply list_elem_of_filter. split; [done|]. apply elem_of_app. left.
    by apply list_elem_of_filter. }
  split_and!; [done | done | | exact Hkept |].
  - intros c. rewrite elem_of_app, !list_elem_of_filter, !elem_of_app.
    unfold numeric_columns. rewrite !list_elem_of_filter. unfold is_object.
    intros [[_ [[? ?]|?]] | [_ [[? ?]|?]]]; auto.
  - intros c Hc Hobj Hkeep Harea Hlabel. apply Hkept; [|done..].
    by eapply clean_keeps_columns.
Qed.

End Encoding.

(** ** The target column *)

Lemma append_nil_l (s : string) : "" +:+ s = s.
Proof. done. Qed.

Lemma append_cons (a : ascii) (s t : string) : String a s +:+ t = String a (s +:+ t).
Proof. done. Qed.

Ltac prefix_cases c H :=
  destruct c as [|? c];
  [ rewrite append_nil_l, append_cons in H; first [discriminate H | done]
  | rewrite append_cons in H;
    first [discriminate H | injection H as -> H; prefix_cases c H] ].

(** A label [prefix_value] is the target label only for the prefix [Churn?]. *)
Lemma churn_prefix (c x : string) : c +:+ "_" +:+ x = "Churn?_True." -> c = "Churn?".
Proof. intros H. prefix_cases c H. Qed.

Lemma py_eqb_str (s t : string) : py_eqb (Str s) (Str t) = true <-> s = t.
Proof. cbn. apply String.eqb_eq. Qed.

Lemma uniques_two_valued (vs : list scalar) (v : scalar) :
  Forall two_valued vs -> (v ∈ uniques vs <-> v ∈ vs).
Proof.
  induction 1 as [|x vs Hx Hvs IH]; [done|]. cbn [uniques].
  rewrite !elem_of_cons, list_elem_of_filter, IH.
  split; [intros [?|[_ ?]]; auto|]. intros [-> | Hv]; [by left|].
  assert (two_valued v) as Hv' by (rewrite Forall_forall in Hvs; by apply Hvs).
  destruct Hx as [-> | ->], Hv' as [-> | ->];
    first [by left | by right].
Qed.

Lemma uniques_NoDup (vs : list scalar) : Forall two_valued vs -> NoDup (uniques vs).
Proof.
  induction 1 as [|x vs Hx Hvs IH]; [constructor|]. cbn [uniques].
  constructor; [|by apply NoDup_filter].
  rewrite list_elem_of_filter. intros [Hxx _].
  destruct Hx as [-> | ->]; done.
Qed.

Lemma filter_nil_Forall {A} (P : A -> Prop) `{forall x, Decision (P x)} (l : list A) :
  Forall (fun x => ¬ P x) l -> filter P l = [].
Proof.
  induction 1 as [|x l Hx Hl IH]; [done|].
  rewrite filter_cons, decide_False by done. exact IH.
Qed.

Lemma filter_eq_singleton {A} `{EqDecision A} (x : A) (l : list A) :
  NoDup l -> x ∈ l -> filter (fun y => y = x) l = [x].
Proof.
  induction 1 as [|y l Hy Hl IH]; [by intros ?%elem_of_nil|].
  rewrite filter_cons. intros [-> | Hx]%elem_of_cons.
  - rewrite decide_True by done. f_equal. apply filter_nil_Forall.
    apply Forall_forall. by intros z Hz ->.
  - rewrite decide_False by (by intros ->). by apply IH.
Qed.

Lemma filter_bind {A B} (P : B -> Prop) `{forall x, Decision (P x)}
    (g : A -> list B) (l : list A) :
  filter P (l ≫= g) = l ≫= (fun x => filter P (g x)).
Proof.
  induction l as [|x l IH]; [done|]. by rewrite !bind_cons, filter_app, IH.
Qed.

Lemma bind_nil_Forall {A B} (g : A -> list B) (l : list A) :
  Forall (fun x => g x = []) l -> l ≫= g = [].
Proof.
  induction 1 as [|x l Hx Hl IH]; [done|]. by rewrite bind_cons, Hx, IH.
Qed.

(** In a list of labelled columns with distinct labels, a function that
    yields nothing for the other labels sees only the column of its label. *)
Lemma bind_unique_label {B} (g : string * Series -> list B)
    (l : list (string * Series)) (k : string) (v : Series) :
  NoDup l.*1 -> (k, v) ∈ l -> (forall c, c.1 ≠ k -> g c = []) ->
  l ≫= g = g (k, v).
Proof.
  intros Hnd Hin Hg. induction l as [|c l IH]; [by apply elem_of_nil in Hin|].
  rewrite fmap_cons in Hnd. apply NoDup_cons in Hnd as [Hc Hnd].
  rewrite bind_cons. apply elem_of_cons in Hin as [<- | Hin].
  - rewrite bind_nil_Forall; [by rewrite app_nil_r|].
    apply Forall_forall. intros c' Hc'. apply Hg. intros Hk. apply Hc.
    cbn [fst]. rewrite <- Hk. by apply list_elem_of_fmap_2.
  - rewrite Hg; [by apply IH|]. intros Hk. apply Hc. rewrite Hk.
    by apply (list_elem_of_fmap_2 fst _ (k, v)).
Qed.

Lemma filter_fmap {A B} (P : B -> Prop) `{forall x, Decision (P x)} (f : A -> B) (l : list A) :
  filter P (f <$> l) = f <$> filter (fun x => P (f x)) l.
Proof.
  induction l as [|x l IH]; [done|]. rewrite fmap_cons, !filter_cons.
  destruct (decide (P (f x))); by rewrite IH.
Qed.

Lemma filter_ext_Forall {A} (P Q : A -> Prop) `{forall x, Decision (P x)}
    `{forall x, Decision (Q x)} (l : list A) :
  Forall (fun x => P x <-> Q x) l -> filter P l = filter Q l.
Proof.
  induction 1 as [|x l Hx Hl IH]; [done|]. rewrite !filter_cons.
  destruct (decide (P x)), (decide (Q x)); try tauto; by rewrite IH.
Qed.

Section Target.

Variable repr_float : spec_float -> string.

Lemma levels_two_valued (vs : list scalar) :
  Forall two_valued vs ->
  levels vs ≡ₚ uniques vs.
Proof.
  intros Hvs. unfold levels. rewrite merge_sort_Permutation.
  assert (filter (fun v => isna v = false) vs = vs) as ->; [|done].
  induction Hvs as [|v vs Hv Hvs IH]; [done|].
  rewrite filter_cons, decide_True by (by destruct Hv as [-> | ->]).
  by rewrite IH.
Qed.

(** The indicator columns of a two-valued churn column: exactly one has
    the target label, the indicator of [True.]. *)
Lemma churn_dummies_target (churn : Series) :
  Forall two_valued (s_values churn) -> Str "True." ∈ s_values churn ->
  filter (fun c => c.1 = "Churn?_True.") (get_dummies_1d repr_float "Churn?" churn)
  = [("Churn?_True.",
      mkSeries uint8 ((fun v => Int (Z.b2z (py_eqb v (Str "True.")))) <$> s_values churn))].
Proof.
  intros Hvs Htrue. pose proof (levels_two_valued _ Hvs) as Hperm.
  unfold get_dummies_1d. rewrite filter_fmap. cbn [fst].
  assert (Forall two_valued (levels (s_values churn))) as Hlv.
  { rewrite Hperm. apply Forall_forall. intros v Hv.
    apply (uniques_two_valued _ _ Hvs) in Hv.
    rewrite Forall_forall in Hvs. by apply Hvs. }
  rewrite (filter_ext_Forall _ (fun l => l = Str "True.")).
  - rewrite filter_eq_singleton; [done | |].
    + rewrite Hperm. by apply uniques_NoDup.
    + rewrite Hperm. by apply uniques_two_valued.
  - eapply Forall_impl; [exact Hlv|]. intros l [-> | ->].
    + split; [done|]. intros _. reflexivity.
    + split; [|done]. intros H. vm_compute in H. discriminate H.
Qed.

Lemma churn_dummies_false (churn : Series) :
  Forall two_valued (s_values churn) -> Str "False." ∈ s_values churn ->
  "Churn?_False." ∈ (get_dummies_1d repr_float "Churn?" churn).*1.
Proof.
  intros Hvs Hfalse. unfold get_dummies_1d. rewrite <- list_fmap_compose.
  apply list_elem_of_fmap. exists (Str "False."). split; [done|].
  rewrite (levels_two_valued _ Hvs). by apply uniques_two_valued.
Qed.

Lemma other_dummies_no_target (c : string * Series) :
  c.1 ≠ "Churn?" ->
  filter (fun c => c.1 = "Churn?_True.") (get_dummies_1d repr_float c.1 c.2) = [].
Proof.
  intros Hc. apply filter_nil_Forall. apply Forall_forall.
  intros d (l & -> & _)%list_elem_of_fmap. cbn [fst].
  intros Heq. by apply churn_prefix in Heq.
Qed.

Lemma drop_ok (names : list string) (df : DataFrame) :
  Forall (fun l => l ∈ labels df) names ->
  DataFrame_drop names df
  = Ok (mkFrame (index df) (filter (fun c => c.1 ∉ names) (columns df))).
Proof.
  intros Hnames. unfold DataFrame_drop. rewrite filter_nil_Forall; [done|].
  eapply Forall_impl; [exact Hnames|]. intros l Hl Hnot. by apply Hnot.
Qed.

Lemma getitem_ok (key : string) (df : DataFrame) :
  key ∈ labels df -> exists x, DataFrame_getitem key df = Ok x.
Proof.
  intros ([k s] & -> & Hc)%list_elem_of_fmap. unfold DataFrame_getitem.
  destruct (filter _ (columns df)) as [|c cs] eqn:Hf; [|by eexists].
  assert ((k, s) ∈ filter (fun c => c.1 = (k, s).1) (columns df)) as Hin
    by (by apply list_elem_of_filter).
  rewrite Hf in Hin. by apply elem_of_nil in Hin.
Qed.

Lemma filter_label_elem (P : string * Series -> Prop) `{forall c, Decision (P c)}
    (cols : list (string * Series)) (l : string) :
  l ∈ cols.*1 -> (forall c, c.1 = l -> P c) -> l ∈ (filter P cols).*1.
Proof.
  intros (c & -> & Hc)%list_elem_of_fmap HP.
  apply list_elem_of_fmap. exists c. split; [done|].
  apply list_elem_of_filter. split; [by apply HP | done].
Qed.

Lemma filter_labels_sublist (P : string * Series -> Prop) `{forall c, Decision (P c)}
    (cols : list (string * Series)) :
  (filter P cols).*1 `sublist_of` cols.*1.
Proof. apply fmap_sublist, sublist_filter. Qed.

(** A valid input is cleaned; the cleaned frame keeps the row labels,
    has distinct labels and still has the churn column. *)
Lemma clean_valid (df : DataFrame) :
  valid_input df ->
  exists cleaned churn,
    clean df = Ok cleaned /\ index cleaned = index df /\
    NoDup (labels cleaned) /\ ("Churn?_True." ∉ labels cleaned) /\
    ("Churn?", churn) ∈ columns df /\ ("Churn?", churn) ∈ columns cleaned /\
    s_dtype churn = object_ /\ Forall two_valued (s_values churn) /\
    Str "True." ∈ s_values churn /\ Str "False." ∈ s_values churn /\
    length (s_values churn) = len df.
Proof.
  intros (Hwf & Hnd & Hlabels & Hnot & churn & Hin & Hobj & Hvals & HT & HF).
  unfold discard_columns in Hlabels.
  apply Forall_cons in Hlabels as [Harea Hlabels].
  apply Forall_cons in Hlabels as [Hphone Hcharges].
  assert (exists cleaned, clean df = Ok cleaned /\ index cleaned = index df /\
                          labels cleaned `sublist_of` labels df)
    as (cleaned & Hclean & Hidx & Hsub).
  { unfold clean. rewrite (drop_ok ["Phone"]) by (by apply Forall_singleton).
    cbn [mbind result_bind].
    set (df1 := mkFrame (index df) _).
    assert (forall l, l ∈ labels df -> l ≠ "Phone" -> l ∈ labels df1) as Hkeep.
    { intros l Hl Hne. unfold labels, df1. cbn [columns].
      apply filter_label_elem; [done|].
      intros c Hc Hp%list_elem_of_singleton. congruence. }
    destruct (getitem_ok "Area Code" df1) as [area Harea1]; [by apply Hkeep|].
    rewrite Harea1. cbn [mbind result_bind].
    set (df2 := DataFrame_setitem _ _ df1).
    assert (labels df2 = labels df1) as Hlab2
      by (apply setitem_labels; by apply Hkeep).
    rewrite drop_ok.
    - eexists. split; [done|]. split.
      { cbn [index]. subst df2. unfold DataFrame_setitem. by destruct (decide _). }
      unfold labels at 1. cbn [columns].
      etrans; [apply filter_labels_sublist|]. fold (labels df2). rewrite Hlab2.
      unfold labels, df1. cbn [columns]. apply filter_labels_sublist.
    - rewrite Hlab2. rewrite !Forall_cons in Hcharges.
      destruct Hcharges as (H1 & H2 & H3 & H4 & _).
      repeat (apply Forall_cons; split; [by apply Hkeep|]). apply Forall_nil_2. }
  exists cleaned, churn. split_and!; try done.
  - by eapply sublist_NoDup.
  - intros Hc. apply Hnot. by eapply elem_of_sublist.
  - eapply clean_keeps_columns; [exact Hclean | done | | done].
    cbn [fst]. unfold discard_columns. intros Hd.
    repeat (apply elem_of_cons in Hd as [Hd | Hd]; [discriminate Hd|]).
    by apply elem_of_nil in Hd.
  - unfold wf in Hwf. rewrite Forall_forall in Hwf. apply (Hwf _ Hin).
Qed.

Lemma get_dummies_succeeds (df : DataFrame) (c : string * Series) :
  c ∈ columns df -> is_object c -> is_ok (get_dummies repr_float df) = true.
Proof.
  intros Hc Hobj. unfold get_dummies. cbv zeta.
  assert (c ∈ filter is_object (columns df)) as Hin by (by apply list_elem_of_filter).
  destruct (filter is_object (columns df)) as [|c' cs]; [by apply elem_of_nil in Hin|].
  rewrite fmap_cons. by destruct (if decide _ then _ else _).
Qed.

(** The encoding of a cleaned valid input: the indicator of [True.]
    first, then the other columns without the churn indicators. *)
Lemma encode_valid (cleaned : DataFrame) (churn : Series) :
  NoDup (labels cleaned) -> "Churn?_True." ∉ labels cleaned ->
  ("Churn?", churn) ∈ columns cleaned -> s_dtype churn = object_ ->
  Forall two_valued (s_values churn) ->
  Str "True." ∈ s_values churn -> Str "False." ∈ s_values churn ->
  encode repr_float cleaned
  = Ok (mkFrame (index cleaned)
          (("Churn?_True.",
            mkSeries uint8
              ((fun v => Int (Z.b2z (py_eqb v (Str "True.")))) <$> s_values churn))
           :: filter (fun c => c.1 ∉ churn_labels)
                (numeric_columns cleaned ++ indicator_columns repr_float cleaned))).
Proof.
  intros Hnd Hnot Hin Hobj Hvals HT HF. unfold encode.
  pose proof (get_dummies_succeeds cleaned _ Hin Hobj) as Hok.
  destruct (get_dummies repr_float cleaned) as [md|] eqn:Hmd; [|done].
  apply get_dummies_columns in Hmd as ->. cbn [mbind result_bind].
  set (enc := filter is_object (columns cleaned)).
  assert (("Churn?", churn) ∈ enc) as Henc by (by apply list_elem_of_filter).
  assert (NoDup enc.*1) as Hndenc.
  { eapply sublist_NoDup; [exact Hnd|]. apply filter_labels_sublist. }
  assert (filter (fun c => c.1 = "Churn?_True.")
            (numeric_columns cleaned ++ indicator_columns repr_float cleaned)
          = [("Churn?_True.",
              mkSeries uint8
                ((fun v => Int (Z.b2z (py_eqb v (Str "True.")))) <$> s_values churn))])
    as Htarget.
  { rewrite filter_app. rewrite (filter_nil_Forall _ (numeric_columns cleaned)).
    - rewrite app_nil_l. unfold indicator_columns. fold enc. rewrite filter_bind.
      rewrite (bind_unique_label _ enc "Churn?" churn); [|done|done|].
      + by apply churn_dummies_target.
      + intros c Hc. by apply other_dummies_no_target.
    - apply Forall_forall. intros c [_ Hc]%list_elem_of_filter Heq.
      apply Hnot. rewrite <- Heq. by apply list_elem_of_fmap_2. }
  unfold DataFrame_getitem. cbn [columns index]. rewrite Htarget.
  cbn [mbind result_bind]. rewrite drop_ok.
  - cbn [mbind result_bind index columns concat list_bind]. by rewrite app_nil_r.
  - unfold labels. cbn [columns]. rewrite fmap_app.
    assert (forall l, l ∈ (get_dummies_1d repr_float "Churn?" churn).*1 ->
              l ∈ (numeric_columns cleaned).*1 ++
                  (indicator_columns repr_float cleaned).*1) as Hfrom.
    { intros l (c & -> & Hc)%list_elem_of_fmap. apply elem_of_app. right.
      apply list_elem_of_fmap_2. unfold indicator_columns.
      apply list_elem_of_bind. by exists ("Churn?", churn). }
    unfold churn_labels. repeat apply Forall_cons_2; [| |apply Forall_nil_2].
    + apply Hfrom. by apply churn_dummies_false.
    + apply Hfrom.
      pose proof (churn_dummies_target churn Hvals HT) as Hone.
      assert (("Churn?_True.", mkSeries uint8
                 ((fun v => Int (Z.b2z (py_eqb v (Str "True.")))) <$> s_values churn))
              ∈ filter (fun c => c.1 = "Churn?_True.")
                  (get_dummies_1d repr_float "Churn?" churn)) as Hcol
        by (rewrite Hone; apply list_elem_of_here).
      apply list_elem_of_filter in Hcol as [_ Hcol].
      by apply (list_elem_of_fmap_2 fst) in Hcol.
Qed.

End Target.

Lemma label_first_take_rows (churn : Series) (idx : list Z)
    (features : list (string * Series)) (locs : list nat) :
  Forall (fun c => c.1 ∉ churn_labels) features ->
  Forall (fun i => (i < length (s_values churn))%nat) locs ->
  label_first churn locs
    (take_rows locs
       (mkFrame idx
          (("Churn?_True.",
            mkSeries uint8
              ((fun v => Int (Z.b2z (py_eqb v (Str "True.")))) <$> s_values churn))
           :: features))).
Proof.
  intros Hfeatures Hlocs. split; [apply len_take_rows|].
  unfold take_rows. cbn [columns]. rewrite fmap_cons. cbn [fst snd s_dtype s_values].
  eexists. split.
  - f_equal. f_equal. f_equal. apply list_fmap_ext. intros k i Hi.
    unfold churn_indicator.
    rewrite (nth_fmap_lt _ (s_values churn) i nan nan); [done|].
    rewrite Forall_forall in Hlocs. apply Hlocs. by eapply list_elem_of_lookup_2.
  - apply Forall_fmap. eapply Forall_impl; [exact Hfeatures|]. by intros c Hc.
Qed.

(** The first field of every line written for such a split is [0] or [1]. *)
Lemma label_first_csv repr_float (churn : Series) (locs : list nat) (split : DataFrame)
    (i : nat) :
  label_first churn locs split -> (i < len split)%nat ->
  head (csv_fields repr_float split i) = Some "0" \/
  head (csv_fields repr_float split i) = Some "1".
Proof.
  intros (Hlen & features & Hcols & _) Hi. unfold csv_fields. rewrite Hcols, fmap_cons.
  cbn [head snd s_values].
  rewrite (nth_fmap_lt _ locs i nan 0%nat) by lia. unfold churn_indicator.
  destruct (py_eqb _ _); [right | left]; reflexivity.
Qed.

Section Label.

Variable repr_float : spec_float -> string.
Variable permutation : Z -> nat -> list nat.
Hypothesis permutation_perm : forall seed n, permutation seed n ≡ₚ seq 0 n.

(** C4.  On a valid input the run succeeds and, in each of the three
    splits, the first column is the target: the indicator column
    [Churn?_True.] of the churn column, whose value in a row is [1] when
    the customer of that row churned and [0] otherwise; none of the other
    columns is a churn indicator; and the first field of every line
    written for a split is [0] or [1]. *)
Theorem target_is_first_column (seed : Z) (df : DataFrame) :
  valid_input df -> Z.of_nat (len df) < 2 ^ 63 ->
  exists churn train validation test la lb lc,
    ("Churn?", churn) ∈ columns df /\
    transform repr_float permutation seed df = Ok (train, validation, test) /\
    la ++ lb ++ lc ≡ₚ seq 0 (len df) /\
    label_first churn la train /\ label_first churn lb validation /\
    label_first churn lc test /\
    (forall split i, split ∈ [train; validation; test] -> (i < len split)%nat ->
       head (csv_fields repr_float split i) = Some "0" \/
       head (csv_fields repr_float split i) = Some "1").
Proof.
  intros Hvalid Hn.
  destruct (clean_valid df Hvalid)
    as (cleaned & churn & Hclean & Hidx & Hnd & Hnot & Hin & Hin' & Hobj & Hvals
        & HT & HF & Hlen).
  pose proof (encode_valid repr_float cleaned churn Hnd Hnot Hin' Hobj Hvals HT HF)
    as Hencode.
  set (model_data := mkFrame (index cleaned) _) in Hencode.
  assert (len model_data = len df) as Hlen' by (unfold len; cbn; by rewrite Hidx).
  destruct (cut_points_nat (len df) Hn) as (a & b & Ha & Hb & Hab).
  set (shuffled := permutation seed (len df)).
  pose proof (three_blocks a b shuffled ltac:(lia)) as Hblocks.
  set (la := take a shuffled) in *.
  set (lb := take (b - a) (drop a shuffled)) in *.
  set (lc := drop b shuffled) in *.
  assert (la ++ lb ++ lc ≡ₚ seq 0 (len df)) as Hperm
    by (rewrite Hblocks; apply permutation_perm).
  assert (forall locs, locs ⊆ la ++ lb ++ lc ->
            label_first churn locs (take_rows locs model_data)) as Hfirst.
  { intros locs Hsub. apply label_first_take_rows.
    - apply Forall_forall. by intros c [Hc _]%list_elem_of_filter.
    - apply Forall_forall. intros i Hi%Hsub. rewrite Hperm in Hi.
      apply elem_of_seq in Hi. lia. }
  assert (label_first churn la (take_rows la model_data)) as H1.
  { apply Hfirst. intros i Hi. apply elem_of_app. by left. }
  assert (label_first churn lb (take_rows lb model_data)) as H2.
  { apply Hfirst. intros i Hi. apply elem_of_app. right. apply elem_of_app. by left. }
  assert (label_first churn lc (take_rows lc model_data)) as H3.
  { apply Hfirst. intros i Hi. apply elem_of_app. right. apply elem_of_app. by right. }
  exists churn, (take_rows la model_data), (take_rows lb model_data),
    (take_rows lc model_data), la, lb, lc.
  split_and!; try done.
  - unfold transform. rewrite Hclean. cbn [mbind result_bind].
    rewrite Hencode. cbn [mbind result_bind].
    rewrite <- Hlen' in Ha, Hb, Hab. subst la lb lc shuffled. rewrite <- Hlen'.
    by apply split_at.
  - intros split i Hsplit Hi.
    repeat (apply elem_of_cons in Hsplit as [-> | Hsplit];
            [by eapply label_first_csv|]).
    by apply elem_of_nil in Hsplit.
Qed.

End Label.

(** ** The theorems at sample inputs *)

Ltac by_computation := apply (bool_decide_unpack _); vm_compute; exact I.

Lemma ten_rows_valid : valid_input (Sample.parsed Sample.ten_rows).
Proof.
  unfold valid_input, wf, two_valued. split_and!.
  - by_computation.
  - by_computation.
  - by_computation.
  - by_computation.
  - exists Sample.churn. split_and!; by_computation.
Qed.

Local Abbreviation ten := (Sample.encoded Sample.ten_rows).
Local Abbreviation run_on := (preprocess repr_exact Reader.parse_csv rotation 1729
                            Sample.input_data).

Lemma split_shuffles_then_cuts_witness :
  (forall seed n, rotation seed n ≡ₚ seq 0 n) /\
  Z.of_nat (len ten) < 2 ^ 63 /\
  exists (a b : nat) (train validation test : DataFrame),
    split rotation 1729 ten = Ok (train, validation, test) /\
    int_frac float_0_7 (Z.of_nat (len ten)) = Ok (Z.of_nat a) /\
    int_frac float_0_9 (Z.of_nat (len ten)) = Ok (Z.of_nat b) /\
    (7 * Z.of_nat (len ten) - 10 <= 10 * Z.of_nat a <= 7 * Z.of_nat (len ten)) /\
    index train = (fun i => nth i (index ten) 0) <$> take a (rotation 1729 (len ten)) /\
    index test = (fun i => nth i (index ten) 0) <$> drop b (rotation 1729 (len ten)).
Proof.
  split; [exact rotation_perm|]. split; [by vm_compute|].
  destruct (split_shuffles_then_cuts rotation rotation_perm 1729 ten)
    as (a & b & train & validation & test & Hsplit & Ha & Hb & _ & Hcut & _ & Hrows);
    [by vm_compute|].
  exists a, b, train, validation, test.
  split; [exact Hsplit|]. split; [exact Ha|]. split; [exact Hb|].
  split; [apply Hcut; by vm_compute|]. split.
  - apply (Hrows train (take a (rotation 1729 (len ten)))).
    apply list_elem_of_further, list_elem_of_here.
  - apply (Hrows test (drop b (rotation 1729 (len ten)))).
    do 3 apply list_elem_of_further. apply list_elem_of_here.
Defined.

Lemma split_partitions_witness :
  (forall seed n, rotation seed n ≡ₚ seq 0 n) /\
  Z.of_nat (len ten) < 2 ^ 63 /\
  exists train validation test,
    split rotation 1729 ten = Ok (train, validation, test) /\
    (len train + len validation + len test = len ten)%nat /\
    rows train ++ rows validation ++ rows test ≡ₚ rows ten.
Proof.
  split; [exact rotation_perm|]. split; [by vm_compute|].
  destruct (split_partitions rotation rotation_perm 1729 ten)
    as (train & validation & test & la & lb & lc & Hsplit & _ & _ & _ & _ & _
        & Hlen & Hrows & _); [by vm_compute|].
  exists train, validation, test. exact (conj Hsplit (conj Hlen Hrows)).
Defined.

Lemma split_of_ten_witness :
  (forall seed n, rotation seed n ≡ₚ seq 0 n) /\
  len ten = 10%nat /\
  exists train validation test,
    split rotation 1729 ten = Ok (train, validation, test) /\
    len train = 7%nat /\ len validation = 2%nat /\ len test = 1%nat.
Proof.
  split; [exact rotation_perm|]. split; [by vm_compute|].
  destruct (split_of_ten rotation rotation_perm 1729 ten ltac:(by vm_compute))
    as (_ & _ & train & validation & test & Hsplit & _ & _ & _ & H7 & H2 & H1).
  exists train, validation, test. exact (conj Hsplit (conj H7 (conj H2 H1))).
Defined.

Lemma runs_agree_witness :
  downloaded Sample.input_data (Sample.job Sample.ten_rows)
    = downloaded Sample.input_data (Sample.used_job Sample.ten_rows) /\
  (run_on (Sample.job Sample.ten_rows)).1 = Ok () /\
  (run_on (Sample.job Sample.ten_rows)).1 = (run_on (Sample.used_job Sample.ten_rows)).1 /\
  forall p, p ∈ output_paths ->
    files (run_on (Sample.job Sample.ten_rows)).2 !! p
    = files (run_on (Sample.used_job Sample.ten_rows)).2 !! p.
Proof.
  assert (forall p, p ∈ output_paths ->
            dirname p ∈ dirs (Sample.job Sample.ten_rows) <->
            dirname p ∈ dirs (Sample.used_job Sample.ten_rows)) as Hdirs.
  { intros p Hp.
    repeat (apply elem_of_cons in Hp as [-> | Hp];
            [split; intros _; by_computation|]).
    by apply elem_of_nil in Hp. }
  destruct (runs_agree repr_exact Reader.parse_csv rotation 1729 Sample.input_data
              (Sample.job Sample.ten_rows) (Sample.used_job Sample.ten_rows)
              ltac:(by vm_compute) Hdirs) as [Hsame Hfiles].
  split; [by vm_compute|]. split; [by vm_compute|]. split; [exact Hsame|].
  apply Hfiles. by vm_compute.
Defined.

Lemma target_is_first_column_witness :
  valid_input (Sample.parsed Sample.ten_rows) /\
  Z.of_nat (len (Sample.parsed Sample.ten_rows)) < 2 ^ 63 /\
  exists churn train validation test la lb lc,
    transform repr_exact rotation 1729 (Sample.parsed Sample.ten_rows)
      = Ok (train, validation, test) /\
    label_first churn la train /\ label_first churn lb validation /\
    label_first churn lc test.
Proof.
  split; [exact ten_rows_valid|]. split; [by vm_compute|].
  destruct (target_is_first_column repr_exact rotation rotation_perm 1729
              (Sample.parsed Sample.ten_rows) ten_rows_valid ltac:(by vm_compute))
    as (churn & train & validation & test & la & lb & lc & Hin & Hrun & _
        & H1 & H2 & H3 & _).
  exists churn, train, validation, test, la, lb, lc.
  exact (conj Hrun (conj H1 (conj H2 H3))).
Defined.

Lemma missing_discard_column_aborts_witness :
  downloaded Sample.input_data (Sample.job Sample.no_phone) = Ok Sample.no_phone /\
  Reader.parse_csv Sample.no_phone = Ok (Sample.parsed Sample.no_phone) /\
  "Phone" ∈ discard_columns /\
  ("Phone" ∉ labels (Sample.parsed Sample.no_phone)) /\
  exists missing,
    clean (Sample.parsed Sample.no_phone) = Raise (KeyError missing) /\
    (run_on (Sample.job Sample.no_phone)).1 = Raise (KeyError missing) /\
    forall p, p ∈ output_paths ->
      files (run_on (Sample.job Sample.no_phone)).2 !! p
      = files (Sample.job Sample.no_phone) !! p.
Proof.
  assert ("Phone" ∈ discard_columns) as Hc by by_computation.
  assert ("Phone" ∉ labels (Sample.parsed Sample.no_phone)) as Hmiss by by_computation.
  split; [by vm_compute|]. split; [by vm_compute|]. split; [exact Hc|].
  split; [exact Hmiss|].
  apply (missing_discard_column_aborts repr_exact Reader.parse_csv rotation 1729
           Sample.input_data Sample.no_phone (Sample.job Sample.no_phone)
           (Sample.parsed Sample.no_phone) "Phone");
    [by vm_compute | by vm_compute | exact Hc | exact Hmiss].
Defined.

Lemma writes_all_or_none_witness :
  mounted (Sample.job Sample.ten_rows) /\
  (run_on (Sample.job Sample.ten_rows)).1 = Ok () /\
  files (run_on (Sample.job Sample.ten_rows)).2 !! train_path
    = Some (csv_text repr_exact (Sample.splits Sample.ten_rows).1.1) /\
  files (run_on (Sample.job Sample.ten_rows)).2 !! validation_path
    = Some (csv_text repr_exact (Sample.splits Sample.ten_rows).1.2) /\
  files (run_on (Sample.job Sample.ten_rows)).2 !! test_path
    = Some (csv_text repr_exact (Sample.splits Sample.ten_rows).2).
Proof.
  assert (mounted (Sample.job Sample.ten_rows)) as Hm.
  { unfold mounted, output_paths. repeat (apply Forall_cons_2; [by_computation|]).
    apply Forall_nil_2. }
  split; [exact Hm|].
  pose proof (writes_all_or_none repr_exact Reader.parse_csv rotation 1729
                Sample.input_data (Sample.job Sample.ten_rows)) as Hrun.
  assert (outcome repr_exact Reader.parse_csv rotation 1729 Sample.input_data
            (Sample.job Sample.ten_rows)
          = Ok ((Sample.splits Sample.ten_rows).1.1, (Sample.splits Sample.ten_rows).1.2,
                (Sample.splits Sample.ten_rows).2)) as Hout by (by vm_compute).
  rewrite Hout in Hrun. exact (Hrun Hm).
Defined.

(** C7, as stated, fails.  In a container in which only the directory of
    the train file exists, the run on ten customers computes the splits,
    writes the train file and ends with [FileNotFoundError] at the second
    write: one of the three files is written, the other two are not, and
    the file that was written stays. *)
Lemma failed_write_leaves_one_file :
  files (Fixture.train_only Sample.ten_rows) = ∅ /\
  (run_on (Fixture.train_only Sample.ten_rows)).1 = Raise FileNotFoundError /\
  files (run_on (Fixture.train_only Sample.ten_rows)).2 !! train_path
    = Some (csv_text repr_exact (Sample.splits Sample.ten_rows).1.1) /\
  csv_text repr_exact (Sample.splits Sample.ten_rows).1.1 <> EmptyString /\
  files (run_on (Fixture.train_only Sample.ten_rows)).2 !! validation_path = None /\
  files (run_on (Fixture.train_only Sample.ten_rows)).2 !! test_path = None.
Proof. split_and!; by vm_compute. Qed.

Lemma empty_input_aborts_witness :
  Reader.parse_csv "" = Raise EmptyDataError /\
  downloaded Sample.input_data (Sample.job "") = Ok "" /\
  (run_on (Sample.job "")).1 = Raise EmptyDataError /\
  forall p, p ∈ output_paths ->
    files (run_on (Sample.job "")).2 !! p = files (Sample.job "") !! p.
Proof.
  split; [by vm_compute|]. split; [by vm_compute|].
  apply (empty_input_aborts repr_exact Reader.parse_csv rotation 1729
           Sample.input_data (Sample.job "")); by vm_compute.
Defined.

(** C8, as stated, fails.  Two customers are too few for three non-empty
    splits, yet the script, run on their file, ends without an exception
    and writes an empty validation file. *)
Lemma small_input_is_not_rejected :
  len (Sample.parsed Sample.two_rows) = 2%nat /\
  (Sample.run Sample.two_rows).1 = Ok () /\
  files (Sample.run Sample.two_rows).2 !! validation_path = Some "".
Proof. split_and!; by vm_compute. Qed.

Lemma encode_keeps_numeric_columns_witness :
  clean (Sample.parsed Sample.ten_rows) = Ok (Sample.cleaned Sample.ten_rows) /\
  encode repr_exact (Sample.cleaned Sample.ten_rows) = Ok ten /\
  forall c, c ∈ columns (Sample.parsed Sample.ten_rows) -> s_dtype c.2 ≠ object_ ->
    c.1 ∉ discard_columns -> c.1 ≠ "Area Code" -> c.1 ∉ churn_labels ->
    c ∈ columns ten.
Proof.
  assert (clean (Sample.parsed Sample.ten_rows) = Ok (Sample.cleaned Sample.ten_rows))
    as Hclean by (by vm_compute).
  assert (encode repr_exact (Sample.cleaned Sample.ten_rows) = Ok ten)
    as Hencode by (by vm_compute).
  split; [exact Hclean|]. split; [exact Hencode|].
  apply (encode_keeps_numeric_columns repr_exact _ _ _ Hclean Hencode).
Defined.
(** ** The location of the input *)

Lemma py_split_cons (sep : ascii) (c : ascii) (s : string) :
  py_split sep (String c s) =
  if Ascii.eqb c sep then "" :: py_split sep s
  else match py_split sep s with [] => [String c ""] | w :: ws => String c w :: ws end.
Proof. reflexivity. Qed.

Lemma py_split_nonempty (sep : ascii) (s : string) : py_split sep s <> [].
Proof.
  induction s as [|c s IH]; cbn; [done|].
  destruct (Ascii.eqb c sep); [done|]. destruct (py_split sep s); done.
Qed.

(** Splitting [prefix + sep + rest] where [prefix] has no separator. *)
Lemma py_split_app (sep : ascii) (p s : string) :
  sep ∉ list_ascii_of_string p ->
  py_split sep (p +:+ String sep s) = p :: py_split sep s.
Proof.
  induction p as [|c p IH]; intros Hp.
  - rewrite append_nil_l, py_split_cons. by rewrite Ascii.eqb_refl.
  - cbn [list_ascii_of_string] in Hp. apply not_elem_of_cons in Hp as [Hc Hp].
    rewrite append_cons, py_split_cons.
    destruct (Ascii.eqb_spec c sep) as [->|_]; [done|]. by rewrite (IH Hp).
Qed.

Lemma py_join_split (sep : ascii) (s : string) :
  py_join (String sep "") (py_split sep s) = s.
Proof.
  induction s as [|c s IH]; [done|]. cbn [py_split].
  destruct (Ascii.eqb_spec c sep) as [->|_].
  - pose proof (py_split_nonempty sep s) as Hne.
    unfold py_join in *. cbn. destruct (py_split sep s) eqn:E; [done|].
    cbn in IH |- *. by rewrite IH.
  - pose proof (py_split_nonempty sep s) as Hne.
    unfold py_join in *. destruct (py_split sep s) as [|w ws] eqn:E; [done|].
    cbn in IH |- *. destruct ws; cbn in *; by rewrite <- IH.
Qed.

Lemma py_split_length (sep : ascii) (s : string) :
  length (py_split sep s) = S (count_char sep s).
Proof.
  unfold count_char. induction s as [|c s IH]; [done|].
  rewrite py_split_cons. cbn [list_ascii_of_string]. rewrite filter_cons.
  destruct (Ascii.eqb_spec c sep) as [->|Hne].
  - rewrite decide_True by done. cbn [length]. by rewrite IH.
  - rewrite decide_False by done. rewrite <- IH.
    pose proof (py_split_nonempty sep s). by destruct (py_split sep s).
Qed.

Lemma append_assoc (a b c : string) : (a +:+ b) +:+ c = a +:+ (b +:+ c).
Proof. induction a as [|x a IH]; [by rewrite !append_nil_l|]. by rewrite !append_cons, IH. Qed.

Lemma location_parts (bucket key : string) :
  "/"%char ∉ list_ascii_of_string bucket ->
  py_split "/" ("s3://" +:+ bucket +:+ "/" +:+ key) = "s3:" :: "" :: bucket :: py_split "/" key.
Proof.
  intros Hb.
  change ("s3://" +:+ bucket +:+ "/" +:+ key)
    with ("s3:" +:+ String "/" ("" +:+ String "/" (bucket +:+ String "/" ("" +:+ key)))).
  rewrite py_split_app; [|by vm_compute; intros H; repeat (apply elem_of_cons in H as [H|H]; [done|]); by apply elem_of_nil in H].
  rewrite py_split_app; [|by apply not_elem_of_nil].
  rewrite py_split_app by done. by rewrite append_nil_l.
Qed.


(** X2.  The job of the notebook reads what the notebook uploaded: with
    the argument of cell 18 the script downloads the object that cell 8
    stored under the same bucket, whatever else the store holds. *)
Theorem job_reads_uploaded_data (bucket text : string) (w : world) :
  "/"%char ∉ list_ascii_of_string bucket ->
  downloaded (input_data_url bucket) (upload_raw_data bucket text w) = Ok text.
Proof.
  intros Hb. unfold downloaded, input_data_url.
  change ("s3://" +:+ bucket +:+ "/sagemaker/DEMO-xgboost-churn/data/RawData.csv")
    with ("s3://" +:+ bucket +:+ "/" +:+ raw_data_key).
  rewrite (location_parts bucket raw_data_key Hb).
  cbn [py_getitem lookup list_lookup drop mbind result_bind].
  rewrite drop_0, (py_join_split "/" raw_data_key).
  rewrite decide_False by done.
  unfold upload_raw_data. cbn [s3]. by rewrite lookup_insert_eq.
Qed.
(** ** The run and the container *)

Lemma parents_data_dir :
  parents "/opt/ml/processing/data"
  = ["/opt"; "/opt/ml"; "/opt/ml/processing"; "/opt/ml/processing/data"].
Proof. by vm_compute. Qed.

Lemma dirname_validation : dirname validation_path = "/opt/ml/processing/validation".
Proof. by vm_compute. Qed.

Lemma dirs_with_data_dir (w : world) :
  dirs (with_data_dir w)
  = dirs w ∪ list_to_set ["/opt"; "/opt/ml"; "/opt/ml/processing"; "/opt/ml/processing/data"].
Proof. reflexivity. Qed.

Local Ltac distinct_paths := let H := fresh in intros H; by vm_compute in H.

Section Container.

Variable repr_float : spec_float -> string.
Variable parse_csv : string -> result DataFrame.
Variable permutation : Z -> nat -> list nat.

(** One write changes one file, and nothing else. *)
Lemma to_csv_frame (df : DataFrame) (path : string) (w : world) :
  s3 (to_csv repr_float df path w).2 = s3 w /\
  dirs (to_csv repr_float df path w).2 = dirs w /\
  forall p, p ≠ path -> files (to_csv repr_float df path w).2 !! p = files w !! p.
Proof.
  unfold to_csv. destruct (decide _); cbn [snd write_file s3 dirs files]; [|done].
  split; [done|]. split; [done|]. intros p Hp. by apply lookup_insert_ne.
Qed.

Lemma write_splits_frame (splits : DataFrame * DataFrame * DataFrame) (w : world) :
  s3 (write_splits repr_float splits w).2 = s3 w /\
  dirs (write_splits repr_float splits w).2 = dirs w /\
  forall p, p ∉ output_paths ->
    files (write_splits repr_float splits w).2 !! p = files w !! p.
Proof.
  unfold write_splits, output_paths.
  pose proof (to_csv_frame splits.1.1 train_path w) as (Hs1 & Hd1 & Hf1).
  unfold mbind, M_bind.
  destruct (to_csv repr_float splits.1.1 train_path w) as [[[]|e1] w1];
    cbn [snd] in *.
  2:{ split; [done|]. split; [done|]. intros p Hp. apply Hf1.
      intros ->. apply Hp. apply list_elem_of_In; cbn; tauto. }
  pose proof (to_csv_frame splits.1.2 validation_path w1) as (Hs2 & Hd2 & Hf2).
  destruct (to_csv repr_float splits.1.2 validation_path w1) as [[[]|e2] w2];
    cbn [snd] in *.
  2:{ split; [congruence|]. split; [congruence|]. intros p Hp.
      rewrite Hf2, Hf1; [done| |]; intros ->; apply Hp; apply list_elem_of_In; cbn; tauto. }
  pose proof (to_csv_frame splits.2 test_path w2) as (Hs3 & Hd3 & Hf3).
  split; [congruence|]. split; [congruence|]. intros p Hp.
  rewrite Hf3, Hf2, Hf1; [done|..]; intros ->; apply Hp; apply list_elem_of_In; cbn; tauto.
Qed.

(** X3.  A location with fewer than two slashes has no third piece: the
    run ends with [IndexError] after creating the data directory, without
    a download and without writing any file. *)
Theorem location_without_bucket_aborts (seed : Z) (input_data : string) (w : world) :
  (count_char "/" input_data < 2)%nat ->
  (preprocess repr_float parse_csv permutation seed input_data w).1 = Raise IndexError /\
  files (preprocess repr_float parse_csv permutation seed input_data w).2 = files w /\
  s3 (preprocess repr_float parse_csv permutation seed input_data w).2 = s3 w.
Proof.
  intros Hcount. rewrite preprocess_unfold.
  assert (downloaded input_data w = Raise IndexError) as ->; [|done].
  unfold downloaded, py_getitem.
  rewrite lookup_ge_None_2; [done|]. rewrite py_split_length. lia.
Qed.


(** X5.  What a run leaves behind, however it ends: the store is as it
    was; the directories are those of before and the data directory with
    the directories above it; no file other than the raw copy and the
    three outputs is created, changed or removed; and once the download
    has succeeded the raw copy holds the downloaded text. *)
Theorem run_changes_only_its_files (seed : Z) (input_data : string) (w : world) :
  s3 (preprocess repr_float parse_csv permutation seed input_data w).2 = s3 w /\
  dirs (preprocess repr_float parse_csv permutation seed input_data w).2
    = dirs w ∪ list_to_set ["/opt"; "/opt/ml"; "/opt/ml/processing";
                            "/opt/ml/processing/data"] /\
  (forall p, p ≠ raw_path -> p ∉ output_paths ->
     files (preprocess repr_float parse_csv permutation seed input_data w).2 !! p
     = files w !! p) /\
  (forall text, downloaded input_data w = Ok text ->
     files (preprocess repr_float parse_csv permutation seed input_data w).2 !! raw_path
     = Some text).
Proof.
  rewrite preprocess_unfold.
  destruct (downloaded input_data w) as [text|e] eqn:Hdl; [|by split_and!].
  destruct (outcome repr_float parse_csv permutation seed input_data w) as [splits|e].
  - pose proof (write_splits_frame splits (write_file raw_path text (with_data_dir w)))
      as (Hs & Hd & Hf).
    split; [by rewrite Hs|]. split; [by rewrite Hd|]. split.
    + intros p Hraw Hout. rewrite Hf by done.
      cbn [write_file with_data_dir files]. by apply lookup_insert_ne.
    + intros ? [= <-]. rewrite Hf; [apply lookup_insert_eq|].
      unfold output_paths. intros H.
      repeat (apply elem_of_cons in H as [H|H]; [discriminate H|]).
      by apply elem_of_nil in H.
  - cbn [snd write_file with_data_dir s3 dirs files]. split_and!; [done..| |].
    + intros p Hraw _. by apply lookup_insert_ne.
    + intros ? [= <-]. apply lookup_insert_eq.
Qed.

(** X6.  The writes are not undone.  When the splits are computed and the
    directory of the first output exists but that of the second does
    not, the run ends with [FileNotFoundError] after it has written the
    train file: the validation and test files are as they were. *)
Theorem missing_output_directory_leaves_train_file (seed : Z) (input_data : string)
    (w : world) (train validation test : DataFrame) :
  outcome repr_float parse_csv permutation seed input_data w
    = Ok (train, validation, test) ->
  dirname train_path ∈ dirs w ->
  dirname validation_path ∉ dirs w ->
  (preprocess repr_float parse_csv permutation seed input_data w).1
    = Raise FileNotFoundError /\
  files (preprocess repr_float parse_csv permutation seed input_data w).2 !! train_path
    = Some (csv_text repr_float train) /\
  files (preprocess repr_float parse_csv permutation seed input_data w).2 !! validation_path
    = files w !! validation_path /\
  files (preprocess repr_float parse_csv permutation seed input_data w).2 !! test_path
    = files w !! test_path.
Proof.
  intros Hout Htrain Hvalidation. rewrite preprocess_unfold, Hout.
  destruct (downloaded input_data w) as [text|e] eqn:Hdl;
    [|unfold outcome in Hout; by rewrite Hdl in Hout].
  unfold write_splits. cbn [fst snd].
  unfold mbind, M_bind, to_csv. cbn [write_file dirs].
  rewrite decide_True by (apply elem_of_union; by left).
  rewrite decide_False.
  2:{ intros [H|H]%elem_of_union; [done|].
      apply elem_of_list_to_set in H. rewrite parents_data_dir, dirname_validation in H.
      repeat (apply elem_of_cons in H as [H|H]; [discriminate H|]).
      by apply elem_of_nil in H. }
  cbn [fst snd]. split; [done|]. unfold write_file, with_data_dir. cbn [files].
  split_and!.
  - apply lookup_insert_eq.
  - rewrite lookup_insert_ne by done. by rewrite lookup_insert_ne.
  - rewrite lookup_insert_ne by done. by rewrite lookup_insert_ne.
Qed.

(** X7.  A second run changes nothing.  Started again in the container
    that a successful run has left, on the same location and seed, the
    script succeeds again and leaves the container exactly as it found
    it: the same store, the same directories, the same files with the
    same contents. *)
Theorem rerun_changes_nothing (seed : Z) (input_data : string) (w : world) :
  (preprocess repr_float parse_csv permutation seed input_data w).1 = Ok () ->
  preprocess repr_float parse_csv permutation seed input_data
    (preprocess repr_float parse_csv permutation seed input_data w).2
  = (Ok (), (preprocess repr_float parse_csv permutation seed input_data w).2).
Proof.
  intros Hok.
  pose proof (preprocess_unfold repr_float parse_csv permutation seed input_data w) as Hrun.
  rewrite Hrun in Hok |- *. clear Hrun.
  destruct (downloaded input_data w) as [text|e] eqn:Hdl; [|discriminate Hok].
  destruct (outcome repr_float parse_csv permutation seed input_data w)
    as [splits|e] eqn:Hout; [|discriminate Hok].
  set (w1 := write_file raw_path text (with_data_dir w)) in *.
  destruct (write_splits_cases repr_float splits w1) as [[Hm Hw] | [_ Hfail]];
    [|by rewrite Hfail in Hok].
  rewrite Hw. cbn [snd]. destruct splits as [[train validation] test]. cbn [fst snd].
  set (w2 := write_file test_path _ _).
  assert (s3 w2 = s3 w) as Hs3 by reflexivity.
  assert (downloaded input_data w2 = Ok text) as Hdl2.
  { unfold downloaded in *. by rewrite Hs3. }
  rewrite preprocess_unfold, Hdl2.
  assert (outcome repr_float parse_csv permutation seed input_data w2
          = Ok (train, validation, test)) as ->.
  { rewrite <- Hout. apply outcome_of_download. by rewrite Hdl, Hdl2. }
  assert (files w2 !! test_path = Some (csv_text repr_float test)) as Hte
    by apply lookup_insert_eq.
  assert (files w2 !! validation_path = Some (csv_text repr_float validation)) as Hva.
  { subst w2. unfold write_file. cbn [files].
    rewrite lookup_insert_ne by distinct_paths. apply lookup_insert_eq. }
  assert (files w2 !! train_path = Some (csv_text repr_float train)) as Htr.
  { subst w2. unfold write_file. cbn [files].
    rewrite lookup_insert_ne by distinct_paths.
    rewrite lookup_insert_ne by distinct_paths. apply lookup_insert_eq. }
  assert (files w2 !! raw_path = Some text) as Hraw.
  { subst w2 w1. unfold write_file. cbn [files].
    rewrite lookup_insert_ne by distinct_paths.
    rewrite lookup_insert_ne by distinct_paths.
    rewrite lookup_insert_ne by distinct_paths. apply lookup_insert_eq. }
  assert (dirs w2 = dirs (with_data_dir w)) as Hdirs by reflexivity.
  assert (write_file raw_path text (with_data_dir w2) = w2) as ->.
  { unfold write_file, with_data_dir. cbn [s3 files dirs].
    rewrite (insert_id _ _ _ Hraw).
    replace (dirs w2 ∪ list_to_set (parents "/opt/ml/processing/data")) with (dirs w2).
    - by destruct w2.
    - rewrite Hdirs. apply set_eq. intros x. unfold with_data_dir. cbn [dirs].
      rewrite !elem_of_union. tauto. }
  rewrite write_splits_mounted by exact Hm.
  f_equal. unfold write_file. cbn [s3 files dirs].
  rewrite (insert_id _ _ _ Htr), (insert_id _ _ _ Hva), (insert_id _ _ _ Hte).
  by destruct w2.
Qed.

End Container.
(** ** Cleaning *)

Lemma drop_ok_iff (names : list string) (df x : DataFrame) :
  DataFrame_drop names df = Ok x <->
  Forall (fun l => l ∈ labels df) names /\
  x = mkFrame (index df) (filter (fun c => c.1 ∉ names) (columns df)).
Proof.
  split.
  - intros Hdrop. unfold DataFrame_drop in Hdrop.
    destruct (filter _ names) as [|m ms] eqn:Hf; [|discriminate Hdrop].
    injection Hdrop as <-. split; [|done].
    apply Forall_forall. intros l Hl.
    destruct (decide (l ∈ labels df)) as [|Hnot]; [done|].
    assert (l ∈ filter (fun l => l ∉ labels df) names) as Hin
      by (by apply list_elem_of_filter).
    rewrite Hf in Hin. by apply elem_of_nil in Hin.
  - intros [Hall ->]. by apply drop_ok.
Qed.

Lemma setitem_astype (key : string) (t : dtype) (cols : list (string * Series)) :
  setitem_columns key
    ((fun c => (c.1, mkSeries t (s_values c.2))) <$> filter (fun c => c.1 = key) cols).*2
    cols
  = (fun c => if decide (c.1 = key) then (c.1, mkSeries t (s_values c.2)) else c) <$> cols.
Proof.
  induction cols as [|[k s] cols IH]; [done|].
  rewrite filter_cons. cbn [setitem_columns fmap list_fmap fst snd].
  destruct (decide (k = key)) as [->|Hc].
  - cbn [fmap list_fmap fst snd]. by rewrite IH.
  - by rewrite IH.
Qed.

Lemma cleaned_column_label (c : string * Series) : (cleaned_column c).1 = c.1.
Proof. unfold cleaned_column. by destruct (decide _). Qed.

Lemma filter_discard (cols : list (string * Series)) :
  filter (fun c => c.1 ∉ ["Day Charge"; "Eve Charge"; "Night Charge"; "Intl Charge"])
    (filter (fun c => c.1 ∉ ["Phone"]) cols)
  = filter (fun c => c.1 ∉ discard_columns) cols.
Proof.
  induction cols as [|c cols IH]; [done|].
  rewrite (filter_cons (fun c => c.1 ∉ ["Phone"])), (filter_cons (fun c => c.1 ∉ discard_columns)).
  unfold discard_columns in *.
  destruct (decide (c.1 ∉ ["Phone"])) as [Hp|Hp].
  - rewrite filter_cons.
    destruct (decide (c.1 ∉ ["Day Charge"; "Eve Charge"; "Night Charge"; "Intl Charge"]))
      as [Hq|Hq].
    + rewrite decide_True; [by rewrite IH|].
      intros [Heq|Hin]%elem_of_cons;
        [apply Hp; rewrite Heq; apply list_elem_of_here | by apply Hq].
    + rewrite decide_False; [exact IH|]. intros Hn. apply Hq. intros Hin. apply Hn.
      by apply list_elem_of_further.
  - rewrite decide_False; [exact IH|]. intros Hn. apply Hp.
    intros Heq%list_elem_of_singleton. apply Hn. rewrite Heq. apply list_elem_of_here.
Qed.

(** Cleaning keeps the row labels. *)
Lemma clean_index (df cleaned : DataFrame) :
  clean df = Ok cleaned -> index cleaned = index df.
Proof.
  unfold clean. intros Hclean.
  destruct (DataFrame_drop ["Phone"] df) as [df1|] eqn:Hdrop1; [|discriminate Hclean].
  apply drop_columns in Hdrop1 as ->. cbn [mbind result_bind] in Hclean.
  destruct (DataFrame_getitem "Area Code" _) as [area|] eqn:Harea; [|discriminate Hclean].
  cbn [mbind result_bind] in Hclean.
  apply drop_columns in Hclean as ->. cbn [index].
  unfold DataFrame_setitem. by destruct (decide _).
Qed.

(** What cleaning needs and what it returns. *)
Lemma clean_result (df cleaned : DataFrame) :
  clean df = Ok cleaned ->
  Forall (fun l => l ∈ labels df) ("Area Code" :: discard_columns) /\
  cleaned = mkFrame (index df)
              (cleaned_column <$> filter (fun c => c.1 ∉ discard_columns) (columns df)).
Proof.
  unfold clean. intros Hclean.
  destruct (DataFrame_drop ["Phone"] df) as [df1|] eqn:Hdrop1; [|discriminate Hclean].
  apply drop_ok_iff in Hdrop1 as [Hphone ->]. cbn [mbind result_bind] in Hclean.
  set (df1 := mkFrame (index df) _) in *.
  destruct (DataFrame_getitem "Area Code" df1) as [area|] eqn:Harea;
    [|discriminate Hclean].
  cbn [mbind result_bind] in Hclean.
  pose proof (getitem_label _ _ _ Harea) as Hin1.
  apply getitem_columns in Harea as ->.
  apply drop_ok_iff in Hclean as [Hcharges ->].
  rewrite setitem_labels in Hcharges by done.
  assert (forall l, l ∈ labels df1 -> l ∈ labels df) as Hsub.
  { intros l Hl. eapply elem_of_sublist; [exact Hl|]. apply filter_labels_sublist. }
  split.
  + apply Forall_cons. split; [by apply Hsub|]. unfold discard_columns.
    apply Forall_cons. split; [exact (Forall_inv Hphone)|].
    eapply Forall_impl; [exact Hcharges|]. exact Hsub.
  + unfold DataFrame_setitem. rewrite decide_True by done.
    cbn [index columns astype]. f_equal.
    rewrite setitem_astype. rewrite filter_fmap.
    rewrite (filter_ext_Forall _
               (fun c => c.1 ∉ ["Day Charge"; "Eve Charge"; "Night Charge"; "Intl Charge"])).
    * subst df1. cbn [columns]. by rewrite filter_discard.
    * apply Forall_forall. intros c _. by destruct (decide (c.1 = "Area Code")).
Qed.

(** X8.  Cleaning, in full.  It succeeds exactly when the frame has the
    area code, the phone number and the four charges; it then keeps the
    row labels, removes the five discarded columns, boxes the area code
    as [object] without changing a value, and leaves every other column
    as it is and where it is. *)
Theorem clean_characterised (df cleaned : DataFrame) :
  clean df = Ok cleaned <->
  Forall (fun l => l ∈ labels df) ("Area Code" :: discard_columns) /\
  cleaned = mkFrame (index df)
              (cleaned_column <$> filter (fun c => c.1 ∉ discard_columns) (columns df)).
Proof.
  split.
  - apply clean_result.
  - intros [Hall ->]. unfold clean. apply Forall_cons in Hall as [Harea Hall].
    unfold discard_columns in Hall. apply Forall_cons in Hall as [Hphone Hcharges].
    rewrite (drop_ok ["Phone"]) by (by apply Forall_singleton).
    cbn [mbind result_bind]. set (df1 := mkFrame (index df) _).
    assert (forall l, l ∈ labels df -> l ≠ "Phone" -> l ∈ labels df1) as Hkeep.
    { intros l Hl Hne. unfold labels, df1. cbn [columns].
      apply filter_label_elem; [done|].
      intros c Hc Hp%list_elem_of_singleton. congruence. }
    destruct (getitem_ok "Area Code" df1) as [area Harea1]; [by apply Hkeep|].
    rewrite Harea1. cbn [mbind result_bind].
    apply getitem_columns in Harea1 as ->.
    rewrite drop_ok.
    + unfold DataFrame_setitem. rewrite decide_True by (by apply Hkeep).
      cbn [index columns astype]. do 2 f_equal.
      rewrite setitem_astype. rewrite filter_fmap.
      rewrite (filter_ext_Forall _
                 (fun c => c.1 ∉ ["Day Charge"; "Eve Charge"; "Night Charge"; "Intl Charge"])).
      * subst df1. cbn [columns]. by rewrite filter_discard.
      * apply Forall_forall. intros c _. by destruct (decide (c.1 = "Area Code")).
    + rewrite setitem_labels by (by apply Hkeep).
      apply Forall_forall. intros l Hl. apply Hkeep.
      * rewrite Forall_forall in Hcharges. by apply Hcharges.
      * intros ->. repeat (apply elem_of_cons in Hl as [Hl|Hl]; [discriminate Hl|]).
        by apply elem_of_nil in Hl.
Qed.
(** ** Encoding *)

Lemma churn_false_prefix (c x : string) : c +:+ "_" +:+ x = "Churn?_False." -> c = "Churn?".
Proof. intros H. prefix_cases c H. Qed.

Lemma unique_label {B} (l : list (string * B)) (k : string) (v v' : B) :
  NoDup l.*1 -> (k, v) ∈ l -> (k, v') ∈ l -> v = v'.
Proof.
  induction l as [|[k0 v0] l IH]; intros Hnd Hv Hv'; [by apply elem_of_nil in Hv|].
  cbn [fmap list_fmap fst] in Hnd. apply NoDup_cons in Hnd as [Hk0 Hnd].
  apply elem_of_cons in Hv as [Hv|Hv]; apply elem_of_cons in Hv' as [Hv'|Hv'].
  - congruence.
  - injection Hv as -> ->. exfalso. apply Hk0. by apply (list_elem_of_fmap_2 fst) in Hv'.
  - injection Hv' as -> ->. exfalso. apply Hk0. by apply (list_elem_of_fmap_2 fst) in Hv.
  - by apply IH.
Qed.

Section Classes.

Variable repr_float : spec_float -> string.

Lemma levels_of_churn (churn : Series) (l : scalar) :
  Forall two_valued (s_values churn) ->
  l ∈ levels (s_values churn) -> l ∈ s_values churn /\ two_valued l.
Proof.
  intros Hvs Hl. rewrite (levels_two_valued _ Hvs) in Hl.
  apply (uniques_two_valued _ _ Hvs) in Hl. split; [done|].
  rewrite Forall_forall in Hvs. by apply Hvs.
Qed.

(** X9.  Both classes must occur.  On a cleaned frame with distinct
    labels and a textual churn column, the encoding raises [KeyError] for
    [Churn?_True.] when no row has the value [True.], a frame without
    rows included, and [KeyError] for [Churn?_False.] when every row has
    it: an indicator column exists only for a value that occurs. *)
Theorem encode_needs_both_classes (cleaned : DataFrame) (churn : Series) :
  NoDup (labels cleaned) ->
  Forall (fun l => l ∉ labels cleaned) churn_labels ->
  ("Churn?", churn) ∈ columns cleaned -> s_dtype churn = object_ ->
  Forall two_valued (s_values churn) ->
  (Str "True." ∉ s_values churn ->
   encode repr_float cleaned = Raise (KeyError ["Churn?_True."])) /\
  (Str "True." ∈ s_values churn -> Str "False." ∉ s_values churn ->
   encode repr_float cleaned = Raise (KeyError ["Churn?_False."])).
Proof.
  intros Hnd Hnot Hin Hobj Hvals.
  unfold churn_labels in Hnot. rewrite !Forall_cons in Hnot.
  destruct Hnot as (HnotF & HnotT & _).
  unfold encode.
  pose proof (get_dummies_succeeds repr_float cleaned _ Hin Hobj) as Hok.
  destruct (get_dummies repr_float cleaned) as [md|] eqn:Hmd; [|done].
  apply get_dummies_columns in Hmd as ->. cbn [mbind result_bind].
  set (enc := filter is_object (columns cleaned)).
  assert (("Churn?", churn) ∈ enc) as Henc by (by apply list_elem_of_filter).
  assert (NoDup enc.*1) as Hndenc.
  { eapply sublist_NoDup; [exact Hnd|]. apply filter_labels_sublist. }
  assert (forall t, t ∉ labels cleaned ->
            filter (fun c : string * Series => c.1 = t) (numeric_columns cleaned) = [])
    as Hnumeric.
  { intros t Ht. apply filter_nil_Forall. apply Forall_forall.
    intros c [_ Hc]%list_elem_of_filter Heq. apply Ht. rewrite <- Heq.
    by apply list_elem_of_fmap_2. }
  split.
  - intros HnoT.
    assert (filter (fun c => c.1 = "Churn?_True.")
              (numeric_columns cleaned ++ indicator_columns repr_float cleaned) = [])
      as Htarget.
    { rewrite filter_app, (Hnumeric _ HnotT), app_nil_l.
      unfold indicator_columns. fold enc. rewrite filter_bind.
      rewrite (bind_unique_label _ enc "Churn?" churn); [|done|done|].
      - apply filter_nil_Forall. apply Forall_forall.
        intros d (l & -> & Hl)%list_elem_of_fmap. cbn [fst].
        destruct (levels_of_churn churn l Hvals Hl) as [Hlin [-> | ->]]; [done|].
        intros Heq. vm_compute in Heq. discriminate Heq.
      - intros c Hc. by apply other_dummies_no_target. }
    unfold DataFrame_getitem. cbn [columns index]. by rewrite Htarget.
  - intros HT HnoF.
    assert (filter (fun c => c.1 = "Churn?_True.")
              (numeric_columns cleaned ++ indicator_columns repr_float cleaned)
            = [("Churn?_True.",
                mkSeries uint8
                  ((fun v => Int (Z.b2z (py_eqb v (Str "True.")))) <$> s_values churn))])
      as Htarget.
    { rewrite filter_app, (Hnumeric _ HnotT), app_nil_l.
      unfold indicator_columns. fold enc. rewrite filter_bind.
      rewrite (bind_unique_label _ enc "Churn?" churn); [|done|done|].
      + by apply churn_dummies_target.
      + intros c Hc. by apply other_dummies_no_target. }
    unfold DataFrame_getitem. cbn [columns index]. rewrite Htarget.
    cbn [mbind result_bind]. unfold DataFrame_drop.
    set (md := mkFrame (index cleaned)
                 (numeric_columns cleaned ++ indicator_columns repr_float cleaned)).
    assert ("Churn?_True." ∈ labels md) as HinT.
    { unfold labels, md. cbn [columns].
      assert (("Churn?_True.", mkSeries uint8
                 ((fun v => Int (Z.b2z (py_eqb v (Str "True.")))) <$> s_values churn))
              ∈ filter (fun c => c.1 = "Churn?_True.")
                  (numeric_columns cleaned ++ indicator_columns repr_float cleaned)) as Hcol
        by (rewrite Htarget; apply list_elem_of_here).
      apply list_elem_of_filter in Hcol as [_ Hcol].
      by apply (list_elem_of_fmap_2 fst) in Hcol. }
    assert ("Churn?_False." ∉ labels md) as HninF.
    { unfold labels, md. cbn [columns].
      intros (c & Hlabel & Hc)%list_elem_of_fmap.
      apply elem_of_app in Hc as [Hc|Hc].
      - apply list_elem_of_filter in Hc as [_ Hc]. apply HnotF. rewrite Hlabel.
        by apply list_elem_of_fmap_2.
      - apply indicator_column_shape in Hc as ([k s] & l & Hc0 & Hobj0 & Hl & ->).
        cbn [fst snd] in *. symmetry in Hlabel.
        pose proof (churn_false_prefix _ _ Hlabel) as ->.
        assert (s = churn) as -> by (eapply unique_label; [exact Hnd|exact Hc0|exact Hin]).
        destruct (levels_of_churn churn l Hvals Hl) as [Hlin [-> | ->]]; [|done].
        vm_compute in Hlabel. discriminate Hlabel. }
    rewrite filter_cons, decide_True by done.
    rewrite filter_cons, decide_False by (intros H; by apply H).
    by rewrite filter_nil.
Qed.

End Classes.
(** ** One-hot columns *)

Lemma scaled_eq (m1 e1 m2 e2 E : Z) :
  E <= e1 -> E <= e2 ->
  (m1 * 2 ^ (e1 - Z.min e1 e2) = m2 * 2 ^ (e2 - Z.min e1 e2) <->
   m1 * 2 ^ (e1 - E) = m2 * 2 ^ (e2 - E)).
Proof.
  intros H1 H2. set (e := Z.min e1 e2).
  assert (E <= e) as He by (subst e; lia).
  assert (e <= e1 /\ e <= e2) as [He1 He2] by (subst e; lia).
  replace (e1 - E) with ((e1 - e) + (e - E)) by lia.
  replace (e2 - E) with ((e2 - e) + (e - E)) by lia.
  rewrite !Z.pow_add_r by lia.
  assert (0 < 2 ^ (e - E)) as Hpos by (apply Z.pow_pos_nonneg; lia).
  rewrite !Z.mul_assoc. split; [by intros ->|].
  intros Heq. by apply Z.mul_cancel_r in Heq; [|lia].
Qed.

Lemma number_compare_sym (a b : number) :
  number_compare a b = Some Eq -> number_compare b a = Some Eq.
Proof.
  destruct a, b; cbn; try done.
  intros [= H%Z.compare_eq_iff]. f_equal. apply Z.compare_eq_iff.
  by rewrite (Z.min_comm e0 e).
Qed.

Lemma number_compare_trans (a b c : number) :
  number_compare a b = Some Eq -> number_compare b c = Some Eq ->
  number_compare a c = Some Eq.
Proof.
  destruct a as [|m1 e1| |], b as [|m2 e2| |], c as [|m3 e3| |]; cbn; try done.
  intros [= H12%Z.compare_eq_iff] [= H23%Z.compare_eq_iff]. f_equal.
  apply Z.compare_eq_iff.
  set (E := Z.min e1 (Z.min e2 e3)).
  apply (scaled_eq m1 e1 m2 e2 E) in H12; [|subst E; lia..].
  apply (scaled_eq m2 e2 m3 e3 E) in H23; [|subst E; lia..].
  apply (scaled_eq m1 e1 m3 e3 E); [subst E; lia..|]. congruence.
Qed.

Lemma number_compare_refl (a : number) : a ≠ NotANumber -> number_compare a a = Some Eq.
Proof. destruct a; cbn; try done. intros _. by rewrite Z.compare_refl. Qed.

Lemma py_eqb_refl (v : scalar) : isna v = false -> py_eqb v v = true.
Proof.
  destruct v as [z|f|b|s]; cbn [py_eqb number_of]; intros Hna.
  - by rewrite number_compare_refl.
  - destruct f as [s|s| |s m e]; try discriminate Hna; cbn [number_of];
      try destruct s; by rewrite number_compare_refl.
  - by rewrite number_compare_refl.
  - apply String.eqb_refl.
Qed.

Lemma py_eqb_numbers (a b : scalar) :
  py_eqb a b = true <->
  (exists s, a = Str s /\ b = Str s) \/
  (exists x y, number_of a = Some x /\ number_of b = Some y /\
               number_compare x y = Some Eq).
Proof.
  split.
  - destruct a as [z|f|c|s], b as [z'|f'|c'|s']; cbn [py_eqb]; try done;
      try (destruct (number_of _) as [x|] eqn:Hx; [|done];
           destruct (number_of _) as [y|] eqn:Hy in |- *; [|done];
           destruct (number_compare x y) as [[]|] eqn:Hc; try done;
           intros _; right; exists x, y; by rewrite ?Hx, ?Hy).
    intros ->%String.eqb_eq. left. by exists s'.
  - intros [(s & -> & ->) | (x & y & Hx & Hy & Hc)].
    + apply String.eqb_refl.
    + destruct a as [z|f|c|s], b as [z'|f'|c'|s']; try discriminate Hx;
        try discriminate Hy; cbn [py_eqb]; by rewrite Hx, Hy, Hc.
Qed.

Lemma py_eqb_sym (a b : scalar) : py_eqb a b = true -> py_eqb b a = true.
Proof.
  rewrite !py_eqb_numbers. intros [(s & -> & ->) | (x & y & Hx & Hy & Hc)].
  - left. by exists s.
  - right. exists y, x. split_and!; [done..|]. by apply number_compare_sym.
Qed.

Lemma py_eqb_trans (a b c : scalar) :
  py_eqb a b = true -> py_eqb b c = true -> py_eqb a c = true.
Proof.
  rewrite !py_eqb_numbers.
  intros [(s & -> & ->) | (x & y & Hx & Hy & Hc)] [(t & Hb & ->) | (y' & z & Hy' & Hz & Hc')].
  - left. exists s. split; [done|]. congruence.
  - discriminate Hy'.
  - subst b. discriminate Hy.
  - right. exists x, z. split_and!; [done..|].
    rewrite Hy in Hy'. injection Hy' as <-. by eapply number_compare_trans.
Qed.

(** Among the distinct values of a column, exactly one equals a given
    value of the column. *)
Lemma uniques_one_match (ws : list scalar) (v : scalar) :
  Forall (fun w => isna w = false) ws -> v ∈ ws ->
  length (filter (fun l => py_eqb v l = true) (uniques ws)) = 1%nat.
Proof.
  intros Hws. induction Hws as [|w ws Hw Hws IH]; intros Hv;
    [by apply elem_of_nil in Hv|].
  cbn [uniques]. rewrite filter_cons.
  destruct (decide (py_eqb v w = true)) as [Hvw|Hvw].
  - cbn [length]. f_equal. apply length_zero_iff_nil.
    apply filter_nil_Forall. apply Forall_forall.
    intros x [Hwx _]%list_elem_of_filter Hvx.
    rewrite (py_eqb_trans w v x) in Hwx; [done|by apply py_eqb_sym|done].
  - apply elem_of_cons in Hv as [->|Hv]; [by rewrite py_eqb_refl in Hvw|].
    rewrite <- (IH Hv). f_equal. rewrite list_filter_filter.
    apply filter_ext_Forall. apply Forall_forall. intros x _. split; [by intros []|].
    intros Hvx. split; [done|]. apply not_true_iff_false. intros Hwx.
    apply Hvw. eapply py_eqb_trans; [exact Hvx|]. by apply py_eqb_sym.
Qed.

Lemma py_eqb_nan (v l : scalar) : isna v = true -> py_eqb v l = false.
Proof.
  destruct v as [z|f|b|t]; try done. destruct f; try done. intros _.
  destruct l as [z|[s|s| |s m e]|b|t]; try destruct s; reflexivity.
Qed.

Section OneHot.

Variable repr_float : spec_float -> string.

(** X10.  The indicator columns of a column are one-hot.  In every row
    each indicator is [0] or [1]; exactly one of them is [1] when the
    value of the row is not missing, and none is when it is missing. *)
Theorem indicators_are_one_hot (prefix : string) (s : Series) (i : nat) :
  (i < length (s_values s))%nat ->
  Forall (fun x => x = Int 0 \/ x = Int 1)
    ((fun c => nth i (s_values c.2) nan) <$> get_dummies_1d repr_float prefix s) /\
  length (filter (fun x => x = Int 1)
            ((fun c => nth i (s_values c.2) nan) <$> get_dummies_1d repr_float prefix s))
  = if isna (nth i (s_values s) nan) then 0%nat else 1%nat.
Proof.
  intros Hi. set (v := nth i (s_values s) nan).
  assert ((fun c : string * Series => nth i (s_values c.2) nan)
            <$> get_dummies_1d repr_float prefix s
          = (fun l => Int (Z.b2z (py_eqb v l))) <$> levels (s_values s)) as ->.
  { unfold get_dummies_1d. rewrite <- list_fmap_compose. apply list_fmap_ext.
    intros _ l _. cbn [compose snd s_values]. subst v.
    by apply (nth_fmap_lt (fun v => Int (Z.b2z (py_eqb v l)))). }
  split.
  - apply Forall_fmap, Forall_forall. intros l _. cbn [compose].
    destruct (py_eqb v l); [by right | by left].
  - rewrite filter_fmap, length_fmap.
    rewrite (filter_ext_Forall _ (fun l => py_eqb v l = true)).
    2:{ apply Forall_forall. intros l _. destruct (py_eqb v l); cbn; split; done. }
    unfold levels. rewrite merge_sort_Permutation.
    destruct (isna v) eqn:Hna.
    + apply length_zero_iff_nil. apply filter_nil_Forall, Forall_forall.
      intros l _. by rewrite py_eqb_nan.
    + apply uniques_one_match.
      * apply Forall_forall. by intros w [Hw _]%list_elem_of_filter.
      * apply list_elem_of_filter. split; [done|].
        subst v. apply list_elem_of_In, nth_In. lia.
Qed.

End OneHot.
(** ** The splits as frames and as text *)

Lemma concat_app (l1 l2 : list string) :
  String.concat "" (l1 ++ l2) = String.concat "" l1 +:+ String.concat "" l2.
Proof.
  induction l1 as [|x l1 IH]; [by rewrite append_nil_l|].
  cbn [app]. destruct l1 as [|y l1].
  - cbn [app String.concat]. destruct l2; cbn [String.concat].
    + clear. induction x as [|c x IH]; [done|]. by rewrite append_cons, <- IH.
    + by rewrite append_nil_l.
  - change (String.concat "" (x :: (y :: l1) ++ l2))
      with (x +:+ "" +:+ String.concat "" ((y :: l1) ++ l2)).
    change (String.concat "" (x :: y :: l1)) with (x +:+ "" +:+ String.concat "" (y :: l1)).
    rewrite IH, !append_nil_l. by rewrite append_assoc.
Qed.

Section Text.

Variable repr_float : spec_float -> string.

Lemma csv_fields_take_rows (locs : list nat) (df : DataFrame) (j : nat) :
  (j < length locs)%nat ->
  csv_fields repr_float (take_rows locs df) j = csv_fields repr_float df (nth j locs 0%nat).
Proof.
  intros Hj. unfold csv_fields, take_rows. cbn [columns].
  rewrite <- list_fmap_compose. apply list_fmap_ext. intros _ c _.
  cbn [compose snd s_values]. f_equal.
  by apply (nth_fmap_lt (fun i => nth i (s_values c.2) nan)).
Qed.

(** The text of a selection of rows: the lines of the selected rows, in
    the order of the selection. *)
Lemma csv_text_take_rows (locs : list nat) (df : DataFrame) :
  csv_text repr_float (take_rows locs df)
  = String.concat "" ((fun i => csv_line (csv_fields repr_float df i)) <$> locs).
Proof.
  unfold csv_text. rewrite len_take_rows. f_equal.
  rewrite <- (fmap_nth_seq locs 0%nat) at 2. rewrite <- list_fmap_compose.
  apply list_fmap_ext. intros k j Hj%lookup_seq. cbn [compose]. f_equal.
  apply csv_fields_take_rows. lia.
Qed.

End Text.

Section Outputs.

Variable repr_float : spec_float -> string.
Variable permutation : Z -> nat -> list nat.
Hypothesis permutation_perm : forall seed n, permutation seed n ≡ₚ seq 0 n.

(** The three splits are the three blocks of the shuffled positions. *)
Lemma split_blocks (seed : Z) (df train validation test : DataFrame) :
  Z.of_nat (len df) < 2 ^ 63 ->
  split permutation seed df = Ok (train, validation, test) ->
  exists a b : nat,
    int_frac float_0_7 (Z.of_nat (len df)) = Ok (Z.of_nat a) /\
    int_frac float_0_9 (Z.of_nat (len df)) = Ok (Z.of_nat b) /\
    (a <= b <= len df)%nat /\
    train = take_rows (take a (permutation seed (len df))) df /\
    validation = take_rows (take (b - a) (drop a (permutation seed (len df)))) df /\
    test = take_rows (drop b (permutation seed (len df))) df.
Proof.
  intros Hn Hsplit.
  destruct (cut_points_nat (len df) Hn) as (a & b & Ha & Hb & Hab).
  rewrite (split_at permutation permutation_perm seed df a b Ha Hb Hab) in Hsplit.
  injection Hsplit as <- <- <-. by exists a, b.
Qed.

(** X11.  Read one after the other, the train, validation and test files
    are the text of the shuffled frame: cutting loses no line, repeats
    none, and changes neither a line nor the order of the lines. *)
Theorem outputs_concatenate (seed : Z) (md train validation test : DataFrame) :
  Z.of_nat (len md) < 2 ^ 63 ->
  split permutation seed md = Ok (train, validation, test) ->
  csv_text repr_float train +:+ csv_text repr_float validation
    +:+ csv_text repr_float test
  = csv_text repr_float (sample permutation seed md).
Proof.
  intros Hn Hsplit.
  destruct (split_blocks seed md train validation test Hn Hsplit)
    as (a & b & _ & _ & Hab & -> & -> & ->).
  rewrite (sample_all permutation permutation_perm), !csv_text_take_rows.
  rewrite <- !concat_app, <- !fmap_app. do 2 f_equal.
  apply three_blocks. lia.
Qed.

(** X12.  From the parsed frame to the splits no customer is lost and
    none is repeated: the row labels of the three splits, taken together,
    are the row labels of the input, each as often as there. *)
Theorem transform_keeps_every_row (seed : Z) (df train validation test : DataFrame) :
  Z.of_nat (len df) < 2 ^ 63 ->
  transform repr_float permutation seed df = Ok (train, validation, test) ->
  index train ++ index validation ++ index test ≡ₚ index df.
Proof.
  intros Hn Htr. unfold transform in Htr.
  destruct (clean df) as [cleaned|] eqn:Hclean; [|discriminate Htr].
  cbn [mbind result_bind] in Htr.
  destruct (encode repr_float cleaned) as [md|] eqn:Hmd; [|discriminate Htr].
  cbn [mbind result_bind] in Htr.
  pose proof (encode_columns repr_float _ _ Hmd) as Hcols.
  apply clean_index in Hclean.
  assert (index md = index df) as Hidx by (by rewrite Hcols).
  assert (len md = len df) as Hlen by (unfold len; by rewrite Hidx).
  rewrite <- Hlen in Hn.
  destruct (split_blocks seed md train validation test Hn Htr)
    as (a & b & _ & _ & Hab & -> & -> & ->).
  unfold take_rows. cbn [index]. rewrite <- !fmap_app.
  rewrite three_blocks by lia. rewrite permutation_perm.
  unfold len. rewrite fmap_nth_seq. by rewrite Hidx.
Qed.

End Outputs.
(** ** The sizes of the splits *)

(** The first cut is past the start from two rows on, the second past the
    first from four rows on, and the second is before the end. *)
Lemma cut_points_gaps (n a b : Z) :
  0 <= n < 2 ^ 48 ->
  int_frac float_0_7 n = Ok a -> int_frac float_0_9 n = Ok b ->
  (0 < a <-> 2 <= n) /\ (a < b <-> 4 <= n) /\ (b < n <-> 1 <= n).
Proof.
  intros Hn Ha Hb.
  destruct (Z_le_gt_dec 6 n) as [Hbig|Hsmall].
  - destruct (cut_points_tenths n Hn) as (a' & b' & Ha' & Hb' & Hta & Htb).
    rewrite Ha in Ha'. rewrite Hb in Hb'. injection Ha' as <-. injection Hb' as <-. lia.
  - assert (n = 0 \/ n = 1 \/ n = 2 \/ n = 3 \/ n = 4 \/ n = 5)
      as [->|[->|[->|[->|[->| ->]]]]] by lia;
      vm_compute in Ha, Hb; injection Ha as <-; injection Hb as <-; lia.
Qed.

Section Sizes.

Variable permutation : Z -> nat -> list nat.
Hypothesis permutation_perm : forall seed n, permutation seed n ≡ₚ seq 0 n.

Lemma split_lengths (seed : Z) (df train validation test : DataFrame) :
  Z.of_nat (len df) < 2 ^ 63 ->
  split permutation seed df = Ok (train, validation, test) ->
  exists a b : nat,
    int_frac float_0_7 (Z.of_nat (len df)) = Ok (Z.of_nat a) /\
    int_frac float_0_9 (Z.of_nat (len df)) = Ok (Z.of_nat b) /\
    (a <= b <= len df)%nat /\
    len train = a /\ len validation = (b - a)%nat /\ len test = (len df - b)%nat.
Proof.
  intros Hn Hsplit.
  destruct (split_blocks permutation permutation_perm seed df train validation test
              Hn Hsplit) as (a & b & Ha & Hb & Hab & -> & -> & ->).
  exists a, b. split; [done|]. split; [done|]. split; [done|].
  pose proof (permutation_length permutation permutation_perm seed (len df)) as Hlen.
  rewrite !len_take_rows, !length_take, !length_drop, Hlen. lia.
Qed.

(** X13.  The sizes of the splits, for fewer than [2 ^ 48] rows.  The
    train split has seven tenths of the rows, rounded down, or one row
    less; train and validation together have nine tenths, rounded down,
    or one row less; so the test split has at least a tenth of the rows. *)
Theorem split_sizes (seed : Z) (df train validation test : DataFrame) :
  Z.of_nat (len df) < 2 ^ 48 ->
  split permutation seed df = Ok (train, validation, test) ->
  7 * Z.of_nat (len df) - 10 <= 10 * Z.of_nat (len train) <= 7 * Z.of_nat (len df) /\
  9 * Z.of_nat (len df) - 10 <= 10 * Z.of_nat (len train + len validation)
    <= 9 * Z.of_nat (len df) /\
  Z.of_nat (len df) <= 10 * Z.of_nat (len test) <= Z.of_nat (len df) + 10.
Proof.
  intros Hn Hsplit.
  destruct (split_lengths seed df train validation test ltac:(lia) Hsplit)
    as (a & b & Ha & Hb & Hab & -> & -> & ->).
  destruct (cut_points_tenths (Z.of_nat (len df)) ltac:(lia))
    as (a' & b' & Ha' & Hb' & Hta & Htb).
  rewrite Ha in Ha'. rewrite Hb in Hb'. injection Ha' as <-. injection Hb' as <-. lia.
Qed.

(** X14.  Which splits are empty, for fewer than [2 ^ 48] rows.  The
    test split has a row as soon as the frame has one, the train split
    from two rows on, the validation split from four rows on: with four
    rows or more no split is empty, with fewer one is. *)
Theorem splits_nonempty_iff (seed : Z) (df train validation test : DataFrame) :
  Z.of_nat (len df) < 2 ^ 48 ->
  split permutation seed df = Ok (train, validation, test) ->
  ((0 < len test)%nat <-> (1 <= len df)%nat) /\
  ((0 < len train)%nat <-> (2 <= len df)%nat) /\
  ((0 < len validation)%nat <-> (4 <= len df)%nat).
Proof.
  intros Hn Hsplit.
  destruct (split_lengths seed df train validation test ltac:(lia) Hsplit)
    as (a & b & Ha & Hb & Hab & -> & -> & ->).
  pose proof (cut_points_gaps (Z.of_nat (len df)) (Z.of_nat a) (Z.of_nat b)
                ltac:(lia) Ha Hb) as (Htrain & Hvalidation & Htest).
  lia.
Qed.

End Sizes.
(** ** Binary64 division and addition *)

Lemma shr_m_iter (p : positive) (mrs : shr_record) :
  0 <= shr_m mrs ->
  shr_m (SpecFloat.iter_pos shr_1 p mrs) = shr_m mrs / 2 ^ Zpos p.
Proof.
  revert mrs. induction p as [p IH | p IH |]; intros mrs Hm; cbn [SpecFloat.iter_pos].
  - assert (0 <= shr_m (shr_1 mrs)) as H1
      by (rewrite shr_1_m by done; apply Z.div_pos; lia).
    assert (0 < 2 ^ Zpos p) as Hp by (apply Z.pow_pos_nonneg; lia).
    rewrite IH; [|rewrite IH by done; apply Z.div_pos; lia].
    rewrite IH by done. rewrite shr_1_m by done.
    rewrite !Z.div_div by lia. f_equal.
    replace (Zpos p~1) with (1 + Zpos p + Zpos p) by lia.
    rewrite !Z.pow_add_r, Z.pow_1_r by lia. ring.
  - assert (0 < 2 ^ Zpos p) as Hp by (apply Z.pow_pos_nonneg; lia).
    rewrite IH; [|rewrite IH by done; apply Z.div_pos; lia].
    rewrite IH by done. rewrite Z.div_div by lia. f_equal.
    replace (Zpos p~0) with (Zpos p + Zpos p) by lia.
    rewrite !Z.pow_add_r by lia. ring.
  - rewrite shr_1_m by done. reflexivity.
Qed.

Lemma shr_m_of_loc (m : Z) (l : location) : shr_m (shr_record_of_loc m l) = m.
Proof. by destruct l as [|[]]. Qed.

Lemma round_nearest_even_step (m : Z) (l : location) :
  m <= round_nearest_even m l <= m + 1.
Proof. destruct l as [|[]]; cbn; try lia. destruct (Z.even m); lia. Qed.

(** Rounding a positive mantissa [M] of at least [prec] digits at
    exponent [E], with whatever is known of the digits beyond it: away
    from underflow and overflow the result is a normal number whose
    mantissa, at the scale of the last kept digit, is the kept part of
    [M] or the next integer. *)
Lemma binary_round_aux_loc (M : positive) (E k : Z) (loc : location) :
  Zpos (digits2_pos M) = 53 + k -> 0 <= k ->
  -1074 <= E + k -> E + k + 1 <= 971 ->
  exists m e R,
    binary_round_aux prec emax false (Zpos M) E loc = S754_finite false m e /\
    2 ^ 52 <= Zpos m < 2 ^ 53 /\
    Zpos M / 2 ^ k <= R <= Zpos M / 2 ^ k + 1 /\
    E + k <= e <= E + k + 1 /\
    Zpos m * 2 ^ (e - (E + k)) = R.
Proof.
  intros Hd Hk Hlo Hhi.
  assert (0 < 2 ^ k) as Hpow by (apply Z.pow_pos_nonneg; lia).
  pose proof (digits2_pos_bounds M) as [HMlo HMhi]. rewrite Hd in HMlo, HMhi.
  replace (53 + k - 1) with (52 + k) in HMlo by lia.
  rewrite Z.pow_add_r in HMlo, HMhi by lia.
  unfold binary_round_aux.
  assert (shr_fexp prec emax (Zpos M) E loc = shr (shr_record_of_loc (Zpos M) loc) E k)
    as ->.
  { unfold shr_fexp. cbn [Zdigits2]. rewrite Hd, fexp_normal by lia. f_equal. lia. }
  assert (snd (shr (shr_record_of_loc (Zpos M) loc) E k) = E + k /\
          shr_m (fst (shr (shr_record_of_loc (Zpos M) loc) E k)) = Zpos M / 2 ^ k)
    as [Hsnd Hfst].
  { destruct k as [|p|p]; [| |lia]; cbn [shr fst snd].
    - split; [lia|]. rewrite shr_m_of_loc. by rewrite Z.div_1_r.
    - split; [done|]. rewrite shr_m_iter; rewrite shr_m_of_loc; [done|lia]. }
  destruct (shr (shr_record_of_loc (Zpos M) loc) E k) as [mrs' e'].
  cbn [fst snd] in Hsnd, Hfst. subst e'.
  pose proof (round_nearest_even_step (shr_m mrs') (loc_of_shr_record mrs')) as HR.
  set (R := round_nearest_even (shr_m mrs') (loc_of_shr_record mrs')) in *.
  rewrite Hfst in HR.
  assert (2 ^ 52 <= Zpos M / 2 ^ k) as Hq by (apply Z.div_le_lower_bound; lia).
  assert (Zpos M / 2 ^ k < 2 ^ 53) as Hq' by (apply Z.div_lt_upper_bound; lia).
  change (emax - prec) with 971.
  destruct (Z.eq_dec R (2 ^ 53)) as [Hcarry | Hnocarry].
  - exists 4503599627370496%positive, (E + k + 1), R.
    split; [|split; [|split; [|split]]]; [|lia|lia|lia|].
    + rewrite Hcarry, shr_fexp_carry by lia. cbn [shr_m].
      replace (E + k + 1 <=? 971) with true by (symmetry; apply Z.leb_le; lia).
      reflexivity.
    + replace (E + k + 1 - (E + k)) with 1 by lia. rewrite Hcarry. reflexivity.
  - destruct R as [|pr|pr] eqn:ER; [lia| |lia].
    exists pr, (E + k), (Zpos pr).
    split; [|split; [|split; [|split]]]; [|lia|lia|lia|].
    + rewrite (shr_fexp_normal pr (E + k) 0); [|apply digits2_pos_unique; cbn; lia|lia|lia].
      cbn [shr shr_record_of_loc shr_m].
      replace (E + k <=? 971) with true by (symmetry; apply Z.leb_le; lia).
      reflexivity.
    + rewrite Z.sub_diag. change (2 ^ 0) with 1. lia.
Qed.

(** The double of a positive integer below [2 ^ 48] is that integer: a
    normal number whose exponent is at most [-5]. *)
Lemma py_float_small (n : positive) :
  Zpos n < 2 ^ 48 ->
  exists mn a,
    py_float (Zpos n) = Ok (S754_finite false mn (- a)) /\
    2 ^ 52 <= Zpos mn < 2 ^ 53 /\ 5 <= a <= 52 /\ Zpos mn = Zpos n * 2 ^ a.
Proof.
  intros Hn. destruct (py_float_pos n) as (mn & en & Hfl & Hmn & Hen & Hval); [lia|].
  destruct Hval as [[Hneg Hexact] | (Hpos & _ & Hbig)].
  2:{ assert (1 <= 2 ^ en) by (apply (Z.pow_le_mono_r 2 0 en); lia). lia. }
  exists mn, (- en). rewrite Z.opp_involutive. split; [done|]. split; [done|].
  split; [|done]. split; [|lia].
  destruct (Z_le_gt_dec 5 (- en)) as [|Hlt]; [done|exfalso].
  assert (2 ^ (- en) <= 2 ^ 4) by (apply Z.pow_le_mono_r; lia).
  change (2 ^ 4) with 16 in *. nia.
Qed.

(** The quotient of two normal doubles with 53-bit mantissas, away from
    underflow and overflow: the mantissa of the result, at the scale of
    its last digit, is the integer part of the exact quotient at that
    scale, or the next integer. *)
Lemma SFdiv_normal (mx my : positive) (ex ey : Z) :
  2 ^ 52 <= Zpos mx < 2 ^ 53 -> 2 ^ 52 <= Zpos my < 2 ^ 53 ->
  -960 <= ex - ey <= 960 ->
  exists m e R k,
    SFdiv prec emax (S754_finite false mx ex) (S754_finite false my ey)
      = S754_finite false m e /\
    2 ^ 52 <= Zpos m < 2 ^ 53 /\ 0 <= k <= 1 /\
    Zpos mx * 2 ^ 53 / Zpos my / 2 ^ k <= R <= Zpos mx * 2 ^ 53 / Zpos my / 2 ^ k + 1 /\
    ex - ey - 53 + k <= e <= ex - ey - 53 + k + 1 /\
    Zpos m * 2 ^ (e - (ex - ey - 53 + k)) = R.
Proof.
  intros Hx Hy He.
  assert (Zpos (digits2_pos mx) = 53) as Hdx by (apply digits2_pos_unique; cbn; lia).
  assert (Zpos (digits2_pos my) = 53) as Hdy by (apply digits2_pos_unique; cbn; lia).
  unfold SFdiv, SFdiv_core_binary. cbn [Zdigits2 xorb]. rewrite Hdx, Hdy.
  replace (53 + ex - (53 + ey)) with (ex - ey) by lia.
  rewrite fexp_normal by lia.
  rewrite Z.min_l by lia.
  replace (ex - ey - (ex - ey - 53)) with 53 by lia.
  rewrite Z.shiftl_mul_pow2 by lia.
  set (N := Zpos mx * 2 ^ 53).
  pose proof (Z.div_eucl_eq N (Zpos my) ltac:(lia)) as Heucl.
  pose proof (Z.mod_pos_bound N (Zpos my) ltac:(lia)) as Hmod.
  unfold Z.modulo in Hmod. unfold Z.div.
  assert (2 ^ 52 <= N / Zpos my < 2 ^ 54) as Hq.
  { split.
    - apply Z.div_le_lower_bound; [lia|]. subst N.
      change (2 ^ 53) with (2 * 2 ^ 52). nia.
    - apply Z.div_lt_upper_bound; [lia|]. subst N.
      change (2 ^ 54) with (2 * 2 ^ 53). nia. }
  unfold Z.div in Hq.
  destruct (Z.div_eucl N (Zpos my)) as [q r]. cbn [fst snd] in *.
  destruct q as [|q|q]; [lia| |lia].
  pose proof (digits2_pos_bounds q) as [Hdlo Hdhi].
  set (d := Zpos (digits2_pos q)) in *.
  assert (52 < d) as Hd1 by (apply pow2_lt_inv; [subst d|]; lia).
  assert (d - 1 < 54) as Hd2 by (apply pow2_lt_inv; lia).
  destruct (binary_round_aux_loc q (ex - ey - 53) (d - 53) (new_location (Zpos my) r))
    as (m & e & R & -> & Hm & HR & Hexp & Hval); [subst d; lia | lia..|].
  exists m, e, R, (d - 53). split; [done|]. split; [done|]. split; [lia|].
  split; [done|]. split; [lia|].
  replace (ex - ey - 53 + (d - 53)) with (ex - ey - 53 + (d - 53)) by lia. exact Hval.
Qed.

Lemma shl_align_fst (m : positive) (e ez : Z) :
  ez <= e -> Zpos (fst (shl_align m e ez)) = Zpos m * 2 ^ (e - ez).
Proof.
  intros Hle. unfold shl_align. destruct (ez - e) as [|d|d] eqn:Hd; cbn [fst].
  - replace (e - ez) with 0 by lia. change (2 ^ 0) with 1. lia.
  - lia.
  - rewrite iter_xO_pow. f_equal. f_equal. lia.
Qed.

(** Adding [1.0] to a normal positive double below [2]: the exact sum, at
    the finer of the two scales, is rounded to 53 digits. *)
Lemma SFadd_one (m : positive) (e : Z) :
  2 ^ 52 <= Zpos m < 2 ^ 53 -> -1000 <= e <= 0 ->
  exists m' e' R' k',
    SFadd prec emax (S754_finite false m e) (S754_finite false 4503599627370496 (-52))
      = S754_finite false m' e' /\
    2 ^ 52 <= Zpos m' < 2 ^ 53 /\ 0 <= k' /\
    2 ^ 52 * 2 ^ k' <= Zpos m * 2 ^ (e - Z.min e (-52)) + 2 ^ (- Z.min e (-52)) /\
    (Zpos m * 2 ^ (e - Z.min e (-52)) + 2 ^ (- Z.min e (-52))) / 2 ^ k' <= R'
      <= (Zpos m * 2 ^ (e - Z.min e (-52)) + 2 ^ (- Z.min e (-52))) / 2 ^ k' + 1 /\
    Z.min e (-52) + k' <= e' <= Z.min e (-52) + k' + 1 /\
    Zpos m' * 2 ^ (e' - (Z.min e (-52) + k')) = R'.
Proof.
  intros Hm He. unfold SFadd. cbv zeta. set (ez := Z.min e (-52)).
  cbn [cond_Zopp]. rewrite <- Pos2Z.inj_add. cbn [binary_normalize].
  set (s := (fst (shl_align m e ez) + fst (shl_align 4503599627370496 (-52) ez))%positive).
  assert (Zpos s = Zpos m * 2 ^ (e - ez) + 2 ^ (- ez)) as Hs.
  { subst s. rewrite Pos2Z.inj_add, !shl_align_fst by (subst ez; lia). f_equal.
    change (Zpos 4503599627370496) with (2 ^ 52). rewrite <- Z.pow_add_r by (subst ez; lia).
    f_equal. lia. }
  rewrite <- Hs.
  assert (2 ^ 52 <= 2 ^ (- ez)) as Hw by (apply Z.pow_le_mono_r; subst ez; lia).
  assert (0 < Zpos m * 2 ^ (e - ez)) as Hpos.
  { apply Z.mul_pos_pos; [lia|]. apply Z.pow_pos_nonneg; subst ez; lia. }
  pose proof (digits2_pos_bounds s) as [Hdlo Hdhi].
  set (d := Zpos (digits2_pos s)) in *.
  assert (52 < d) as Hd1 by (apply pow2_lt_inv; [subst d|]; lia).
  assert (Zpos s < 2 ^ 1001) as Hsmall.
  { rewrite Hs.
    assert (2 ^ (e - ez) <= 2 ^ 52) by (apply Z.pow_le_mono_r; subst ez; lia).
    assert (2 ^ (- ez) <= 2 ^ 1000) by (apply Z.pow_le_mono_r; subst ez; lia).
    assert (Zpos m * 2 ^ (e - ez) <= 2 ^ 53 * 2 ^ 52) by nia.
    assert (2 ^ 53 * 2 ^ 52 + 2 ^ 1000 < 2 ^ 1001) by (by vm_compute).
    lia. }
  assert (d - 1 < 1001) as Hd2 by (apply pow2_lt_inv; lia).
  unfold binary_round. fold d.
  rewrite fexp_normal by (subst ez; lia).
  assert (shl_align s ez (d + ez - 53) = (s, ez)) as ->.
  { unfold shl_align. destruct (d + ez - 53 - ez) eqn:Hsh; try done. lia. }
  destruct (binary_round_aux_loc s ez (d - 53) loc_Exact)
    as (m' & e' & R' & -> & Hm' & HR' & Hexp & Hval); [subst d; lia | subst ez; lia..|].
  exists m', e', R', (d - 53). split; [done|]. split; [done|]. split; [lia|].
  split; [|done].
  rewrite <- Z.pow_add_r by lia. replace (52 + (d - 53)) with (d - 1) by lia. done.
Qed.

(** The arithmetic of the two roundings.  [R] is the quotient [n / rows]
    at the scale [1 / u], rounded down or up; [S] is that value plus one
    at the scale [1 / w]; [R'] is [S] with its last [K] units rounded
    away.  When the scales are fine enough for the sizes, the integer
    part of the result is [n / rows + 1]. *)
Lemma section_count_arith (n rows u R w K S u' R' : Z) :
  1 <= rows -> 0 <= n -> n + 2 * rows < 2 ^ 50 ->
  16 * rows <= u -> n * u / rows <= R <= n * u / rows + 1 ->
  0 < K -> 0 < u' -> w = u' * K -> S * u = (R + u) * w ->
  2 ^ 52 * K <= S -> S / K <= R' <= S / K + 1 ->
  R' / u' = n / rows + 1.
Proof.
  intros Hrows Hn Hsize Hu HR HK Hu' Hw HS HSlo HR'.
  set (Q := n / rows).
  pose proof (Z.mul_div_le n rows ltac:(lia)) as HQlo.
  pose proof (Z.mul_succ_div_gt n rows ltac:(lia)) as HQhi. fold Q in HQlo, HQhi.
  set (t := u / rows).
  pose proof (Z.mul_div_le u rows ltac:(lia)) as Htlo.
  pose proof (Z.mul_succ_div_gt u rows ltac:(lia)) as Hthi. fold t in Htlo, Hthi.
  set (A := n * u / rows) in *.
  pose proof (Z.mul_div_le (n * u) rows ltac:(lia)) as HAlo.
  pose proof (Z.mul_succ_div_gt (n * u) rows ltac:(lia)) as HAhi. fold A in HAlo, HAhi.
  assert (0 < u) as Hu0 by lia.
  assert (0 < w) as Hw0 by (rewrite Hw; apply Z.mul_pos_pos; lia).
  assert (0 <= Q) as HQ0 by (apply Z.div_pos; lia).
  assert (16 <= t) as Ht.
  { apply Z.div_le_lower_bound; lia. }
  assert (Q * u <= A) as HA1.
  { assert (rows * Q * u <= n * u) by (apply Z.mul_le_mono_nonneg_r; lia).
    assert (rows * (Q * u) < rows * Z.succ A) as Hlt by lia.
    apply Z.mul_lt_mono_pos_l in Hlt; lia. }
  assert (A <= (Q + 1) * u - t) as HA2.
  { assert (n * u <= (rows * Z.succ Q - 1) * u) by (apply Z.mul_le_mono_nonneg_r; lia).
    assert (rows * A <= rows * ((Q + 1) * u - t)) as Hle by lia.
    apply Z.mul_le_mono_pos_l in Hle; lia. }
  assert ((Q + 1) * u * w <= S * u) as HS1u.
  { rewrite HS. apply Z.mul_le_mono_nonneg_r; lia. }
  assert ((Q + 1) * w <= S) as HS1.
  { apply (Z.mul_le_mono_pos_r _ _ u); lia. }
  assert (S * u <= ((Q + 2) * u - t + 1) * w) as HS2.
  { rewrite HS. apply Z.mul_le_mono_nonneg_r; lia. }
  assert (0 < (t - 1) * w) as Htw by (apply Z.mul_pos_pos; lia).
  assert (S < (Q + 2) * w) as HS3.
  { apply (Z.mul_lt_mono_pos_r u); lia. }
  assert (2 ^ 52 < (Q + 2) * u') as Hu'lo.
  { apply (Z.mul_lt_mono_pos_r K); [lia|]. rewrite Hw in HS3. lia. }
  assert ((Q + 2) * rows < 2 ^ 50) as Hqr by lia.
  assert (u < (t - 1) * u') as Hgap.
  { destruct (Z_lt_le_dec u ((t - 1) * u')) as [|Hge]; [done|exfalso].
    assert (0 < (t - 1) * rows) as Htr by (apply Z.mul_pos_pos; lia).
    assert ((t - 1) * rows * 2 ^ 52 < (t - 1) * rows * ((Q + 2) * u')) as H1
      by (apply Z.mul_lt_mono_pos_l; lia).
    assert ((t - 1) * u' * ((Q + 2) * rows) <= u * ((Q + 2) * rows)) as H2
      by (apply Z.mul_le_mono_nonneg_r; [apply Z.mul_nonneg_nonneg|]; lia).
    assert (u * ((Q + 2) * rows) <= u * (2 ^ 50 - 1)) as H3
      by (apply Z.mul_le_mono_nonneg_l; lia).
    assert (u - 2 * rows < (t - 1) * rows) as H4 by lia.
    assert ((u - 2 * rows) * 2 ^ 52 < (t - 1) * rows * 2 ^ 52) as H5
      by (apply Z.mul_lt_mono_pos_r; lia).
    lia. }
  assert (K * u < (t - 1) * w) as HKu.
  { assert (K * u < K * ((t - 1) * u')) by (apply Z.mul_lt_mono_pos_l; lia).
    rewrite Hw. lia. }
  assert (S + K < (Q + 2) * w) as HS4.
  { apply (Z.mul_lt_mono_pos_r u); lia. }
  assert ((Q + 1) * u' <= S / K) as HR1.
  { apply Z.div_le_lower_bound; [lia|]. rewrite Hw in HS1. lia. }
  assert (S / K < (Q + 2) * u' - 1) as HR2.
  { apply Z.div_lt_upper_bound; [lia|]. rewrite Hw in HS4. lia. }
  symmetry. apply Z.div_unique with (r := R' - (Q + 1) * u'). 
  - left. lia.
  - lia.
Qed.

Lemma py_float_zero : py_float 0 = Ok (S754_zero false).
Proof. reflexivity. Qed.

Lemma py_float_one : py_float 1 = Ok (S754_finite false 4503599627370496 (-52)).
Proof. reflexivity. Qed.

(** The number of batches is the quotient of the sizes, plus one: for
    sizes below [2 ^ 48] neither the division nor the addition rounds
    across an integer. *)
Lemma section_count_exact (n rows : Z) :
  0 <= n < 2 ^ 48 -> 1 <= rows < 2 ^ 48 ->
  section_count n rows = Returns (n / rows + 1).
Proof.
  intros [Hn0 Hn] [Hr0 Hr]. destruct rows as [|r|r]; [lia| |lia]. clear Hr0.
  destruct (py_float_small r Hr) as (mr & b & Hflr & Hmr & Hb & Hmrv).
  unfold section_count. rewrite Hflr. cbn [of_result mbind attempt_bind].
  unfold int_div_float.
  destruct n as [|p|p]; [|clear Hn0|lia].
  { rewrite py_float_zero. cbn [of_result mbind attempt_bind SFdiv xorb].
    unfold float_add_int. rewrite py_float_one.
    cbn [of_result mbind attempt_bind SFadd]. reflexivity. }
  destruct (py_float_small p Hn) as (mn & a & Hfln & Hmn & Ha & Hmnv).
  rewrite Hfln. cbn [of_result mbind attempt_bind].
  destruct (SFdiv_normal mn mr (- a) (- b) Hmn Hmr ltac:(lia))
    as (m & e & R & k & -> & Hm & Hk & HR & He & Hval).
  unfold float_add_int. rewrite py_float_one. cbn [of_result mbind attempt_bind].
  destruct (SFadd_one m e Hm ltac:(lia)) as (m' & e' & R' & k' & -> & Hm' & Hk' & HSlo & HR' & He' & Hval').
  cbn [py_int of_result cond_Zopp]. f_equal.
  set (ez := Z.min e (-52)) in *.
  set (c := a - b + 53 - k).
  assert (5 <= c) as Hc by (subst c; lia).
  replace (- a - - b - 53 + k) with (- c) in * by (subst c; lia).
  set (u := 2 ^ c). set (w := 2 ^ (- ez)) in *.
  set (S := Zpos m * 2 ^ (e - ez) + w) in *.
  assert (0 < u) as Hu0 by (apply Z.pow_pos_nonneg; lia).
  assert (0 < w) as Hw0 by (apply Z.pow_pos_nonneg; subst ez; lia).
  assert (0 < 2 ^ b) as Hpb by (apply Z.pow_pos_nonneg; lia).
  assert (0 < 2 ^ k) as Hpk by (apply Z.pow_pos_nonneg; lia).
  (* the quotient at the scale of the result *)
  assert (Zpos mn * 2 ^ 53 / Zpos mr / 2 ^ k = Zpos p * u / Zpos r) as Hq.
  { rewrite Z.div_div by lia. rewrite Hmnv, Hmrv.
    replace (Zpos p * 2 ^ a * 2 ^ 53) with (Zpos p * u * (2 ^ b * 2 ^ k)).
    - replace (Zpos r * 2 ^ b * 2 ^ k) with (Zpos r * (2 ^ b * 2 ^ k)) by ring.
      apply Z.div_mul_cancel_r; lia.
    - subst u c. rewrite <- !Z.mul_assoc. f_equal.
      rewrite <- !Z.pow_add_r by lia. f_equal. lia. }
  rewrite Hq in HR.
  (* the scale is finer than the divisor *)
  assert (16 * Zpos r <= u) as Hfine.
  { assert (u = 2 ^ (a - k) * 2 ^ (53 - b)) as ->
      by (subst u c; rewrite <- Z.pow_add_r by lia; f_equal; lia).
    assert (2 ^ 4 <= 2 ^ (a - k)) as H16 by (apply Z.pow_le_mono_r; lia).
    change (2 ^ 4) with 16 in H16.
    assert (2 ^ 53 = 2 ^ (53 - b) * 2 ^ b) as H53
      by (rewrite <- Z.pow_add_r by lia; f_equal; lia).
    assert (Zpos r < 2 ^ (53 - b)) as Hrlt.
    { apply (Z.mul_lt_mono_pos_r (2 ^ b)); lia. }
    assert (0 < 2 ^ (53 - b)) by (apply Z.pow_pos_nonneg; lia).
    assert (16 * 2 ^ (53 - b) <= 2 ^ (a - k) * 2 ^ (53 - b))
      by (apply Z.mul_le_mono_nonneg_r; lia).
    lia. }
  (* the sum at the finer scale *)
  assert (Zpos m * 2 ^ (e - ez) * u = R * w) as Hsum.
  { rewrite <- Hval. subst u w. rewrite <- !Z.mul_assoc. f_equal.
    rewrite <- !Z.pow_add_r by (subst ez; lia). f_equal. lia. }
  assert (S * u = (R + u) * w) as HS by (subst S; lia).
  (* the result is below [2 ^ 49], so its last digit is below the unit *)
  assert (ez + k' < -3) as Hbelow.
  { assert (Zpos p * u / Zpos r <= Zpos p * u) as Hdiv.
    { apply Z.div_le_upper_bound; [lia|].
      assert (1 * (Zpos p * u) <= Zpos r * (Zpos p * u))
        by (apply Z.mul_le_mono_nonneg_r; lia). lia. }
    assert (R <= (Zpos p + 1) * u) as HRu by lia.
    assert (R * w <= (Zpos p + 1) * u * w) as HRw
      by (apply Z.mul_le_mono_nonneg_r; lia).
    assert (Zpos m * 2 ^ (e - ez) <= (Zpos p + 1) * w) as Hmw.
    { apply (Z.mul_le_mono_pos_r _ _ u); lia. }
    assert ((Zpos p + 2) * w < 2 ^ 49 * w) as Hlt
      by (apply Z.mul_lt_mono_pos_r; lia).
    assert (2 ^ (52 + k') < 2 ^ (49 + - ez)) as Hpow.
    { rewrite !Z.pow_add_r by (subst ez; lia). fold w. lia. }
    apply pow2_lt_inv in Hpow; [lia | subst ez; lia]. }
  set (c' := - (ez + k')). set (u' := 2 ^ c').
  assert (0 < u') as Hu'0 by (apply Z.pow_pos_nonneg; subst c'; lia).
  assert (w = u' * 2 ^ k') as Hw.
  { subst w u' c'. rewrite <- Z.pow_add_r by lia. f_equal. lia. }
  assert (R' / u' = Zpos p / Zpos r + 1) as <-.
  { apply (section_count_arith (Zpos p) (Zpos r) u R w (2 ^ k') S u' R');
      first [done | lia | apply Z.pow_pos_nonneg; lia]. }
  rewrite Z.shiftl_div_pow2 by lia. rewrite <- Hval'.
  replace (ez + k') with (- c') by (subst c'; lia).
  assert (u' = 2 ^ (- e') * 2 ^ (e' - - c')) as ->.
  { subst u'. rewrite <- Z.pow_add_r by (subst c'; lia). f_equal. lia. }
  symmetry. apply Z.div_mul_cancel_r.
  - apply Z.pow_nonzero; lia.
  - apply Z.pow_nonzero; subst c'; lia.
Qed.

(** ** The batches of [predict] *)

Lemma chunks_concat {A} (sizes : list nat) (l : list A) :
  List.concat (chunks sizes l) = take (sum_list sizes) l.
Proof.
  revert l. induction sizes as [|s sizes IH]; intros l; simpl.
  - by rewrite take_0.
  - rewrite IH. by rewrite take_take_drop.
Qed.

Lemma chunks_length {A} (sizes : list nat) (l : list A) :
  length (chunks sizes l) = length sizes.
Proof. revert l. induction sizes as [|s sizes IH]; intros l; cbn; [done|]. by rewrite IH. Qed.

Lemma chunks_sizes {A} (sizes : list nat) (l : list A) (bound : nat) :
  Forall (fun s => (s <= bound)%nat) sizes ->
  Forall (fun b => (length b <= bound)%nat) (chunks sizes l).
Proof.
  intros Hs. revert l. induction Hs as [|s sizes Hle Hs IH]; intros l; cbn [chunks].
  - apply Forall_nil_2.
  - apply Forall_cons. split; [rewrite length_take; lia | apply IH].
Qed.

(** The slices between consecutive running sums are the consecutive
    pieces of those sizes. *)
Lemma slices_chunks {A} (sizes : list nat) (acc : nat) (l : list A) :
  (acc + sum_list sizes <= length l)%nat ->
  zip_with (fun st en => py_slice st en l)
    (Z.of_nat acc :: cumsum_from (Z.of_nat acc) (Z.of_nat <$> sizes))
    (cumsum_from (Z.of_nat acc) (Z.of_nat <$> sizes))
  = chunks sizes (drop acc l).
Proof.
  revert acc. induction sizes as [|s sizes IH]; intros acc Hle; [done|].
  simpl in Hle. cbn [fmap list_fmap cumsum_from zip_with chunks].
  rewrite <- Nat2Z.inj_add. f_equal.
  - rewrite py_slice_take_drop by lia. f_equal. lia.
  - rewrite drop_drop. apply IH. lia.
Qed.

Lemma sum_list_append (l1 l2 : list nat) :
  sum_list (l1 ++ l2) = (sum_list l1 + sum_list l2)%nat.
Proof. induction l1 as [|x l1 IH]; simpl; [done|]. rewrite IH. lia. Qed.

Lemma sum_list_repeat (x n : nat) : sum_list (repeat x n) = (n * x)%nat.
Proof. induction n as [|n IH]; cbn; [done|]. rewrite IH. lia. Qed.

Lemma fmap_repeat {A B} (f : A -> B) (x : A) (n : nat) : f <$> repeat x n = repeat (f x) n.
Proof. induction n as [|n IH]; cbn; [done|]. by rewrite <- IH. Qed.

(** [np.array_split] for a positive number of sections: that many
    consecutive pieces that make up the array, the first [n mod k] of
    them one row longer than the others. *)
Lemma array_split_pieces {A} (ary : list A) (k : Z) :
  0 < k ->
  array_split ary k
  = Returns (chunks (repeat (Z.to_nat (Z.of_nat (length ary) / k + 1))
                       (Z.to_nat (Z.of_nat (length ary) mod k))
                     ++ repeat (Z.to_nat (Z.of_nat (length ary) / k))
                          (Z.to_nat (k - Z.of_nat (length ary) mod k)))
               ary).
Proof.
  intros Hk. unfold array_split.
  replace (k <=? 0) with false by (symmetry; apply Z.leb_gt; lia). cbv zeta.
  set (n := Z.of_nat (length ary)).
  pose proof (Z.div_mod n k ltac:(lia)) as Hdm.
  pose proof (Z.mod_pos_bound n k Hk) as Hmod.
  assert (0 <= n / k) as Hq by (apply Z.div_pos; lia).
  set (sizes := repeat (Z.to_nat (n / k + 1)) (Z.to_nat (n mod k))
                ++ repeat (Z.to_nat (n / k)) (Z.to_nat (k - n mod k))).
  assert (repeat (n / k + 1) (Z.to_nat (n mod k)) ++ repeat (n / k) (Z.to_nat (k - n mod k))
          = Z.of_nat <$> sizes) as ->.
  { subst sizes. rewrite fmap_app, !fmap_repeat. by rewrite !Z2Nat.id by lia. }
  unfold cumsum. cbn [cumsum_from drop]. change (0 + 0) with (Z.of_nat 0).
  f_equal. rewrite drop_0, (slices_chunks sizes 0 ary); [by rewrite drop_0|].
  subst sizes. rewrite sum_list_append, !sum_list_repeat. nia.
Qed.

Lemma append_nil_r (s : string) : s +:+ "" = s.
Proof. induction s as [|c s IH]; [done|]. by rewrite append_cons, IH. Qed.

Lemma py_join_two (sep a b : string) : py_join sep [a; b] = a +:+ sep +:+ b.
Proof. reflexivity. Qed.

(** The text that the loop builds starts with a comma; without it, it is
    the answers joined by commas. *)
Lemma joined_tail (answers : list string) (a : string) :
  py_str_tail (String.concat "" ((fun x => "," +:+ x) <$> a :: answers))
  = py_join "," (a :: answers).
Proof.
  revert a. induction answers as [|b answers IH]; intros a.
  - cbn [fmap list_fmap String.concat]. by rewrite append_cons, append_nil_l.
  - specialize (IH b). unfold py_join in *.
    change (String.concat "," (a :: b :: answers))
      with (a +:+ "," +:+ String.concat "," (b :: answers)).
    rewrite <- IH.
    change (String.concat "" ((fun x => "," +:+ x) <$> a :: b :: answers))
      with (("," +:+ a) +:+ "" +:+ String.concat "" ((fun x => "," +:+ x) <$> b :: answers)).
    rewrite append_nil_l.
    set (rest := String.concat "" _).
    assert (exists t, rest = String "," t) as [t Ht].
    { subst rest. destruct answers; cbn [fmap list_fmap String.concat];
        rewrite append_cons, append_nil_l; by eexists. }
    rewrite Ht. cbn [py_str_tail].
    rewrite !append_cons, !append_nil_l. cbn [py_str_tail]. reflexivity.
Qed.

Lemma section_count_zero (n : Z) :
  0 <= n < 2 ^ 1022 -> section_count n 0 = Raises ZeroDivisionError.
Proof.
  intros [Hn0 Hn]. unfold section_count, int_div_float. rewrite py_float_zero.
  cbn [of_result mbind attempt_bind]. destruct n as [|p|p]; [| |lia].
  - by rewrite py_float_zero.
  - destruct (py_float_pos p Hn) as (mn & en & -> & _). reflexivity.
Qed.

Section Batches.

Context {row : Type}.
Variable respond : list row -> attempt string.
Variable np_fromstring : string -> attempt (list spec_float).

(** While the endpoint answers, the loop sends every batch, in order, and
    appends a comma and the answer for each. *)
Lemma predict_loop_answers (batches : list (list row)) (answers : list string)
    (predictions : string) (sent : list (list row)) :
  Forall2 (fun b a => respond b = Returns a) batches answers ->
  predict_loop respond batches predictions sent
  = (Returns (predictions +:+ String.concat "" ((fun x => "," +:+ x) <$> answers)),
     sent ++ batches).
Proof.
  intros Hall. revert predictions sent.
  induction Hall as [|b a batches answers Hb Hall IH]; intros predictions sent.
  - cbn [predict_loop fmap list_fmap String.concat].
    by rewrite app_nil_r, append_nil_r.
  - cbn [predict_loop]. unfold mbind at 1. unfold Calls_bind at 1.
    unfold xgb_predictor_predict at 1. rewrite Hb, IH, py_join_two.
    rewrite <- app_assoc. cbn [app]. f_equal. f_equal.
    rewrite !append_assoc. f_equal.
    destruct answers as [|a' answers]; cbn [fmap list_fmap String.concat].
    + by rewrite append_nil_r.
    + by rewrite append_nil_l, append_assoc.
Qed.

(** X15.  The loop stops at the first batch that the endpoint refuses:
    the exception of that call ends [predict]'s loop, the batches before
    it and the refused one have been sent, and no later batch is. *)
Theorem predict_loop_stops_at_failure (before after : list (list row))
    (refused : list row) (answers : list string) (e : notebook_exception)
    (predictions : string) (sent : list (list row)) :
  Forall2 (fun b a => respond b = Returns a) before answers ->
  respond refused = Raises e ->
  predict_loop respond (before ++ refused :: after) predictions sent
  = (Raises e, sent ++ before ++ [refused]).
Proof.
  intros Hall Hrefused. revert predictions sent.
  induction Hall as [|b a before answers Hb Hall IH]; intros predictions sent.
  - cbn [app predict_loop]. unfold mbind, Calls_bind, xgb_predictor_predict.
    by rewrite Hrefused.
  - cbn [app predict_loop]. unfold mbind at 1. unfold Calls_bind at 1.
    unfold xgb_predictor_predict at 1. rewrite Hb, IH.
    by rewrite <- app_assoc.
Qed.

(** X16.  [predict] cuts the rows into batches and joins the answers.
    For a positive [rows] and sizes below [2 ^ 48] the rows are sent in
    [len(data) // rows + 1] consecutive batches that make up [data], none
    of more than [rows] rows and a single one when [data] has fewer than
    [rows] rows; when the endpoint answers each batch, the result is the
    parse of the answers joined by commas, in the order of the batches. *)
Theorem predict_sends_batches (data : list row) (rows : Z) (sent : list (list row)) :
  1 <= rows < 2 ^ 48 -> Z.of_nat (length data) < 2 ^ 48 ->
  exists batches,
    array_split data (Z.of_nat (length data) / rows + 1) = Returns batches /\
    List.concat batches = data /\
    Z.of_nat (length batches) = Z.of_nat (length data) / rows + 1 /\
    Forall (fun b => Z.of_nat (length b) <= rows) batches /\
    (Z.of_nat (length data) < rows -> batches = [data]) /\
    forall answers,
      Forall2 (fun b a => respond b = Returns a) batches answers ->
      predict respond np_fromstring data rows sent
      = (np_fromstring (py_join "," answers), sent ++ batches).
Proof.
  intros Hrows Hn. set (n := Z.of_nat (length data)) in *.
  set (k := n / rows + 1).
  assert (0 <= n / rows) as Hq0 by (apply Z.div_pos; lia).
  assert (0 < k) as Hk by (subst k; lia).
  pose proof (Z.mul_succ_div_gt n rows ltac:(lia)) as Hlt. fold k in Hlt.
  pose proof (Z.div_mod n k ltac:(lia)) as Hdm.
  pose proof (Z.mod_pos_bound n k Hk) as Hmod.
  assert (0 <= n / k) as Hq by (apply Z.div_pos; lia).
  assert (n / k + 1 <= rows) as Hsize.
  { destruct (Z_le_gt_dec (n / k + 1) rows) as [|Hgt]; [done|exfalso].
    assert (k * rows <= k * (n / k)) by (apply Z.mul_le_mono_nonneg_l; lia). lia. }
  rewrite (array_split_pieces data k Hk). fold n.
  set (sizes := repeat (Z.to_nat (n / k + 1)) (Z.to_nat (n mod k))
                ++ repeat (Z.to_nat (n / k)) (Z.to_nat (k - n mod k))).
  assert (sum_list sizes = length data) as Hsum.
  { subst sizes. rewrite sum_list_append, !sum_list_repeat.
    apply Nat2Z.inj. fold n. rewrite Nat2Z.inj_add, !Nat2Z.inj_mul, !Z2Nat.id by lia. lia. }
  exists (chunks sizes data). split; [done|]. split_and!.
  - rewrite chunks_concat, Hsum. apply firstn_all.
  - rewrite chunks_length. subst sizes. rewrite length_app, !repeat_length. lia.
  - eapply Forall_impl; [apply (chunks_sizes sizes data (Z.to_nat rows))|].
    + subst sizes. apply Forall_app. split; apply Forall_forall;
        intros s ->%list_elem_of_In%repeat_spec; lia.
    + intros b Hb. cbn beta in Hb. lia.
  - intros Hfew. assert (k = 1) as Hk1.
    { subst k. rewrite Z.div_small by lia. lia. }
    subst sizes. rewrite Hk1, Z.mod_1_r, Z.div_1_r.
    change (Z.to_nat 0) with 0%nat. change (Z.to_nat (1 - 0)) with 1%nat.
    cbn [repeat app chunks]. subst n. rewrite Nat2Z.id. by rewrite firstn_all.
  - intros answers Hans. unfold predict.
    unfold mbind at 1. unfold Calls_bind at 1. unfold lift_attempt at 1.
    rewrite section_count_exact by (fold n; lia). fold n. fold k.
    unfold mbind at 1. unfold Calls_bind at 1. unfold lift_attempt at 1.
    rewrite (array_split_pieces data k Hk). fold n. fold sizes.
    unfold mbind at 1. unfold Calls_bind at 1.
    rewrite (predict_loop_answers _ answers "" sent Hans).
    unfold lift_attempt. rewrite append_nil_l. f_equal. f_equal.
    destruct answers as [|a answers]; [|apply joined_tail].
    apply Forall2_length in Hans. rewrite chunks_length in Hans.
    subst sizes. rewrite length_app, !repeat_length in Hans. cbn in Hans. lia.
Qed.

(** X17.  With [rows = 0] the division raises [ZeroDivisionError]
    before the rows are cut: nothing is sent to the endpoint. *)
Theorem predict_zero_rows (data : list row) (sent : list (list row)) :
  Z.of_nat (length data) < 2 ^ 63 ->
  predict respond np_fromstring data 0 sent = (Raises ZeroDivisionError, sent).
Proof.
  intros Hn. unfold predict.
  unfold mbind at 1. unfold Calls_bind at 1. unfold lift_attempt at 1.
  rewrite section_count_zero; [done|].
  assert (2 ^ 63 < 2 ^ 1022) by (by vm_compute). lia.
Qed.

End Batches.

(** ** The run on a valid input, and the area code *)

Lemma no_underscore_in_area_code (c x : string) : c +:+ "_" +:+ x ≠ "Area Code".
Proof. intros H. prefix_cases c H. Qed.

Section Success.

Variable repr_float : spec_float -> string.
Variable parse_csv : string -> result DataFrame.
Variable permutation : Z -> nat -> list nat.
Hypothesis permutation_perm : forall seed n, permutation seed n ≡ₚ seq 0 n.

(** X18.  When the job succeeds.  If the object of the location parses
    to a valid frame of fewer than [2 ^ 63] rows and the three output
    directories are mounted, the run returns normally, the three files
    hold the text of the three splits, and the splits have as many rows
    together as the input. *)
Theorem valid_run_succeeds (seed : Z) (input_data text : string) (w : world)
    (df : DataFrame) :
  downloaded input_data w = Ok text -> parse_csv text = Ok df ->
  valid_input df -> Z.of_nat (len df) < 2 ^ 63 -> mounted w ->
  exists train validation test,
    transform repr_float permutation seed df = Ok (train, validation, test) /\
    (len train + len validation + len test = len df)%nat /\
    (preprocess repr_float parse_csv permutation seed input_data w).1 = Ok () /\
    files (preprocess repr_float parse_csv permutation seed input_data w).2 !! train_path
      = Some (csv_text repr_float train) /\
    files (preprocess repr_float parse_csv permutation seed input_data w).2 !! validation_path
      = Some (csv_text repr_float validation) /\
    files (preprocess repr_float parse_csv permutation seed input_data w).2 !! test_path
      = Some (csv_text repr_float test).
Proof.
  intros Hdl Hparse Hvalid Hn Hm.
  destruct (clean_valid df Hvalid)
    as (cleaned & churn & Hclean & Hidx & Hnd & Hnot & Hin & Hin' & Hobj & Hvals
        & HT & HF & Hlen).
  pose proof (encode_valid repr_float cleaned churn Hnd Hnot Hin' Hobj Hvals HT HF)
    as Hencode.
  set (model_data := mkFrame (index cleaned) _) in Hencode.
  assert (len model_data = len df) as Hlen' by (unfold len; cbn; by rewrite Hidx).
  pose proof (split_succeeds permutation seed model_data
                ltac:(by rewrite Hlen')) as Hok.
  destruct (split permutation seed model_data) as [[[train validation] test]|] eqn:Hsplit;
    [|discriminate Hok].
  destruct (split_lengths permutation permutation_perm seed model_data train validation test
              ltac:(by rewrite Hlen') Hsplit)
    as (a & b & _ & _ & Hab & Htr & Hva & Hte).
  assert (transform repr_float permutation seed df = Ok (train, validation, test)) as Hrun.
  { unfold transform. rewrite Hclean. cbn [mbind result_bind].
    rewrite Hencode. cbn [mbind result_bind]. exact Hsplit. }
  exists train, validation, test. split; [exact Hrun|]. split; [lia|].
  rewrite preprocess_unfold, Hdl. unfold outcome. rewrite Hdl. cbn [mbind result_bind].
  rewrite Hparse. cbn [mbind result_bind]. rewrite Hrun.
  rewrite write_splits_mounted by (by apply mounted_after_download).
  cbn [fst snd]. unfold write_file. cbn [files]. split; [done|]. split_and!.
  - rewrite lookup_insert_ne by distinct_paths.
    rewrite lookup_insert_ne by distinct_paths. apply lookup_insert_eq.
  - rewrite lookup_insert_ne by distinct_paths. apply lookup_insert_eq.
  - apply lookup_insert_eq.
Qed.

End Success.

Section AreaCode.

Variable repr_float : spec_float -> string.

(** X19.  The area code is encoded as a category.  After cleaning and
    encoding no column is labelled [Area Code]; for every value of the
    area code that is not missing, the encoded frame has the indicator
    column of that value, labelled [Area Code_] followed by the text of
    the value. *)
Theorem area_code_is_encoded (df cleaned model_data : DataFrame) (area : Series)
    (v : scalar) :
  clean df = Ok cleaned -> encode repr_float cleaned = Ok model_data ->
  ("Area Code", area) ∈ columns df -> v ∈ s_values area -> isna v = false ->
  ("Area Code" ∉ labels model_data) /\
  exists l,
    py_eqb v l = true /\
    ("Area Code" +:+ "_" +:+ py_str repr_float l,
     mkSeries uint8 ((fun x => Int (Z.b2z (py_eqb x l))) <$> s_values area))
    ∈ columns model_data.
Proof.
  intros Hclean Hencode Harea Hv Hna.
  apply clean_result in Hclean as [_ ->].
  apply encode_columns in Hencode as ->.
  set (cleaned := mkFrame (index df) _).
  assert (forall c, c ∈ columns cleaned -> c.1 = "Area Code" -> is_object c) as Hboxed.
  { intros c (c0 & -> & _)%list_elem_of_fmap Hlabel. rewrite cleaned_column_label in Hlabel.
    unfold cleaned_column. by rewrite decide_True. }
  split.
  - unfold labels. cbn [columns].
    intros (c & Hlabel & Hc)%list_elem_of_fmap.
    assert (c ∈ numeric_columns cleaned ++ indicator_columns repr_float cleaned) as Hc'.
    { apply elem_of_app in Hc as [Hc|Hc]; by apply list_elem_of_filter in Hc as [_ Hc]. }
    apply elem_of_app in Hc' as [Hnum|Hind].
    + apply list_elem_of_filter in Hnum as [Hnot Hin]. apply Hnot. by apply Hboxed.
    + apply indicator_column_shape in Hind as (c0 & l & _ & _ & _ & ->).
      cbn [fst] in Hlabel. symmetry in Hlabel. by apply no_underscore_in_area_code in Hlabel.
  - assert (("Area Code", mkSeries object_ (s_values area)) ∈ columns cleaned) as Hin.
    { subst cleaned. cbn [columns]. apply list_elem_of_fmap.
      exists ("Area Code", area). split; [by unfold cleaned_column; rewrite decide_True|].
      apply list_elem_of_filter. split; [|done]. cbn [fst]. unfold discard_columns.
      intros H. repeat (apply elem_of_cons in H as [H|H]; [discriminate H|]).
      by apply elem_of_nil in H. }
    assert (exists l, l ∈ levels (s_values area) /\ py_eqb v l = true) as (l & Hl & Heq).
    { pose proof (uniques_one_match (filter (fun w => isna w = false) (s_values area)) v)
        as Hone.
      destruct (filter (fun l => py_eqb v l = true)
                  (uniques (filter (fun w => isna w = false) (s_values area))))
        as [|l ls] eqn:Hf.
      - exfalso. cbn in Hone. assert (0 = 1)%nat; [|lia]. apply Hone.
        + apply Forall_forall. by intros w [Hw _]%list_elem_of_filter.
        + by apply list_elem_of_filter.
      - assert (l ∈ l :: ls) as Hmem by apply list_elem_of_here.
        rewrite <- Hf in Hmem. apply list_elem_of_filter in Hmem as [Heq Hmem].
        exists l. split; [|done]. unfold levels. by rewrite merge_sort_Permutation. }
    exists l. split; [exact Heq|]. cbn [columns]. apply elem_of_app. right.
    apply list_elem_of_filter. split.
    + cbn [fst]. unfold churn_labels. intros H.
      apply elem_of_cons in H as [H|H]; [by apply churn_false_prefix in H|].
      apply elem_of_cons in H as [H|H]; [by apply churn_prefix in H|].
      by apply elem_of_nil in H.
    + apply elem_of_app. right. unfold indicator_columns. apply list_elem_of_bind.
      exists ("Area Code", mkSeries object_ (s_values area)). split.
      * unfold get_dummies_1d. cbn [fst snd s_values]. apply list_elem_of_fmap.
        by exists l.
      * apply list_elem_of_filter. split; [done|exact Hin].
Qed.

End AreaCode.

(** ** The columns of the three outputs *)

Section Columns.

Variable repr_float : spec_float -> string.
Variable parse_csv : string -> result DataFrame.
Variable permutation : Z -> nat -> list nat.

(** Each split is a selection of rows of the frame that is split. *)
Lemma split_selects (seed : Z) (md train validation test : DataFrame) :
  split permutation seed md = Ok (train, validation, test) ->
  exists la lb lc : list nat,
    train = take_rows la md /\ validation = take_rows lb md /\ test = take_rows lc md.
Proof.
  unfold split. cbv zeta.
  destruct (int_frac float_0_7 _) as [a|]; [|done].
  destruct (int_frac float_0_9 _) as [b|]; [|done].
  cbn [mbind result_bind]. unfold np_split, sample. cbv zeta. cbn [drop zip_with app].
  rewrite !slice_take_rows. intros [= <- <- <-]. by eexists _, _, _.
Qed.

(** A run that ends without an exception has read a frame, computed its
    splits and written the text of each split to its file. *)
Lemma successful_run (seed : Z) (input_data : string) (w : world) :
  (preprocess repr_float parse_csv permutation seed input_data w).1 = Ok () ->
  exists (text : string) (df train validation test : DataFrame),
    downloaded input_data w = Ok text /\ parse_csv text = Ok df /\
    transform repr_float permutation seed df = Ok (train, validation, test) /\
    files (preprocess repr_float parse_csv permutation seed input_data w).2 !! train_path
      = Some (csv_text repr_float train) /\
    files (preprocess repr_float parse_csv permutation seed input_data w).2
      !! validation_path = Some (csv_text repr_float validation) /\
    files (preprocess repr_float parse_csv permutation seed input_data w).2 !! test_path
      = Some (csv_text repr_float test).
Proof.
  rewrite preprocess_unfold. unfold outcome.
  destruct (downloaded input_data w) as [text|e]; [|done].
  cbn [mbind result_bind].
  destruct (parse_csv text) as [df|e] eqn:Hparse; [|done].
  cbn [mbind result_bind].
  destruct (transform repr_float permutation seed df)
    as [[[train validation] test]|e] eqn:Hrun; [|done].
  unfold write_splits, mbind, M_bind, to_csv. cbn [fst snd write_file dirs].
  destruct (decide (dirname train_path ∈ _)); [|intros [=]].
  destruct (decide (dirname validation_path ∈ _)); [|intros [=]].
  destruct (decide (dirname test_path ∈ _)); [|intros [=]].
  intros _. exists text, df, train, validation, test.
  split; [done|]. split; [done|]. split; [done|].
  cbn [fst snd write_file files]. split_and!.
  - rewrite lookup_insert_ne by done. rewrite lookup_insert_ne by done.
    apply lookup_insert_eq.
  - rewrite lookup_insert_ne by done. apply lookup_insert_eq.
  - apply lookup_insert_eq.
Qed.

(** C9.  The three outputs of a run have the same columns in the same
    order.  After a run that ends without an exception, each of the
    three files is made of one line per row of its split, and every line
    of every file lists one field for each column of the encoded frame,
    in the order of the columns of that frame: the field of the first
    column first, and no column left out, added or moved.  A line is its
    fields joined by commas and ended by a newline.  The splits
    themselves have the labels and element types of the encoded frame,
    in its order. *)
Theorem splits_share_columns (seed : Z) (input_data : string) (w : world) :
  (preprocess repr_float parse_csv permutation seed input_data w).1 = Ok () ->
  exists (text : string) (df cleaned model_data train validation test : DataFrame)
         (la lb lc : list nat),
    downloaded input_data w = Ok text /\ parse_csv text = Ok df /\
    clean df = Ok cleaned /\ encode repr_float cleaned = Ok model_data /\
    split permutation seed model_data = Ok (train, validation, test) /\
    schema train = schema model_data /\ schema validation = schema model_data /\
    schema test = schema model_data /\
    (forall fields : list string, fields <> [EmptyString] ->
       csv_line fields = py_join "," fields +:+ String newline EmptyString) /\
    forall (path : string) (locs : list nat),
      (path, locs) ∈ [(train_path, la); (validation_path, lb); (test_path, lc)] ->
      files (preprocess repr_float parse_csv permutation seed input_data w).2 !! path
      = Some (String.concat ""
                ((fun i => csv_line ((fun c => csv_field repr_float (nth i (s_values c.2) nan))
                                       <$> columns model_data))
                   <$> locs)).
Proof.
  intros Hok.
  destruct (successful_run seed input_data w Hok)
    as (text & df & train & validation & test & Hdl & Hparse & Hrun & Htr & Hva & Hte).
  destruct (transform_schema repr_float permutation seed df train validation test Hrun)
    as (cleaned & md & Hclean & Hencode & Hsplit & Hs1 & Hs2 & Hs3).
  destruct (split_selects seed md train validation test Hsplit)
    as (la & lb & lc & -> & -> & ->).
  exists text, df, cleaned, md, (take_rows la md), (take_rows lb md), (take_rows lc md),
    la, lb, lc.
  split_and!; try done.
  { intros fields Hfields. unfold csv_line.
    destruct fields as [|[|c field] [|field' fields]]; done. }
  intros path locs Hin.
  apply elem_of_cons in Hin as [[= -> ->]|Hin];
    [by rewrite Htr, csv_text_take_rows|].
  apply elem_of_cons in Hin as [[= -> ->]|Hin];
    [by rewrite Hva, csv_text_take_rows|].
  apply elem_of_cons in Hin as [[= -> ->]|Hin];
    [by rewrite Hte, csv_text_take_rows|].
  by apply elem_of_nil in Hin.
Qed.

End Columns.

Lemma splits_share_columns_witness :
  (preprocess repr_exact Reader.parse_csv rotation 1729 Sample.input_data
     (Sample.job Sample.ten_rows)).1 = Ok () /\
  exists (cleaned model_data : DataFrame) (la lb lc : list nat),
    encode repr_exact cleaned = Ok model_data /\
    forall (path : string) (locs : list nat),
      (path, locs) ∈ [(train_path, la); (validation_path, lb); (test_path, lc)] ->
      files (preprocess repr_exact Reader.parse_csv rotation 1729 Sample.input_data
               (Sample.job Sample.ten_rows)).2 !! path
      = Some (String.concat ""
                ((fun i => csv_line ((fun c => csv_field repr_exact (nth i (s_values c.2) nan))
                                       <$> columns model_data))
                   <$> locs)).
Proof.
  assert ((preprocess repr_exact Reader.parse_csv rotation 1729 Sample.input_data
             (Sample.job Sample.ten_rows)).1 = Ok ()) as Hok by (by vm_compute).
  split; [exact Hok|].
  destruct (splits_share_columns repr_exact Reader.parse_csv rotation 1729
              Sample.input_data (Sample.job Sample.ten_rows) Hok)
    as (text & df & cleaned & md & train & validation & test & la & lb & lc
        & _ & _ & _ & Hencode & _ & _ & _ & _ & _ & Hfiles).
  exists cleaned, md, la, lb, lc. exact (conj Hencode Hfiles).
Defined.

(** ** The further theorems at sample inputs *)


Lemma job_reads_uploaded_data_witness :
  ("/"%char ∉ list_ascii_of_string "sagemaker-eu-west-1-123456789012") /\
  downloaded (input_data_url "sagemaker-eu-west-1-123456789012")
    (upload_raw_data "sagemaker-eu-west-1-123456789012" Sample.two_rows
       (Sample.job Sample.ten_rows))
  = Ok Sample.two_rows.
Proof.
  assert ("/"%char ∉ list_ascii_of_string "sagemaker-eu-west-1-123456789012") as Hb
    by by_computation.
  split; [exact Hb|].
  exact (job_reads_uploaded_data "sagemaker-eu-west-1-123456789012" Sample.two_rows
           (Sample.job Sample.ten_rows) Hb).
Defined.

Lemma location_without_bucket_aborts_witness :
  (count_char "/" "data/RawData.csv" < 2)%nat /\
  (preprocess repr_exact Reader.parse_csv rotation 1729 "data/RawData.csv"
     (Sample.job Sample.ten_rows)).1 = Raise IndexError.
Proof.
  assert (count_char "/" "data/RawData.csv" < 2)%nat as Hc by (vm_compute; lia).
  split; [exact Hc|].
  destruct (location_without_bucket_aborts repr_exact Reader.parse_csv rotation 1729
              "data/RawData.csv" (Sample.job Sample.ten_rows) Hc) as (Hraise & _).
  exact Hraise.
Defined.


Lemma missing_output_directory_leaves_train_file_witness :
  dirname train_path ∈ dirs (Fixture.train_only Sample.ten_rows) /\
  (dirname validation_path ∉ dirs (Fixture.train_only Sample.ten_rows)) /\
  (run_on (Fixture.train_only Sample.ten_rows)).1 = Raise FileNotFoundError /\
  files (run_on (Fixture.train_only Sample.ten_rows)).2 !! train_path
    = Some (csv_text repr_exact (Sample.splits Sample.ten_rows).1.1).
Proof.
  assert (dirname train_path ∈ dirs (Fixture.train_only Sample.ten_rows)) as Ht
    by by_computation.
  assert (dirname validation_path ∉ dirs (Fixture.train_only Sample.ten_rows)) as Hv
    by by_computation.
  split; [exact Ht|]. split; [exact Hv|].
  destruct (missing_output_directory_leaves_train_file repr_exact Reader.parse_csv
              rotation 1729 Sample.input_data (Fixture.train_only Sample.ten_rows)
              (Sample.splits Sample.ten_rows).1.1 (Sample.splits Sample.ten_rows).1.2
              (Sample.splits Sample.ten_rows).2 ltac:(by vm_compute) Ht Hv)
    as (Hraise & Htrain & _).
  exact (conj Hraise Htrain).
Defined.

Lemma rerun_changes_nothing_witness :
  (run_on (Sample.job Sample.ten_rows)).1 = Ok () /\
  run_on (run_on (Sample.job Sample.ten_rows)).2
  = (Ok (), (run_on (Sample.job Sample.ten_rows)).2).
Proof.
  assert ((run_on (Sample.job Sample.ten_rows)).1 = Ok ()) as Hok by (by vm_compute).
  split; [exact Hok|].
  exact (rerun_changes_nothing repr_exact Reader.parse_csv rotation 1729
           Sample.input_data (Sample.job Sample.ten_rows) Hok).
Defined.

Lemma encode_needs_both_classes_witness :
  NoDup (labels Fixture.no_churn) /\
  Forall (fun l => l ∉ labels Fixture.no_churn) churn_labels /\
  ("Churn?", mkSeries object_ [Str "False."; Str "False."]) ∈ columns Fixture.no_churn /\
  Forall two_valued [Str "False."; Str "False."] /\
  (Str "True." ∉ [Str "False."; Str "False."]) /\
  encode repr_exact Fixture.no_churn = Raise (KeyError ["Churn?_True."]).
Proof.
  assert (NoDup (labels Fixture.no_churn)) as Hnd by by_computation.
  assert (Forall (fun l => l ∉ labels Fixture.no_churn) churn_labels) as Hnot
    by by_computation.
  assert (("Churn?", mkSeries object_ [Str "False."; Str "False."])
            ∈ columns Fixture.no_churn) as Hin by by_computation.
  assert (Forall two_valued [Str "False."; Str "False."]) as Hvals
    by (unfold two_valued; by_computation).
  assert (Str "True." ∉ [Str "False."; Str "False."]) as HnoT by by_computation.
  split; [exact Hnd|]. split; [exact Hnot|]. split; [exact Hin|].
  split; [exact Hvals|]. split; [exact HnoT|].
  destruct (encode_needs_both_classes repr_exact Fixture.no_churn
              (mkSeries object_ [Str "False."; Str "False."]) Hnd Hnot Hin eq_refl Hvals)
    as [Hnone _].
  exact (Hnone HnoT).
Defined.

Lemma indicators_are_one_hot_witness :
  (2 < length (s_values Fixture.plans))%nat /\
  length (filter (fun x => x = Int 1)
            ((fun c => nth 1 (s_values c.2) nan)
               <$> get_dummies_1d repr_exact "Int'l Plan" Fixture.plans)) = 1%nat /\
  length (filter (fun x => x = Int 1)
            ((fun c => nth 2 (s_values c.2) nan)
               <$> get_dummies_1d repr_exact "Int'l Plan" Fixture.plans)) = 0%nat.
Proof.
  assert (2 < length (s_values Fixture.plans))%nat as H2 by (vm_compute; lia).
  assert (1 < length (s_values Fixture.plans))%nat as H1 by (vm_compute; lia).
  split; [exact H2|].
  destruct (indicators_are_one_hot repr_exact "Int'l Plan" Fixture.plans 1 H1) as [_ Hone].
  destruct (indicators_are_one_hot repr_exact "Int'l Plan" Fixture.plans 2 H2) as [_ Hnone].
  exact (conj Hone Hnone).
Defined.

Lemma outputs_concatenate_witness :
  (forall seed n, rotation seed n ≡ₚ seq 0 n) /\
  Z.of_nat (len ten) < 2 ^ 63 /\
  split rotation 1729 ten
    = Ok ((Sample.splits Sample.ten_rows).1.1, (Sample.splits Sample.ten_rows).1.2,
          (Sample.splits Sample.ten_rows).2) /\
  csv_text repr_exact (Sample.splits Sample.ten_rows).1.1
    +:+ csv_text repr_exact (Sample.splits Sample.ten_rows).1.2
    +:+ csv_text repr_exact (Sample.splits Sample.ten_rows).2
  = csv_text repr_exact (sample rotation 1729 ten).
Proof.
  assert (Z.of_nat (len ten) < 2 ^ 63) as Hn by (by vm_compute).
  assert (split rotation 1729 ten
          = Ok ((Sample.splits Sample.ten_rows).1.1, (Sample.splits Sample.ten_rows).1.2,
                (Sample.splits Sample.ten_rows).2)) as Hsplit by (by vm_compute).
  split; [exact rotation_perm|]. split; [exact Hn|]. split; [exact Hsplit|].
  exact (outputs_concatenate repr_exact rotation rotation_perm 1729 ten _ _ _ Hn Hsplit).
Defined.

Lemma transform_keeps_every_row_witness :
  (forall seed n, rotation seed n ≡ₚ seq 0 n) /\
  Z.of_nat (len (Sample.parsed Sample.ten_rows)) < 2 ^ 63 /\
  transform repr_exact rotation 1729 (Sample.parsed Sample.ten_rows)
    = Ok ((Sample.splits Sample.ten_rows).1.1, (Sample.splits Sample.ten_rows).1.2,
          (Sample.splits Sample.ten_rows).2) /\
  index (Sample.splits Sample.ten_rows).1.1 ++ index (Sample.splits Sample.ten_rows).1.2
    ++ index (Sample.splits Sample.ten_rows).2
  ≡ₚ index (Sample.parsed Sample.ten_rows).
Proof.
  assert (Z.of_nat (len (Sample.parsed Sample.ten_rows)) < 2 ^ 63) as Hn by (by vm_compute).
  assert (transform repr_exact rotation 1729 (Sample.parsed Sample.ten_rows)
          = Ok ((Sample.splits Sample.ten_rows).1.1, (Sample.splits Sample.ten_rows).1.2,
                (Sample.splits Sample.ten_rows).2)) as Hrun by (by vm_compute).
  split; [exact rotation_perm|]. split; [exact Hn|]. split; [exact Hrun|].
  exact (transform_keeps_every_row repr_exact rotation rotation_perm 1729
           (Sample.parsed Sample.ten_rows) _ _ _ Hn Hrun).
Defined.

Lemma split_sizes_witness :
  (forall seed n, rotation seed n ≡ₚ seq 0 n) /\
  Z.of_nat (len ten) < 2 ^ 48 /\
  split rotation 1729 ten
    = Ok ((Sample.splits Sample.ten_rows).1.1, (Sample.splits Sample.ten_rows).1.2,
          (Sample.splits Sample.ten_rows).2) /\
  7 * Z.of_nat (len ten) - 10 <= 10 * Z.of_nat (len (Sample.splits Sample.ten_rows).1.1)
    <= 7 * Z.of_nat (len ten).
Proof.
  assert (Z.of_nat (len ten) < 2 ^ 48) as Hn by (by vm_compute).
  assert (split rotation 1729 ten
          = Ok ((Sample.splits Sample.ten_rows).1.1, (Sample.splits Sample.ten_rows).1.2,
                (Sample.splits Sample.ten_rows).2)) as Hsplit by (by vm_compute).
  split; [exact rotation_perm|]. split; [exact Hn|]. split; [exact Hsplit|].
  destruct (split_sizes rotation rotation_perm 1729 ten _ _ _ Hn Hsplit) as [Htrain _].
  exact Htrain.
Defined.

Lemma splits_nonempty_iff_witness :
  (forall seed n, rotation seed n ≡ₚ seq 0 n) /\
  Z.of_nat (len ten) < 2 ^ 48 /\
  split rotation 1729 ten
    = Ok ((Sample.splits Sample.ten_rows).1.1, (Sample.splits Sample.ten_rows).1.2,
          (Sample.splits Sample.ten_rows).2) /\
  ((0 < len (Sample.splits Sample.ten_rows).1.2)%nat <-> (4 <= len ten)%nat).
Proof.
  assert (Z.of_nat (len ten) < 2 ^ 48) as Hn by (by vm_compute).
  assert (split rotation 1729 ten
          = Ok ((Sample.splits Sample.ten_rows).1.1, (Sample.splits Sample.ten_rows).1.2,
                (Sample.splits Sample.ten_rows).2)) as Hsplit by (by vm_compute).
  split; [exact rotation_perm|]. split; [exact Hn|]. split; [exact Hsplit|].
  destruct (splits_nonempty_iff rotation rotation_perm 1729 ten _ _ _ Hn Hsplit)
    as (_ & _ & Hvalidation).
  exact Hvalidation.
Defined.

Lemma predict_loop_stops_at_failure_witness :
  Forall2 (fun b a => Fixture.respond b = Returns a) [[[1; 2]]; [[3; 6]; [4; 8]]] ["0"; "0,0"] /\
  Fixture.respond [] = Raises (EndpointError "empty payload") /\
  predict_loop Fixture.respond ([[[1; 2]]; [[3; 6]; [4; 8]]] ++ [] :: [[[5; 10]]]) "" []
  = (Raises (EndpointError "empty payload"), [] ++ [[[1; 2]]; [[3; 6]; [4; 8]]] ++ [[]]).
Proof.
  assert (Forall2 (fun b a => Fixture.respond b = Returns a)
            [[[1; 2]]; [[3; 6]; [4; 8]]] ["0"; "0,0"]) as Hall.
  { repeat (apply Forall2_cons; split; [reflexivity|]). apply Forall2_nil_2. }
  split; [exact Hall|]. split; [reflexivity|].
  exact (predict_loop_stops_at_failure Fixture.respond [[[1; 2]]; [[3; 6]; [4; 8]]]
           [[[5; 10]]] [] ["0"; "0,0"] (EndpointError "empty payload") "" [] Hall eq_refl).
Defined.

Lemma predict_sends_batches_witness :
  1 <= 3 < 2 ^ 48 /\ Z.of_nat (length Fixture.seven) < 2 ^ 48 /\
  exists batches,
    List.concat batches = Fixture.seven /\
    Z.of_nat (length batches) = Z.of_nat (length Fixture.seven) / 3 + 1 /\
    Forall (fun b => Z.of_nat (length b) <= 3) batches.
Proof.
  assert (1 <= 3 < 2 ^ 48) as Hrows by (by vm_compute).
  assert (Z.of_nat (length Fixture.seven) < 2 ^ 48) as Hn by (by vm_compute).
  split; [exact Hrows|]. split; [exact Hn|].
  destruct (predict_sends_batches Fixture.respond Fixture.np_fromstring
              Fixture.seven 3 [] Hrows Hn)
    as (batches & _ & Hconcat & Hcount & Hsizes & _).
  exists batches. exact (conj Hconcat (conj Hcount Hsizes)).
Defined.

Lemma predict_zero_rows_witness :
  Z.of_nat (length Fixture.seven) < 2 ^ 63 /\
  predict Fixture.respond Fixture.np_fromstring Fixture.seven 0 []
  = (Raises ZeroDivisionError, []).
Proof.
  assert (Z.of_nat (length Fixture.seven) < 2 ^ 63) as Hn by (by vm_compute).
  split; [exact Hn|].
  exact (predict_zero_rows Fixture.respond Fixture.np_fromstring Fixture.seven [] Hn).
Defined.

Lemma valid_run_succeeds_witness :
  (forall seed n, rotation seed n ≡ₚ seq 0 n) /\
  downloaded Sample.input_data (Sample.job Sample.ten_rows) = Ok Sample.ten_rows /\
  Reader.parse_csv Sample.ten_rows = Ok (Sample.parsed Sample.ten_rows) /\
  valid_input (Sample.parsed Sample.ten_rows) /\
  Z.of_nat (len (Sample.parsed Sample.ten_rows)) < 2 ^ 63 /\
  mounted (Sample.job Sample.ten_rows) /\
  (run_on (Sample.job Sample.ten_rows)).1 = Ok ().
Proof.
  assert (downloaded Sample.input_data (Sample.job Sample.ten_rows) = Ok Sample.ten_rows)
    as Hdl by (by vm_compute).
  assert (Reader.parse_csv Sample.ten_rows = Ok (Sample.parsed Sample.ten_rows))
    as Hparse by (by vm_compute).
  assert (Z.of_nat (len (Sample.parsed Sample.ten_rows)) < 2 ^ 63) as Hn by (by vm_compute).
  assert (mounted (Sample.job Sample.ten_rows)) as Hm.
  { unfold mounted, output_paths. repeat (apply Forall_cons_2; [by_computation|]).
    apply Forall_nil_2. }
  split; [exact rotation_perm|]. split; [exact Hdl|]. split; [exact Hparse|].
  split; [exact ten_rows_valid|]. split; [exact Hn|]. split; [exact Hm|].
  destruct (valid_run_succeeds repr_exact Reader.parse_csv rotation rotation_perm 1729
              Sample.input_data Sample.ten_rows (Sample.job Sample.ten_rows)
              (Sample.parsed Sample.ten_rows) Hdl Hparse ten_rows_valid Hn Hm)
    as (train & validation & test & _ & _ & Hok & _).
  exact Hok.
Defined.

Lemma area_code_is_encoded_witness :
  clean (Sample.parsed Sample.two_rows) = Ok (Sample.cleaned Sample.two_rows) /\
  encode repr_exact (Sample.cleaned Sample.two_rows) = Ok (Sample.encoded Sample.two_rows) /\
  ("Area Code", mkSeries int64 [Int 806; Int 836]) ∈ columns (Sample.parsed Sample.two_rows) /\
  Int 836 ∈ [Int 806; Int 836] /\
  ("Area Code" ∉ labels (Sample.encoded Sample.two_rows)) /\
  exists l,
    py_eqb (Int 836) l = true /\
    ("Area Code" +:+ "_" +:+ py_str repr_exact l,
     mkSeries uint8 ((fun x => Int (Z.b2z (py_eqb x l))) <$> [Int 806; Int 836]))
    ∈ columns (Sample.encoded Sample.two_rows).
Proof.
  assert (clean (Sample.parsed Sample.two_rows) = Ok (Sample.cleaned Sample.two_rows))
    as Hclean by (by vm_compute).
  assert (encode repr_exact (Sample.cleaned Sample.two_rows)
          = Ok (Sample.encoded Sample.two_rows)) as Hencode by (by vm_compute).
  assert (("Area Code", mkSeries int64 [Int 806; Int 836])
            ∈ columns (Sample.parsed Sample.two_rows)) as Harea by by_computation.
  assert (Int 836 ∈ [Int 806; Int 836]) as Hv by by_computation.
  split; [exact Hclean|]. split; [exact Hencode|]. split; [exact Harea|].
  split; [exact Hv|].
  exact (area_code_is_encoded repr_exact (Sample.parsed Sample.two_rows)
           (Sample.cleaned Sample.two_rows) (Sample.encoded Sample.two_rows)
           (mkSeries int64 [Int 806; Int 836]) (Int 836) Hclean Hencode Harea Hv eq_refl).
Defined.
